(** * WebMint deployment pipeline: the Cloudflare Pages service and its
      streaming endpoints, embedded from
      [src/lib/cloudflare-pages.ts] (class [CloudFlarePagesService]),
      the Next.js route [POST] of the deploy-stream endpoint and the Remix
      [action] of the same endpoint. *)

From Stdlib Require Import String Ascii List NArith ZArith Bool Lia Arith.
Import ListNotations.

Local Open Scope N_scope.
Local Open Scope list_scope.

(* ================================================================== *)
(** * JavaScript strings and values *)
(* ================================================================== *)

(** A JavaScript string is a sequence of UTF-16 code units; [length],
    [substring] and the regular expressions of the service (none has the
    [u] flag) all count code units. *)
Definition jsstring := list N.

(** A Rocq literal read as a JavaScript string (one code unit per
    character; the literals of the service are ASCII). *)
Fixpoint lit (s : string) : jsstring :=
  match s with
  | EmptyString => []
  | String a r => N_of_ascii a :: lit r
  end.

Fixpoint jsEq (a b : jsstring) : bool :=
  match a, b with
  | [], [] => true
  | x :: a', y :: b' => (x =? y) && jsEq a' b'
  | _, _ => false
  end.

Definition isEmpty (s : jsstring) : bool :=
  match s with [] => true | _ => false end.

Definition hyphen : N := 45.
Definition dot : N := 46.
Definition dquote : jsstring := [34].
Definition newline : jsstring := [10].

(** [String.prototype.includes]. *)
Fixpoint startsWith (p s : jsstring) : bool :=
  match p, s with
  | [], _ => true
  | _ :: _, [] => false
  | a :: p', b :: s' => (a =? b) && startsWith p' s'
  end.

Fixpoint includes (s p : jsstring) : bool :=
  startsWith p s ||
  match s with
  | [] => false
  | _ :: s' => includes s' p
  end.

Fixpoint dropWhile (f : N -> bool) (s : jsstring) : jsstring :=
  match s with
  | [] => []
  | c :: r => if f c then dropWhile f r else s
  end.

Definition dropWhileEnd (f : N -> bool) (s : jsstring) : jsstring :=
  rev (dropWhile f (rev s)).

(** White space and line terminators of ECMAScript, as removed by
    [String.prototype.trim]. *)
Definition isLineTerminator (c : N) : bool :=
  (c =? 10) || (c =? 13) || (c =? 8232) || (c =? 8233).

Definition isWhiteSpace (c : N) : bool :=
  ((9 <=? c) && (c <=? 13)) || (c =? 32) || (c =? 160) || (c =? 5760)
  || ((8192 <=? c) && (c <=? 8202)) || (c =? 8232) || (c =? 8233)
  || (c =? 8239) || (c =? 8287) || (c =? 12288) || (c =? 65279).

Definition trim (s : jsstring) : jsstring :=
  dropWhileEnd isWhiteSpace (dropWhile isWhiteSpace s).

(** JSON values as [response.json()] and [request.json()] deliver them,
    with [undefined] for absent properties.  The service never computes
    with numbers; only their truthiness is observed, so a number is kept
    as an integer. *)
#[local] Unset Elimination Schemes.
Inductive JSValue : Type :=
| JUndefined
| JNull
| JBool (b : bool)
| JNum (n : Z)
| JStr (s : jsstring)
| JArr (items : list JSValue)
| JObj (fields : list (jsstring * JSValue)).
#[local] Set Elimination Schemes.

Definition truthy (v : JSValue) : bool :=
  match v with
  | JUndefined | JNull => false
  | JBool b => b
  | JNum n => negb (n =? 0)%Z
  | JStr s => negb (isEmpty s)
  | JArr _ | JObj _ => true
  end.

Fixpoint lookup {A : Type} (k : jsstring) (o : list (jsstring * A)) : option A :=
  match o with
  | [] => None
  | (k', v) :: r => if jsEq k k' then Some v else lookup k r
  end.

(** [o[k] = v] on an object kept in insertion order. *)
Fixpoint assign {A : Type} (k : jsstring) (v : A) (o : list (jsstring * A))
  : list (jsstring * A) :=
  match o with
  | [] => [(k, v)]
  | (k', v') :: r => if jsEq k k' then (k, v) :: r else (k', v') :: assign k v r
  end.

Definition keys {A : Type} (o : list (jsstring * A)) : list jsstring :=
  map fst o.

(* ================================================================== *)
(** * The runtime the service runs on *)
(* ================================================================== *)

Definition bytes := list N.

(** An entry of a JSZip archive.  [zip.file(name, content)] stamps the
    entry with the date at which it is added (the [date] option defaults
    to [new Date()]); the stamp is written into the archive. *)
Record ZipEntry : Type := mkZipEntry {
  zeName : jsstring;
  zeContent : jsstring;
  zeDate : N
}.

(** Library functions of Node and JSZip that the service calls and whose
    code is not part of the repository. *)
Record Runtime : Type := mkRuntime {
  toLowerCase : jsstring -> jsstring;      (* String.prototype.toLowerCase *)
  utf8 : jsstring -> bytes;                (* Buffer.from(string) *)
  base64 : bytes -> jsstring;              (* buffer.toString('base64') *)
  md5hex : bytes -> jsstring;              (* createHash('md5')...digest('hex') *)
  sha256hex : bytes -> jsstring;           (* createHash('sha256')...digest('hex') *)
  stringify : JSValue -> jsstring;         (* JSON.stringify(v) *)
  stringifyPretty : JSValue -> jsstring;   (* JSON.stringify(v, null, 2) *)
  zipBytes : list ZipEntry -> bytes;       (* zip.generateAsync(...) *)
  toISOString : N -> jsstring;             (* date.toISOString() *)
  pathJoin : list jsstring -> jsstring;    (* path.join(...) *)
  display : JSValue -> jsstring            (* a value inside a template literal *)
}.

(* ================================================================== *)
(** * Pure helpers of [CloudFlarePagesService] *)
(* ================================================================== *)

Definition isLowerAlnum (c : N) : bool :=
  ((97 <=? c) && (c <=? 122)) || ((48 <=? c) && (c <=? 57)).

Definition isNameChar (c : N) : bool :=
  isLowerAlnum c || (c =? hyphen).

Definition isHyphen (c : N) : bool := c =? hyphen.

(** [.replace(/[^a-z0-9-]/g, '-')] *)
Definition replaceInvalid (s : jsstring) : jsstring :=
  map (fun c => if isNameChar c then c else hyphen) s.

(** [.replace(/-+/g, '-')]; [prev] tells that the previous code unit was
    a hyphen of the run being collapsed. *)
Fixpoint collapseFrom (prev : bool) (s : jsstring) : jsstring :=
  match s with
  | [] => []
  | c :: r =>
      if isHyphen c
      then (if prev then collapseFrom true r else c :: collapseFrom true r)
      else c :: collapseFrom false r
  end.

Definition collapseHyphens (s : jsstring) : jsstring := collapseFrom false s.

(** [.replace(/^-+|-+$/g, '')] *)
Definition stripHyphens (s : jsstring) : jsstring :=
  dropWhileEnd isHyphen (dropWhile isHyphen s).

(** [/^[a-z0-9]/.test(s)] and [/[a-z0-9]$/.test(s)] *)
Definition startsAlnum (s : jsstring) : bool :=
  match s with
  | [] => false
  | c :: _ => isLowerAlnum c
  end.

Definition endsAlnum (s : jsstring) : bool := startsAlnum (rev s).

Section Helpers.

Variable rt : Runtime.

(** The chain of replacements that opens [sanitizeProjectName]. *)
Definition cleanName (name : jsstring) : jsstring :=
  stripHyphens (collapseHyphens (replaceInvalid (trim (toLowerCase rt name)))).

Definition sanitizeProjectName (name : jsstring) : jsstring :=
  let sanitized := cleanName name in
  let sanitized :=
    if negb (startsAlnum sanitized) then lit "webmint-" ++ sanitized else sanitized in
  let sanitized :=
    if negb (endsAlnum sanitized) then sanitized ++ lit "-app" else sanitized in
  let sanitized :=
    if (58 <? length sanitized)%nat
    then firstn 55 sanitized ++ lit "-app" else sanitized in
  let sanitized :=
    if (length sanitized <? 3)%nat
    then lit "webmint-" ++ sanitized ++ lit "-app" else sanitized in
  sanitized.

End Helpers.

(** The replacement of [deployPage] that cleans a URL: [url.replace(regex,
    '$1')], where [regex] is anchored at both ends and reads: one or more
    characters other than a dot, a dot, then a group of any characters.
    The first label is thus everything before the first dot and must not
    be empty; the group stops at a line terminator, so the rest must hold
    none for the end anchor to match.  On a match the whole string is
    replaced by the group. *)
Fixpoint splitAtDot (s : jsstring) : option (jsstring * jsstring) :=
  match s with
  | [] => None
  | c :: r =>
      if c =? dot then Some ([], r)
      else match splitAtDot r with
           | Some (a, b) => Some (c :: a, b)
           | None => None
           end
  end.

Definition noLineTerminator (s : jsstring) : bool :=
  forallb (fun c => negb (isLineTerminator c)) s.

Definition noDot (s : jsstring) : bool :=
  forallb (fun c => negb (c =? dot)) s.

Definition cleanUrl (url : jsstring) : jsstring :=
  match splitAtDot url with
  | Some (label, rest) =>
      if negb (isEmpty label) && noLineTerminator rest
      then rest else url
  | None => url
  end.

(** A prepared file: [{ content, type }]. *)
Record FileData : Type := mkFileData {
  content : jsstring;
  type : jsstring
}.

Definition DeploymentFiles := list (jsstring * FileData).

Record PageFiles : Type := mkPageFiles {
  html : jsstring;
  css : jsstring;
  js : jsstring
}.

Definition createFullHtmlPage (html css js : jsstring) : jsstring :=
  let hasExternalCss := negb (isEmpty css) && (500 <? length (trim css))%nat in
  let hasExternalJs := negb (isEmpty js) && (500 <? length (trim js))%nat in
  let cssTag :=
    if hasExternalCss
    then lit "<link rel=" ++ dquote ++ lit "stylesheet" ++ dquote
         ++ lit " href=" ++ dquote ++ lit "styles.css" ++ dquote ++ lit ">"
    else if negb (isEmpty css) then lit "<style>" ++ css ++ lit "</style>" else [] in
  let jsTag :=
    if hasExternalJs
    then lit "<script src=" ++ dquote ++ lit "script.js" ++ dquote ++ lit "></script>"
    else if negb (isEmpty js) then lit "<script>" ++ js ++ lit "</script>" else [] in
  lit "<!DOCTYPE html>" ++ newline
  ++ lit "<html lang=" ++ dquote ++ lit "en" ++ dquote ++ lit ">" ++ newline
  ++ lit "<head>" ++ newline
  ++ lit "    <meta charset=" ++ dquote ++ lit "UTF-8" ++ dquote ++ lit ">" ++ newline
  ++ lit "    <meta name=" ++ dquote ++ lit "viewport" ++ dquote
  ++ lit " content=" ++ dquote ++ lit "width=device-width, initial-scale=1.0"
  ++ dquote ++ lit ">" ++ newline
  ++ lit "    <title>Generated Page</title>" ++ newline
  ++ lit "    <script src=" ++ dquote ++ lit "https://cdn.tailwindcss.com" ++ dquote
  ++ lit "></script>" ++ newline
  ++ lit "    " ++ cssTag ++ newline
  ++ lit "</head>" ++ newline
  ++ lit "<body>" ++ newline
  ++ lit "    " ++ html ++ newline
  ++ lit "    " ++ jsTag ++ newline
  ++ lit "</body>" ++ newline
  ++ lit "</html>".

Definition prepareDeploymentFiles (files : PageFiles) : DeploymentFiles :=
  let fullHtml := createFullHtmlPage (html files) (css files) (js files) in
  let out := assign (lit "index.html") (mkFileData fullHtml (lit "text/html")) [] in
  let out :=
    if negb (isEmpty (css files)) && (0 <? length (trim (css files)))%nat
    then assign (lit "styles.css") (mkFileData (trim (css files)) (lit "text/css")) out
    else out in
  let out :=
    if negb (isEmpty (js files)) && (0 <? length (trim (js files)))%nat
    then assign (lit "script.js")
           (mkFileData (trim (js files)) (lit "application/javascript")) out
    else out in
  out.

(* ================================================================== *)
(** * Effects: thrown values, remote calls and the event stream *)
(* ================================================================== *)

(** A thrown value: an [Error] instance with its [message] and [status]
    property ([undefined] when it has none), or any other value. *)
Inductive Thrown : Type :=
| ErrorObj (message : jsstring) (status : JSValue)
| Other (v : JSValue).

Inductive Outcome (A : Type) : Type :=
| Ret (a : A)
| Throw (t : Thrown).
Arguments Ret {A} a.
Arguments Throw {A} t.

(** One entry of the array posted to the asset-upload endpoint. *)
Record UploadItem : Type := mkUploadItem {
  uBase64 : bool;
  uKey : jsstring;
  uValue : jsstring;
  uContentType : jsstring
}.

(** A chunk handed to [controller.enqueue]: the object serialised after
    [data: ], or the closing [data: [DONE]] line. *)
Inductive Chunk : Type :=
| Data (payload : JSValue)
| DoneMarker.

(** What an attempt does to the outside, in the order it does it. *)
Inductive Call : Type :=
| ProjectsGet (name : jsstring)
| ProjectsCreate (name : jsstring)
| Mkdir (path : jsstring)
| WriteFile (path : jsstring) (data : bytes)
| GetUploadToken (url : jsstring)
| UploadAssets (token : JSValue) (items : list UploadItem)
| CreateDeployment (url : jsstring) (manifest : list (jsstring * jsstring))
    (branch : jsstring)
| ProbeProject (name : JSValue)
| Enqueue (c : Chunk)
| Close.

Definition Trace := list Call.

(** Computations that may throw and that leave a trace: the outcome and
    the calls made, in order.  The calls made before a throw remain. *)
Definition M (A : Type) : Type := (Outcome A * Trace)%type.

Definition ret {A : Type} (a : A) : M A := (Ret a, []).

Definition throw {A : Type} (t : Thrown) : M A := (Throw t, []).

Definition bind {A B : Type} (m : M A) (k : A -> M B) : M B :=
  match fst m with
  | Ret a => (fst (k a), snd m ++ snd (k a))
  | Throw t => (Throw t, snd m)
  end.

(** [try { m } catch (error) { handler(error) }] *)
Definition tryCatch {A : Type} (m : M A) (handler : Thrown -> M A) : M A :=
  match fst m with
  | Ret a => (Ret a, snd m)
  | Throw t => (fst (handler t), snd m ++ snd (handler t))
  end.

Definition record (c : Call) : M unit := (Ret tt, [c]).

Definition lift {A : Type} (o : Outcome A) : M A := (o, []).

Declare Scope js_scope.
Delimit Scope js_scope with js.
Notation "x <- m ;; k" := (bind m (fun x => k))
  (at level 100, m at next level, right associativity) : js_scope.
Notation "m ;; k" := (bind m (fun _ => k))
  (at level 100, right associativity) : js_scope.
Local Open Scope js_scope.

(** A call whose promise resolves with nothing of interest or rejects. *)
Definition perform (c : Call) (fault : option Thrown) : M unit :=
  record c ;;
  match fault with
  | None => ret tt
  | Some t => throw t
  end.

Fixpoint forEach {A : Type} (f : A -> M unit) (l : list A) : M unit :=
  match l with
  | [] => ret tt
  | a :: r => f a ;; forEach f r
  end.

Definition typeError (msg : jsstring) : Thrown := ErrorObj msg JUndefined.

(** [v.k] for the property names the code reads ([result], [jwt], [url],
    [id], [created_on], [status], [message], [html], ...): reading from
    [undefined] or [null] throws, an object gives the property, and the
    other values have no property of these names. *)
Definition getProp (v : JSValue) (k : jsstring) : Outcome JSValue :=
  match v with
  | JUndefined =>
      Throw (typeError (lit "Cannot read properties of undefined (reading '"
                        ++ k ++ lit "')"))
  | JNull =>
      Throw (typeError (lit "Cannot read properties of null (reading '"
                        ++ k ++ lit "')"))
  | JObj fields =>
      Ret (match lookup k fields with Some x => x | None => JUndefined end)
  | _ => Ret JUndefined
  end.

(** [v?.k] *)
Definition getOpt (v : JSValue) (k : jsstring) : JSValue :=
  match v with
  | JObj fields => match lookup k fields with Some x => x | None => JUndefined end
  | _ => JUndefined
  end.

(** [a || b] *)
Definition orElse (a b : JSValue) : JSValue := if truthy a then a else b.

(** [error instanceof Error ? error.message : fallback] *)
Definition messageOr (fallback : jsstring) (t : Thrown) : jsstring :=
  match t with
  | ErrorObj m _ => m
  | Other _ => fallback
  end.

(** [response.json()] *)
Inductive BodyOutcome : Type :=
| BodyJson (v : JSValue)
| BodyThrows (t : Thrown).

(** What [fetch] does at one call site: it rejects, or it resolves with a
    response of which the code reads [ok] and [json()]. *)
Inductive FetchOutcome : Type :=
| FetchThrows (t : Thrown)
| Responded (ok : bool) (body : BodyOutcome).

Record Response : Type := mkResponse {
  respOk : bool;
  respUrl : jsstring;
  respBody : BodyOutcome
}.

Definition json (r : Response) : M JSValue :=
  match respBody r with
  | BodyJson v => ret v
  | BodyThrows t => throw t
  end.

(** [fetch(url, ...)]; [response.url] is the URL the request went to. *)
Definition fetch (c : Call) (url : jsstring) (o : FetchOutcome) : M Response :=
  record c ;;
  match o with
  | FetchThrows t => throw t
  | Responded ok body => ret (mkResponse ok url body)
  end.

Inductive ZipSite : Type :=
| BackupZip        (* createLocalBackupAndZip *)
| UploadZipBase64  (* zip.generateAsync({ type: 'base64' }) *)
| UploadZipBytes   (* zip.generateAsync({ type: 'uint8array' }) *)
| ManifestZip.     (* zipFiles.generateAsync({ type: 'uint8array' }) *)

(** Everything outside the process that one attempt meets.  Each call site
    of [deployPage] runs at most once per attempt, so one outcome per site
    describes the attempt.  The dates are the readings of the clock at the
    places where the attempt takes one. *)
Record World : Type := mkWorld {
  cwd : jsstring;                      (* process.cwd() *)
  projectsGet : option Thrown;         (* cf.pages.projects.get *)
  projectsCreate : option Thrown;      (* cf.pages.projects.create *)
  mkdirFault : option Thrown;          (* fs.promises.mkdir *)
  writeFault : jsstring -> option Thrown;  (* fs.promises.writeFile, by path *)
  zipFault : ZipSite -> option Thrown; (* generateAsync *)
  tokenFetch : FetchOutcome;
  uploadFetch : FetchOutcome;
  deployFetch : FetchOutcome;
  backupDate : N;                      (* new Date() at each place it is read *)
  backupZipDate : N;
  uploadZipDate : N;
  manifestZipDate : N;
  resultDate : N
}.

Record Service : Type := mkService {
  apiToken : jsstring;
  accountId : jsstring
}.

(** The object [deployPage] returns; an absent property is [undefined]. *)
Record DeployResult : Type := mkDeployResult {
  success : bool;
  deploymentId : JSValue;
  url : JSValue;
  projectName : JSValue;
  createdAt : JSValue;
  method : JSValue;
  warning : JSValue;
  error : JSValue
}.

Definition failure (message : jsstring) : DeployResult :=
  mkDeployResult false JUndefined JUndefined JUndefined JUndefined JUndefined
    JUndefined (JStr message).

(* ================================================================== *)
(** * [CloudFlarePagesService]: the effectful methods *)
(* ================================================================== *)

(** The path of the archive in the manifest:
    [`/${finalProjectName}-deployment.zip`]. *)
Definition zipPathOf (finalProjectName : jsstring) : jsstring :=
  lit "/" ++ finalProjectName ++ lit "-deployment.zip".

Section ServiceMethods.

Variable rt : Runtime.
Variable svc : Service.
Variable w : World.

(** [new JSZip()] filled with [zip.file(name, data.content)] for every
    entry of [deploymentFiles], all added at [date]. *)
Definition zipOf (deploymentFiles : DeploymentFiles) (date : N) : list ZipEntry :=
  map (fun '(name, data) => mkZipEntry name (content data) date) deploymentFiles.

Definition generateAsync (site : ZipSite) (entries : list ZipEntry) : M bytes :=
  match zipFault w site with
  | Some t => throw t
  | None => ret (zipBytes rt entries)
  end.

Definition createLocalBackupAndZip (deploymentFiles : DeploymentFiles)
    (projectName : jsstring) : M (jsstring * bytes) :=
  tryCatch
    (let timestamp :=
       map (fun c => if (c =? 58) || (c =? dot) then hyphen else c)
           (toISOString rt (backupDate w)) in
     let backupDir :=
       pathJoin rt [cwd w; lit "backups"; projectName ++ lit "-" ++ timestamp] in
     perform (Mkdir backupDir) (mkdirFault w) ;;
     forEach (fun '(fileName, fileData) =>
                let filePath := pathJoin rt [backupDir; fileName] in
                perform (WriteFile filePath (utf8 rt (content fileData)))
                        (writeFault w filePath))
             deploymentFiles ;;
     zipBuffer <- generateAsync BackupZip (zipOf deploymentFiles (backupZipDate w)) ;;
     let zipPath := pathJoin rt [backupDir; projectName ++ lit "-deployment.zip"] in
     perform (WriteFile zipPath zipBuffer) (writeFault w zipPath) ;;
     ret (backupDir, zipBuffer))
    (fun error => (* console.error(...); *) throw error).

(** The first [try]/[catch] of [deployPage]: look the project up and
    create it when the lookup fails with a message holding 404. *)
Definition ensureProject (finalProjectName : jsstring) : M unit :=
  tryCatch
    (perform (ProjectsGet finalProjectName) (projectsGet w))
    (fun error =>
       match error with
       | ErrorObj m _ =>
           if includes m (lit "404")
           then perform (ProjectsCreate finalProjectName) (projectsCreate w)
           else throw error
       | Other _ => throw error
       end).

Definition md5OfText (s : jsstring) : jsstring := md5hex rt (utf8 rt s).

Definition fileItem (data : FileData) (contentType : jsstring) : UploadItem :=
  mkUploadItem true (md5OfText (content data)) (base64 rt (utf8 rt (content data)))
    contentType.

(** [deploymentFiles[name]?.content] as a condition. *)
Definition hasContent (deploymentFiles : DeploymentFiles) (name : jsstring) : bool :=
  match lookup name deploymentFiles with
  | Some data => negb (isEmpty (content data))
  | None => false
  end.

(** [{ files: Object.fromEntries(... [name, { sha256 }] ...) }] *)
Definition auditManifest (deploymentFiles : DeploymentFiles) : JSValue :=
  JObj [(lit "files",
         JObj (map (fun '(name, data) =>
                      (name, JObj [(lit "sha256",
                                    JStr (sha256hex rt (utf8 rt (content data))))]))
                   deploymentFiles))].

(** Step 2 of [deployPage]: the array [uploadFiles]. *)
Definition buildUploadFiles (deploymentFiles : DeploymentFiles) : M (list UploadItem) :=
  index <- match lookup (lit "index.html") deploymentFiles with
           | Some data => ret data
           | None => throw (typeError
                       (lit "Cannot read properties of undefined (reading 'content')"))
           end ;;
  let uploadFiles := [fileItem index (lit "text/html")] in
  let uploadFiles :=
    if hasContent deploymentFiles (lit "script.js")
    then match lookup (lit "script.js") deploymentFiles with
         | Some data => uploadFiles ++ [fileItem data (lit "application/javascript")]
         | None => uploadFiles
         end
    else uploadFiles in
  let uploadFiles :=
    if hasContent deploymentFiles (lit "styles.css")
    then match lookup (lit "styles.css") deploymentFiles with
         | Some data => uploadFiles ++ [fileItem data (lit "text/css")]
         | None => uploadFiles
         end
    else uploadFiles in
  let manifest := auditManifest deploymentFiles in
  let uploadFiles :=
    uploadFiles ++
    [mkUploadItem true (md5OfText (stringify rt manifest))
       (base64 rt (utf8 rt (stringifyPretty rt manifest))) (lit "application/json")] in
  let zip := zipOf deploymentFiles (uploadZipDate w) in
  zipContent <- generateAsync UploadZipBase64 zip ;;
  zipRaw <- generateAsync UploadZipBytes zip ;;
  ret (uploadFiles ++
       [mkUploadItem true (md5hex rt zipRaw) (base64 rt zipContent)
          (lit "application/zip")]).

(** Step 4 of [deployPage]: the record [manifestData]. *)
Definition buildManifestData (deploymentFiles : DeploymentFiles)
    (finalProjectName : jsstring) : M (list (jsstring * jsstring)) :=
  let manifestData :=
    fold_left (fun acc '(fileName, fileData) =>
                 assign (lit "/" ++ fileName) (md5OfText (content fileData)) acc)
              deploymentFiles [] in
  zipContentFiles <- generateAsync ManifestZip
                       (zipOf deploymentFiles (manifestZipDate w)) ;;
  let manifestData :=
    assign (zipPathOf finalProjectName) (md5hex rt zipContentFiles) manifestData in
  let manifestJsonString := stringifyPretty rt (auditManifest deploymentFiles) in
  let manifestData :=
    assign (lit "/manifest.json") (md5OfText manifestJsonString) manifestData in
  ret manifestData.

Definition projectUrl (finalProjectName leaf : jsstring) : jsstring :=
  lit "https://api.cloudflare.com/client/v4/accounts/" ++ accountId svc
  ++ lit "/pages/projects/" ++ finalProjectName ++ leaf.

Definition uploadUrl : jsstring :=
  lit "https://api.cloudflare.com/client/v4/pages/assets/upload".

(** [value?.url?.replace(regex, '$1')] for [value = deploymentResult.result]. *)
Definition cleanedResultUrl (result : JSValue) : Outcome JSValue :=
  match result with
  | JUndefined | JNull => Ret JUndefined
  | _ =>
      match getOpt result (lit "url") with
      | JUndefined | JNull => Ret JUndefined
      | JStr s => Ret (JStr (cleanUrl s))
      | _ => Throw (typeError (lit "deploymentResult.result?.url?.replace is not a function"))
      end
  end.

(** [`https://${cleanUrl}`] *)
Definition httpsUrl (cleaned : JSValue) : jsstring :=
  lit "https://" ++ match cleaned with
                    | JStr s => s
                    | other => display rt other
                    end.

(** [projectName ? this.sanitizeProjectName(projectName) : defaultProjectName] *)
Definition resolveName (projectName : JSValue) : Outcome jsstring :=
  let defaultProjectName := lit "webmint-app" in
  if truthy projectName
  then match projectName with
       | JStr s => Ret (sanitizeProjectName rt s)
       | _ => Throw (typeError (lit "name.toLowerCase is not a function"))
       end
  else Ret defaultProjectName.

(** Step 1 of [deployPage]: get the upload token. *)
Definition getUploadToken (finalProjectName : jsstring) : M JSValue :=
  let tokenUrl := projectUrl finalProjectName (lit "/upload-token") in
  tokenResponse <- fetch (GetUploadToken tokenUrl) tokenUrl (tokenFetch w) ;;
  if negb (respOk tokenResponse)
  then errorData <- json tokenResponse ;;
       throw (ErrorObj (lit "Failed to get upload token: " ++ stringify rt errorData)
                JUndefined)
  else
  tokenData <- json tokenResponse ;;
  tokenResult <- lift (getProp tokenData (lit "result")) ;;
  lift (getProp tokenResult (lit "jwt")).

(** Step 3 of [deployPage]: upload the files. *)
Definition uploadAssets (uploadToken : JSValue) (uploadFiles : list UploadItem) : M unit :=
  uploadResponse <- fetch (UploadAssets uploadToken uploadFiles) uploadUrl
                      (uploadFetch w) ;;
  if negb (respOk uploadResponse)
  then errorData <- json uploadResponse ;;
       throw (ErrorObj (lit "Failed to upload files: " ++ stringify rt errorData)
                JUndefined)
  else
  _ <- json uploadResponse ;;
  ret tt.

(** Step 4 of [deployPage]: build the manifest and post it. *)
Definition createDeployment (finalProjectName : jsstring)
    (deploymentFiles : DeploymentFiles) : M Response :=
  manifestData <- buildManifestData deploymentFiles finalProjectName ;;
  let deploymentUrl := projectUrl finalProjectName (lit "/deployments") in
  fetch (CreateDeployment deploymentUrl manifestData (lit "main"))
        deploymentUrl (deployFetch w).

(** The end of the [try] block of [deployPage], from the response of
    the deployment-creation call on. *)
Definition concludeDeployment (finalProjectName : jsstring)
    (deploymentResponse : Response) : M DeployResult :=
  if negb (respOk deploymentResponse)
  then _ <- json deploymentResponse ;;
       let cleanedUrl := cleanUrl (respUrl deploymentResponse) in
       ret (mkDeployResult true (JStr (lit "uploaded")) (JStr cleanedUrl)
              (JStr finalProjectName) (JStr (toISOString rt (resultDate w)))
              (JStr (lit "direct-upload"))
              (JStr (lit "Files uploaded but deployment creation failed"))
              JUndefined)
  else
  deploymentResult <- json deploymentResponse ;;
  result <- lift (getProp deploymentResult (lit "result")) ;;
  cleanedUrl <- lift (cleanedResultUrl result) ;;
  ret (mkDeployResult true
         (orElse (getOpt result (lit "id")) (JStr (lit "created")))
         (JStr (httpsUrl cleanedUrl))
         (JStr finalProjectName)
         (orElse (getOpt result (lit "created_on"))
                 (JStr (toISOString rt (resultDate w))))
         (JStr (lit "direct-upload"))
         JUndefined JUndefined).

(** The [try] block of [deployPage]. *)
Definition deployPageBody (projectName : JSValue) (files : PageFiles) : M DeployResult :=
  finalProjectName <- lift (resolveName projectName) ;;
  ensureProject finalProjectName ;;
  let deploymentFiles := prepareDeploymentFiles files in
  _ <- createLocalBackupAndZip deploymentFiles finalProjectName ;;
  uploadToken <- getUploadToken finalProjectName ;;
  uploadFiles <- buildUploadFiles deploymentFiles ;;
  uploadAssets uploadToken uploadFiles ;;
  deploymentResponse <- createDeployment finalProjectName deploymentFiles ;;
  concludeDeployment finalProjectName deploymentResponse.

Definition deployPage (projectName : JSValue) (files : PageFiles) : M DeployResult :=
  tryCatch (deployPageBody projectName files)
    (fun error => (* console.error(...); *)
       ret (failure (messageOr (lit "Failed to deploy page") error))).

End ServiceMethods.

(** [createCloudFlarePagesService(env)]: [null] unless both credentials
    are present and not empty. *)
Record Env : Type := mkEnv {
  CLOUDFLARE_API_TOKEN : option jsstring;
  CLOUDFLARE_ACCOUNT_ID : option jsstring
}.

Definition createCloudFlarePagesService (env : Env) : option Service :=
  match CLOUDFLARE_API_TOKEN env, CLOUDFLARE_ACCOUNT_ID env with
  | Some token, Some account =>
      if isEmpty token || isEmpty account then None
      else Some (mkService token account)
  | _, _ => None
  end.

(* ================================================================== *)
(** * The streaming deploy endpoints *)
(* ================================================================== *)

(** [value.trim()] and [(value || "").trim()] on a value of the request. *)
Definition trimOf (v : JSValue) : Outcome jsstring :=
  match v with
  | JStr s => Ret (trim s)
  | JUndefined =>
      Throw (typeError (lit "Cannot read properties of undefined (reading 'trim')"))
  | JNull =>
      Throw (typeError (lit "Cannot read properties of null (reading 'trim')"))
  | _ => Throw (typeError (lit "trim is not a function"))
  end.

Definition trimOrEmpty (v : JSValue) : Outcome jsstring :=
  trimOf (orElse v (JStr [])).

(** [!v || typeof v !== "string" || v.trim().length === 0] *)
Definition missingOrBlank (v : JSValue) : bool :=
  match v with
  | JStr s => isEmpty s || isEmpty (trim s)
  | _ => true
  end.

Definition statusEvent (message : jsstring) (progress : Z)
    (extra : list (jsstring * JSValue)) : Chunk :=
  Data (JObj ([(lit "type", JStr (lit "status"));
               (lit "message", JStr message);
               (lit "progress", JNum progress)] ++ extra)).

Definition deploymentOf (result : DeployResult) : JSValue :=
  JObj [(lit "id", deploymentId result);
        (lit "url", url result);
        (lit "projectName", projectName result);
        (lit "createdAt", createdAt result)].

Definition enqueue (c : Chunk) : M unit := record (Enqueue c).

Inductive HttpResponse : Type :=
| JsonResponse (status : N) (body : JSValue)
| EventStream.

Definition errorBody (message : jsstring) : JSValue :=
  JObj [(lit "error", JStr message)].

Definition credentialsMessage : jsstring :=
  lit "CloudFlare credentials not configured. Please set CLOUDFLARE_API_TOKEN and CLOUDFLARE_ACCOUNT_ID".

(** The terminal events of the Next.js route. *)
Definition completionEvent (result : DeployResult) : Chunk :=
  Data (JObj [(lit "type", JStr (lit "complete"));
              (lit "success", JBool true);
              (lit "deployment", deploymentOf result);
              (lit "message", JStr (lit "Deployment completed successfully!"));
              (lit "progress", JNum 100)]).

Definition errorEvent (message : JSValue) : Chunk :=
  Data (JObj [(lit "type", JStr (lit "error"));
              (lit "error", message)]).

Section NextRoute.

Variable rt : Runtime.
Variable w : World.
(** What [CloudFlarePagesService.generateProjectName()] would give. *)
Variable generatedName : jsstring.

(** The [start] callback of the stream of the Next.js route. *)
Definition postStart (svc : Service) (html css js projectName projectAlias : JSValue)
  : M unit :=
  tryCatch
    (enqueue (statusEvent (lit "Preparing deployment...") 10 []) ;;
     let finalProjectName :=
       orElse projectAlias (orElse projectName (JStr generatedName)) in
     enqueue (statusEvent (lit "Deploying to project: " ++ display rt finalProjectName)
                30 [(lit "projectName", finalProjectName)]) ;;
     html' <- lift (trimOf html) ;;
     css' <- lift (trimOrEmpty css) ;;
     js' <- lift (trimOrEmpty js) ;;
     let files := mkPageFiles html' css' js' in
     enqueue (statusEvent (lit "Uploading files to CloudFlare...") 60
                [(lit "projectName", finalProjectName)]) ;;
     result <- deployPage rt svc w finalProjectName files ;;
     (if success result
      then enqueue (completionEvent result)
      else enqueue (errorEvent (error result))) ;;
     enqueue DoneMarker ;;
     record Close)
    (fun streamError =>
       enqueue (errorEvent (JStr (messageOr (lit "Deployment failed") streamError))) ;;
       record Close).

(** [POST(request)]; [request] is what [request.json()] gives. *)
Definition POST (env : Env) (request : BodyOutcome) : M HttpResponse :=
  tryCatch
    (body <- match request with
             | BodyJson v => ret v
             | BodyThrows t => throw t
             end ;;
     html <- lift (getProp body (lit "html")) ;;
     let css := getOpt body (lit "css") in
     let js := getOpt body (lit "js") in
     let projectName := getOpt body (lit "projectName") in
     let projectAlias := getOpt body (lit "projectAlias") in
     if missingOrBlank html
     then ret (JsonResponse 400 (errorBody (lit "Missing or invalid HTML content")))
     else if missingOrBlank projectAlias
     then ret (JsonResponse 400
                 (errorBody (lit "Project name is required to avoid creating too many projects")))
     else match createCloudFlarePagesService env with
          | None => ret (JsonResponse 500 (errorBody credentialsMessage))
          | Some cfService =>
              postStart cfService html css js projectName projectAlias ;;
              ret EventStream
          end)
    (fun e => ret (JsonResponse 500
                     (errorBody (messageOr (lit "Unknown error") e)))).

(** The spec's [deploy(projectNameHint, html, css, js)]: the stream of the
    route on a request that carries these four strings, the hint as
    [projectAlias]. *)
Definition deploy (svc : Service) (hint html css js : jsstring) : M unit :=
  postStart svc (JStr html) (JStr css) (JStr js) JUndefined (JStr hint).

(** The arguments with which that stream calls [deployPage]. *)
Definition deployName (hint : jsstring) : JSValue :=
  orElse (JStr hint) (orElse JUndefined (JStr generatedName)).

Definition deployFiles (html css js : jsstring) : PageFiles :=
  mkPageFiles (trim html) (trim css) (trim js).

End NextRoute.

(** ** The Remix action, on the SDK-style service *)

Definition failureWith (message : JSValue) : DeployResult :=
  mkDeployResult false JUndefined JUndefined JUndefined JUndefined JUndefined
    JUndefined message.

(** [error.message] and [error.status] on a caught value. *)
Definition messageProp (t : Thrown) : Outcome JSValue :=
  match t with
  | ErrorObj m _ => Ret (JStr m)
  | Other v => getProp v (lit "message")
  end.

Definition statusProp (t : Thrown) : Outcome JSValue :=
  match t with
  | ErrorObj _ st => Ret st
  | Other v => getProp v (lit "status")
  end.

(** [deployPage] of the SDK-style service: its [try] block (project
    lookup, backup, [deployWithSDK]) is taken by its outcome [attempt];
    the [catch] clause reads [error.message || 'Failed to deploy page']. *)
Definition deployPageSdk (attempt : Outcome DeployResult) : M DeployResult :=
  tryCatch (lift attempt)
    (fun error =>
       m <- lift (messageProp error) ;;
       ret (failureWith (orElse m (JStr (lit "Failed to deploy page"))))).

Definition is404 (v : JSValue) : bool :=
  match v with
  | JNum n => (n =? 404)%Z
  | _ => false
  end.

Section RemixAction.

Variable rt : Runtime.
(** Outcome of [cfService.cf.pages.projects.get] in the stream, and of
    the [try] block of the service's [deployPage]. *)
Variable probe : option Thrown.
Variable attempt : Outcome DeployResult.

(** The terminal events of the action. *)
Definition actionCompletionEvent (result : DeployResult) : Chunk :=
  Data (JObj [(lit "type", JStr (lit "complete"));
              (lit "success", JBool true);
              (lit "deployment", deploymentOf result);
              (lit "progress", JNum 100);
              (lit "message", JStr (lit "Deployment completed successfully!"))]).

Definition actionErrorEvent (message : JSValue) (extra : list (jsstring * JSValue))
  : Chunk :=
  Data (JObj ([(lit "type", JStr (lit "error"));
               (lit "success", JBool false);
               (lit "error", message)] ++ extra)).

(** The inner [try]/[catch] of the stream: does the project exist? *)
Definition checkProject (finalProjectName : JSValue) : M unit :=
  tryCatch
    (perform (ProbeProject finalProjectName) probe ;;
     enqueue (statusEvent (lit "Project " ++ display rt finalProjectName
                           ++ lit " exists, updating...") 50 []))
    (fun error =>
       st <- lift (statusProp error) ;;
       if is404 st
       then enqueue (statusEvent (lit "Creating new project "
                                  ++ display rt finalProjectName ++ lit "...") 50 [])
       else ret tt).

(** The [start] callback of the stream of the Remix action. *)
Definition actionStart (html css js projectName : JSValue) : M unit :=
  let finalProjectName := projectName in
  tryCatch
    (enqueue (statusEvent (lit "Preparing deployment...") 10
                [(lit "projectName", finalProjectName)]) ;;
     html' <- lift (trimOf html) ;;
     css' <- lift (trimOrEmpty css) ;;
     js' <- lift (trimOrEmpty js) ;;
     enqueue (statusEvent (lit "Files prepared, checking CloudFlare project...") 30 []) ;;
     checkProject finalProjectName ;;
     enqueue (statusEvent (lit "Uploading files to CloudFlare Pages...") 70 []) ;;
     result <- deployPageSdk attempt ;;
     (if success result
      then enqueue (statusEvent (lit "Deployment uploaded, processing...") 85 []) ;;
           enqueue (actionCompletionEvent result)
      else enqueue (actionErrorEvent (error result) [(lit "progress", JNum 0)])) ;;
     enqueue DoneMarker ;;
     record Close)
    (fun streamError =>
       m <- lift (messageProp streamError) ;;
       enqueue (actionErrorEvent
                  (orElse m (JStr (lit "Deployment streaming failed"))) []) ;;
       record Close).

End RemixAction.

(* ================================================================== *)
(** * Reading a trace *)
(* ================================================================== *)

Fixpoint emitted (tr : Trace) : list Chunk :=
  match tr with
  | [] => []
  | Enqueue c :: r => c :: emitted r
  | _ :: r => emitted r
  end.

Definition typeOf (c : Chunk) : option jsstring :=
  match c with
  | Data (JObj fields) =>
      match lookup (lit "type") fields with
      | Some (JStr s) => Some s
      | _ => None
      end
  | _ => None
  end.

Definition hasType (t : string) (c : Chunk) : bool :=
  match typeOf c with
  | Some s => jsEq s (lit t)
  | None => false
  end.

Definition isStatus (c : Chunk) : bool := hasType "status" c.
Definition isTerminal (c : Chunk) : bool := hasType "complete" c || hasType "error" c.

Definition field (k : string) (c : Chunk) : JSValue :=
  match c with
  | Data v => getOpt v (lit k)
  | DoneMarker => JUndefined
  end.

Definition progressOf (c : Chunk) : Z :=
  match field "progress" c with
  | JNum n => n
  | _ => 0%Z
  end.

Fixpoint nonDecreasing (l : list Z) : bool :=
  match l with
  | a :: ((b :: _) as r) => (a <=? b)%Z && nonDecreasing r
  | _ => true
  end.

(** The ordering contract of the event stream: status events with
    non-decreasing progress, then exactly one terminal event, then at
    most the closing marker. *)
Definition wellOrdered (cs : list Chunk) : Prop :=
  exists statuses terminal rest,
    cs = statuses ++ terminal :: rest
    /\ forallb isStatus statuses = true
    /\ nonDecreasing (map progressOf statuses) = true
    /\ isTerminal terminal = true
    /\ (rest = [] \/ rest = [DoneMarker]).

(** Does an event carry a warning, at its top level or in the deployment
    it reports? *)
Definition carriesWarning (c : Chunk) : bool :=
  truthy (field "warning" c)
  || truthy (getOpt (field "deployment" c) (lit "warning")).

(** A response with a non-success status. *)
Definition nonSuccess (o : FetchOutcome) : bool :=
  match o with
  | Responded false _ => true
  | _ => false
  end.

Inductive Kind : Type :=
| KProject | KDisk | KToken | KUpload | KCreate | KProbe | KStream.

Definition kindOf (c : Call) : Kind :=
  match c with
  | ProjectsGet _ | ProjectsCreate _ => KProject
  | Mkdir _ | WriteFile _ _ => KDisk
  | GetUploadToken _ => KToken
  | UploadAssets _ _ => KUpload
  | CreateDeployment _ _ _ => KCreate
  | ProbeProject _ => KProbe
  | Enqueue _ | Close => KStream
  end.

(** The upload list holds an entry with key [k] whose value is the
    base64 form of the bytes [b]. *)
Definition uploaded (rt : Runtime) (items : list UploadItem) (k : jsstring)
    (b : bytes) : Prop :=
  exists item, In item items /\ uKey item = k /\ uValue item = base64 rt b.

(** The entries uploaded and the manifests submitted in a trace. *)
Fixpoint uploadedItems (tr : Trace) : list UploadItem :=
  match tr with
  | [] => []
  | UploadAssets _ items :: r => items ++ uploadedItems r
  | _ :: r => uploadedItems r
  end.

Fixpoint submittedManifests (tr : Trace) : list (list (jsstring * jsstring)) :=
  match tr with
  | [] => []
  | CreateDeployment _ manifest _ :: r => manifest :: submittedManifests r
  | _ :: r => submittedManifests r
  end.

(** Is the value that [manifest] gives for [path] the key of an entry of
    [items]? *)
Definition valueIsUploadKey (items : list UploadItem)
    (manifest : list (jsstring * jsstring)) (path : jsstring) : bool :=
  match lookup path manifest with
  | Some h => existsb (fun item => jsEq (uKey item) h) items
  | None => false
  end.

(** The terminal event the Next.js route sends for a result. *)
Definition terminalOf (res : DeployResult) : Chunk :=
  if success res then completionEvent res else errorEvent (error res).

(** A computation that throws without making a call selected by [q]. *)
Definition failsQuietly {A : Type} (q : Call -> bool) (m : M A) : Prop :=
  (exists t, fst m = Throw t) /\ existsb q (snd m) = false.

(** No call selected by [q] is made. *)
Definition silent {A : Type} (q : Call -> bool) (m : M A) : Prop :=
  existsb q (snd m) = false.

Definition isUploadAssets (c : Call) : bool :=
  match c with UploadAssets _ _ => true | _ => false end.

Definition isEnqueue (c : Call) : bool :=
  match c with Enqueue _ => true | _ => false end.

Definition isCreateDeployment (c : Call) : bool :=
  match c with CreateDeployment _ _ _ => true | _ => false end.

Definition isRemoteFetch (c : Call) : bool :=
  match c with
  | GetUploadToken _ | UploadAssets _ _ | CreateDeployment _ _ _ => true
  | _ => false
  end.

Definition isUploadOrCreate (c : Call) : bool :=
  isUploadAssets c || isCreateDeployment c.

(** No two hyphens in a row. *)
Fixpoint noDoubleHyphen (s : jsstring) : bool :=
  match s with
  | a :: ((b :: _) as r) => negb (isHyphen a && isHyphen b) && noDoubleHyphen r
  | _ => true
  end.

(** A name as the replacements of [sanitizeProjectName] leave it when it
    is not empty. *)
Definition cleanForm (s : jsstring) : Prop :=
  forallb isNameChar s = true /\ noDoubleHyphen s = true
  /\ startsAlnum s = true /\ endsAlnum s = true.

(** The runtime's [toLowerCase] leaves names over [a-z0-9-] alone. *)
Definition lowerFixesNames (rt : Runtime) : Prop :=
  forall s, forallb isNameChar s = true -> toLowerCase rt s = s.

(* ================================================================== *)
(** * A runtime to run the model on ASCII examples *)
(* ================================================================== *)

Definition asciiLower (s : jsstring) : jsstring :=
  map (fun c => if (65 <=? c) && (c <=? 90) then c + 32 else c) s.

Fixpoint joinWith (sep : jsstring) (parts : list jsstring) : jsstring :=
  match parts with
  | [] => []
  | [p] => p
  | p :: r => p ++ sep ++ joinWith sep r
  end.

(** [toLowerCase], [utf8] and [pathJoin] are the real functions on the
    ASCII inputs of the examples.  The digests and encodings are stand-ins
    that tag their input, so that different inputs give different
    outputs; the archive bytes list the entries with their dates; the two
    serialisers give two fixed, different texts. *)
Definition exampleRuntime : Runtime :=
  mkRuntime asciiLower
    (fun s => s)
    (fun b => lit "b64:" ++ b)
    (fun b => lit "md5:" ++ b)
    (fun b => lit "sha256:" ++ b)
    (fun _ => lit "{}")
    (fun _ => lit "{ }")
    (fun entries => concat (map (fun e => zeName e ++ zeContent e ++ [zeDate e]) entries))
    (fun d => lit "2024-01-01T00:00:00.000Z")
    (joinWith (lit "/"))
    (fun v => match v with JStr s => s | JNull => lit "null" | _ => lit "undefined" end).

(** Fifty-nine times the letter a. *)
Definition longName : jsstring := repeat 97 59%nat.

(** A reply of the deployment-creation endpoint that carries [u] as the
    URL of the deployment. *)
Definition replyWithUrl (u : jsstring) : JSValue :=
  JObj [(lit "result", JObj [(lit "id", JStr (lit "d1")); (lit "url", JStr u)])].

Definition exampleService : Service := mkService (lit "token") (lit "acct").

Definition exampleFiles : PageFiles := mkPageFiles (lit "<p>hi</p>") [] [].

Definition okJson : FetchOutcome :=
  Responded true
    (BodyJson (JObj [(lit "result",
                      JObj [(lit "jwt", JStr (lit "jwt"));
                            (lit "id", JStr (lit "d1"));
                            (lit "url", JStr (lit "https://c678f41b.myproj.pages.dev"))])])).

Definition rejected : FetchOutcome :=
  Responded false (BodyJson (JObj [(lit "success", JBool false)])).

(** A world in which every call succeeds. *)
Definition happyWorld : World :=
  mkWorld (lit "/srv") None None None (fun _ => None) (fun _ => None)
    okJson okJson okJson 1 2 3 4 5.

Definition withDeployFetch (o : FetchOutcome) (w : World) : World :=
  mkWorld (cwd w) (projectsGet w) (projectsCreate w) (mkdirFault w) (writeFault w)
    (zipFault w) (tokenFetch w) (uploadFetch w) o
    (backupDate w) (backupZipDate w) (uploadZipDate w) (manifestZipDate w)
    (resultDate w).

Definition withTokenFetch (o : FetchOutcome) (w : World) : World :=
  mkWorld (cwd w) (projectsGet w) (projectsCreate w) (mkdirFault w) (writeFault w)
    (zipFault w) o (uploadFetch w) (deployFetch w)
    (backupDate w) (backupZipDate w) (uploadZipDate w) (manifestZipDate w)
    (resultDate w).

(** The provider takes the token request and the upload and turns the
    deployment-creation request down, with a JSON body. *)
Definition creationRejectedWorld : World := withDeployFetch rejected happyWorld.




(* ================================================================== *)
(** * Further functions of the service and of its callers *)
(* ================================================================== *)

(** The two tags by which [createFullHtmlPage] refers to a separate
    file. *)
Definition stylesheetLink : jsstring :=
  lit "<link rel=" ++ dquote ++ lit "stylesheet" ++ dquote
  ++ lit " href=" ++ dquote ++ lit "styles.css" ++ dquote ++ lit ">".

Definition scriptLink : jsstring :=
  lit "<script src=" ++ dquote ++ lit "script.js" ++ dquote ++ lit "></script>".

Definition isProjectsCreate (c : Call) : bool :=
  match c with ProjectsCreate _ => true | _ => false end.

Definition isGetUploadToken (c : Call) : bool :=
  match c with GetUploadToken _ => true | _ => false end.

Definition isDisk (c : Call) : bool :=
  match c with Mkdir _ | WriteFile _ _ => true | _ => false end.

(** The caught value does not lead [deployPage] to create the project:
    it is no [Error], or its message does not hold 404. *)
Definition notA404 (t : Thrown) : bool :=
  match t with
  | ErrorObj m _ => negb (includes m (lit "404"))
  | Other _ => true
  end.

(** ** [generateFileHash] of the SDK-style service *)

Local Open Scope Z_scope.

(** [ToInt32]: the value of a number in two's complement on 32 bits, as
    the bit operators of JavaScript take and give it. *)
Definition toInt32 (z : Z) : Z := (z + 2 ^ 31) mod 2 ^ 32 - 2 ^ 31.

(** One round of the loop: [hash = ((hash << 5) - hash) + char] and then
    [hash = hash & hash].  The shift works on 32 bits; the subtraction and
    the addition are exact. *)
Definition hashStep (hash : Z) (char : N) : Z :=
  let hash := (toInt32 (hash * 32) - hash) + Z.of_N char in
  toInt32 hash.

Definition digit36 (d : Z) : N :=
  if d <? 10 then Z.to_N (48 + d) else Z.to_N (97 + (d - 10)).

(** [n.toString(36)] for an integer [n >= 0]; [fuel] bounds the number of
    digits. *)
Fixpoint toBase36 (fuel : nat) (n : Z) : jsstring :=
  match fuel with
  | O => []
  | S fuel' =>
      if n <? 36 then [digit36 n]
      else toBase36 fuel' (n / 36) ++ [digit36 (n mod 36)]
  end.

Definition toString36 (n : Z) : jsstring :=
  toBase36 (S (Z.to_nat (Z.log2 n))) n.

Definition generateFileHash (content : jsstring) : jsstring :=
  if isEmpty content then lit "0"
  else toString36 (Z.abs (fold_left hashStep content 0)).

(** The hash before it is printed, and the value of a base-36 numeral. *)
Definition rollingHash (content : jsstring) : Z := fold_left hashStep content 0.

Definition value36 (c : N) : Z :=
  if (c <? 58)%N then Z.of_N c - 48 else Z.of_N c - 87.

Definition fromBase36 (s : jsstring) : Z :=
  fold_left (fun acc c => acc * 36 + value36 c) s 0.

(** The polynomial in 31 with the code units as coefficients. *)
Definition polynomial31 (content : jsstring) : Z :=
  fold_left (fun acc c => acc * 31 + Z.of_N c) content 0.

Definition isDigit36 (c : N) : bool :=
  ((48 <=? c) && (c <=? 57))%N || ((97 <=? c) && (c <=? 122))%N.

Local Close Scope Z_scope.

(** Five hundred and one times the letter a. *)
Definition longText : jsstring := repeat 97 501%nat.

(** The two kinds of file that [createFullHtmlPage] may refer to, each
    with its input, its tag in the page, its name and its type. *)
Inductive Asset : Type := Stylesheet | Script.

Definition sourceOf (a : Asset) (files : PageFiles) : jsstring :=
  match a with Stylesheet => css files | Script => js files end.

Definition linkOf (a : Asset) : jsstring :=
  match a with Stylesheet => stylesheetLink | Script => scriptLink end.

Definition fileNameOf (a : Asset) : jsstring :=
  match a with Stylesheet => lit "styles.css" | Script => lit "script.js" end.

Definition mimeOf (a : Asset) : jsstring :=
  match a with
  | Stylesheet => lit "text/css"
  | Script => lit "application/javascript"
  end.

Definition longCssFiles : PageFiles := mkPageFiles (lit "<p>hi</p>") longText [].

Definition nullish (v : JSValue) : bool :=
  match v with
  | JUndefined | JNull => true
  | _ => false
  end.

(** Worlds for the examples: the project lookup fails for good, the
    project does not exist yet, the token reply has no [result], the body
    of the creation reply does not parse, the creation reply is empty. *)
Definition withProjectsGet (o : option Thrown) (w : World) : World :=
  mkWorld (cwd w) o (projectsCreate w) (mkdirFault w) (writeFault w)
    (zipFault w) (tokenFetch w) (uploadFetch w) (deployFetch w)
    (backupDate w) (backupZipDate w) (uploadZipDate w) (manifestZipDate w)
    (resultDate w).

Definition withProjectsCreate (o : option Thrown) (w : World) : World :=
  mkWorld (cwd w) (projectsGet w) o (mkdirFault w) (writeFault w)
    (zipFault w) (tokenFetch w) (uploadFetch w) (deployFetch w)
    (backupDate w) (backupZipDate w) (uploadZipDate w) (manifestZipDate w)
    (resultDate w).

Definition withUploadFetch (o : FetchOutcome) (w : World) : World :=
  mkWorld (cwd w) (projectsGet w) (projectsCreate w) (mkdirFault w) (writeFault w)
    (zipFault w) (tokenFetch w) o (deployFetch w)
    (backupDate w) (backupZipDate w) (uploadZipDate w) (manifestZipDate w)
    (resultDate w).

Definition forbidden : Thrown := ErrorObj (lit "403 Forbidden") JUndefined.
Definition notFound : Thrown := ErrorObj (lit "404 Not Found") JUndefined.
Definition syntaxError : Thrown :=
  ErrorObj (lit "Unexpected token < in JSON at position 0") JUndefined.

Definition lookupForbiddenWorld : World := withProjectsGet (Some forbidden) happyWorld.
Definition newProjectWorld : World := withProjectsGet (Some notFound) happyWorld.
Definition createForbiddenWorld : World :=
  withProjectsCreate (Some forbidden) newProjectWorld.
Definition tokenRejectedWorld : World := withTokenFetch rejected happyWorld.
Definition uploadRejectedWorld : World := withUploadFetch rejected happyWorld.
Definition emptyTokenWorld : World :=
  withTokenFetch (Responded true (BodyJson (JObj []))) happyWorld.
Definition gatewayErrorWorld : World :=
  withDeployFetch (Responded false (BodyThrows syntaxError)) happyWorld.
Definition emptyReplyWorld : World :=
  withDeployFetch (Responded true (BodyJson (JObj []))) happyWorld.

(** A page with a short stylesheet and a short script. *)
Definition fullFiles : PageFiles :=
  mkPageFiles (lit "<p>hi</p>") (lit "p{}") (lit "x()").

(** The calls of a backup that goes through, in their order: the
    directory, one write per file, the write of the archive. *)
Definition backupDirOf (rt : Runtime) (w : World) (projectName : jsstring) : jsstring :=
  pathJoin rt [cwd w; lit "backups";
               projectName ++ lit "-"
               ++ map (fun c => if (c =? 58) || (c =? dot) then hyphen else c)
                      (toISOString rt (backupDate w))].

Definition backupWrite (rt : Runtime) (dir : jsstring) (entry : jsstring * FileData) : Call :=
  WriteFile (pathJoin rt [dir; fst entry]) (utf8 rt (content (snd entry))).

Definition backupCalls (rt : Runtime) (w : World) (deploymentFiles : DeploymentFiles)
    (projectName : jsstring) : list Call :=
  let dir := backupDirOf rt w projectName in
  Mkdir dir
  :: map (backupWrite rt dir) deploymentFiles
  ++ [WriteFile (pathJoin rt [dir; projectName ++ lit "-deployment.zip"])
        (zipBytes rt (zipOf deploymentFiles (backupZipDate w)))].

Definition diskFullWorld : World :=
  mkWorld (lit "/srv") None None None
    (fun p => if includes p (lit ".zip")
              then Some (ErrorObj (lit "ENOSPC: no space left on device") JUndefined)
              else None)
    (fun _ => None) okJson okJson okJson 1 2 3 4 5.

(** Is a variable of the environment missing or empty? *)
Definition unset (v : option jsstring) : bool :=
  match v with
  | Some (_ :: _) => false
  | _ => true
  end.

Definition emptyEnv : Env := mkEnv None None.
Definition exampleEnv : Env := mkEnv (Some (lit "token")) (Some (lit "acct")).

Definition requestOf (fields : list (jsstring * JSValue)) : BodyOutcome :=
  BodyJson (JObj fields).

(** ** The route that answers in one piece *)

Module DeployRoute.

(** [html?.substring(0, 100) || 'EMPTY'] of the log lines at the head of
    the handler: nothing is called on [undefined] and [null], a string
    has the method, and on any other value the call throws. *)
Definition preview (html : JSValue) : Outcome unit :=
  match html with
  | JUndefined | JNull | JStr _ => Ret tt
  | _ => Throw (typeError (lit "html?.substring is not a function"))
  end.

Definition deployedBody (result : DeployResult) : JSValue :=
  JObj [(lit "success", JBool true);
        (lit "deployment", deploymentOf result)].

Definition failedBody (message : JSValue) : JSValue :=
  JObj [(lit "success", JBool false);
        (lit "error", message)].

(** [POST(request)]; [request] is what [request.json()] gives, and
    [generatedName] what [generateProjectName()] would give. *)
Definition POST (rt : Runtime) (w : World) (generatedName : jsstring) (env : Env)
    (request : BodyOutcome) : M HttpResponse :=
  tryCatch
    (body <- match request with
             | BodyJson v => ret v
             | BodyThrows t => throw t
             end ;;
     html <- lift (getProp body (lit "html")) ;;
     let css := getOpt body (lit "css") in
     let js := getOpt body (lit "js") in
     let projectName := getOpt body (lit "projectName") in
     let projectAlias := getOpt body (lit "projectAlias") in
     lift (preview html) ;;
     if missingOrBlank html
     then ret (JsonResponse 400 (errorBody (lit "Missing or invalid HTML content")))
     else if missingOrBlank projectAlias
     then ret (JsonResponse 400
                 (errorBody (lit "Project name is required to avoid creating too many projects")))
     else match createCloudFlarePagesService env with
          | None => ret (JsonResponse 500 (errorBody credentialsMessage))
          | Some cfService =>
              let finalProjectName :=
                orElse projectAlias (orElse projectName (JStr generatedName)) in
              html' <- lift (trimOf html) ;;
              css' <- lift (trimOrEmpty css) ;;
              js' <- lift (trimOrEmpty js) ;;
              let files := mkPageFiles html' css' js' in
              result <- deployPage rt cfService w finalProjectName files ;;
              if success result
              then ret (JsonResponse 200 (deployedBody result))
              else ret (JsonResponse 500 (failedBody (error result)))
          end)
    (fun error =>
       ret (JsonResponse 500
              (failedBody (JStr (messageOr (lit "Unknown error") error))))).

End DeployRoute.

(** Neither a string nor [undefined] nor [null]. *)
Definition otherThanString (v : JSValue) : bool :=
  match v with
  | JUndefined | JNull | JStr _ => false
  | _ => true
  end.

(** ** [downloadDeploymentFiles] *)

Module Download.

(** What the method does to the outside. *)
Inductive Call : Type :=
| DeploymentsList (projectName : jsstring)                       (* cf.pages.projects.deployments.list *)
| DeploymentsGet (projectName : jsstring) (deploymentId : JSValue) (* cf.pages.projects.deployments.get *)
| FetchFile (fileUrl : jsstring).                                 (* fetch(fileUrl) *)

(** What [fetch(fileUrl)] does: it rejects, or it resolves with a
    response of which the code reads [ok], [text()] and the
    [content-type] header. *)
Inductive FileFetch : Type :=
| FetchRejects (t : Thrown)
| FileResponse (ok : bool) (text : Outcome jsstring) (contentType : option jsstring).

Record Remote : Type := mkRemote {
  deploymentsList : Outcome JSValue;
  deploymentsGet : JSValue -> Outcome JSValue;
  fetchFile : jsstring -> FileFetch
}.

Record FileEntry : Type := mkFileEntry {
  fContent : jsstring;
  fSize : nat;
  fType : jsstring
}.

(** The three objects the method returns. *)
Inductive DownloadResult : Type :=
| Downloaded (deploymentId deploymentUrl : JSValue)
    (files : list (jsstring * FileEntry)) (fileCount : nat)   (* success: true *)
| NoDeployments (error projectName : jsstring)                (* success: false, deploymentCount: 0 *)
| DownloadFailed (error : jsstring).                          (* success: false *)

Definition R (A : Type) : Type := (Outcome A * list Call)%type.

Definition pure {A : Type} (a : A) : R A := (Ret a, []).

Definition call {A : Type} (c : Call) (o : Outcome A) : R A := (o, [c]).

Definition andThen {A B : Type} (m : R A) (k : A -> R B) : R B :=
  match fst m with
  | Ret a => (fst (k a), snd m ++ snd (k a))
  | Throw t => (Throw t, snd m)
  end.

(** [v.length === 0] *)
Definition lengthIsZero (v : JSValue) : bool :=
  match v with
  | JArr l => match l with [] => true | _ => false end
  | JStr s => isEmpty s
  | JObj fields =>
      match lookup (lit "length") fields with
      | Some (JNum n) => (n =? 0)%Z
      | _ => false
      end
  | _ => false
  end.

(** [v[0]] *)
Definition first (v : JSValue) : JSValue :=
  match v with
  | JArr (x :: _) => x
  | JStr (c :: _) => JStr [c]
  | JObj fields =>
      match lookup (lit "0") fields with Some x => x | None => JUndefined end
  | _ => JUndefined
  end.

(** A value inside a template literal. *)
Definition textOf (rt : Runtime) (v : JSValue) : jsstring :=
  match v with
  | JStr s => s
  | other => display rt other
  end.

Definition fileNames : list jsstring :=
  [lit "index.html"; lit "styles.css"; lit "script.js"].

Definition fileUrlOf (rt : Runtime) (baseUrl : JSValue) (fileName : jsstring) : jsstring :=
  textOf rt baseUrl ++ lit "/" ++ fileName.

(** The body of the loop over the file names, with its [try]/[catch]:
    the file is kept when the response is ok and its text can be read. *)
Definition tryFile (rt : Runtime) (remote : Remote) (baseUrl : JSValue)
    (files : list (jsstring * FileEntry)) (fileName : jsstring)
  : list (jsstring * FileEntry) :=
  match fetchFile remote (fileUrlOf rt baseUrl fileName) with
  | FileResponse true (Ret content) contentType =>
      assign fileName
        (mkFileEntry content (length content)
           (match contentType with
            | Some (c :: r) => c :: r
            | _ => lit "text/plain"
            end))
        files
  | _ => files
  end.

Definition tryFiles (rt : Runtime) (remote : Remote) (baseUrl : JSValue)
  : list (jsstring * FileEntry) * list Call :=
  (fold_left (tryFile rt remote baseUrl) fileNames [],
   map (fun fileName => FetchFile (fileUrlOf rt baseUrl fileName)) fileNames).

(** The branch taken when no deployment id is given: the id of the
    first deployment of the list, or the object returned at once. *)
Definition latestDeployment (remote : Remote) (projectName : jsstring)
  : R (DownloadResult + JSValue) :=
  andThen (call (DeploymentsList projectName) (deploymentsList remote))
    (fun deployments =>
  andThen (getProp deployments (lit "result"), [])
    (fun result =>
  if negb (truthy result) || lengthIsZero result
  then pure (inl (NoDeployments
                    (lit "No deployments found for project " ++ projectName
                     ++ lit ". Please deploy something first.")
                    projectName))
  else andThen (getProp (first result) (lit "id"), [])
         (fun id => pure (inr id)))).

(** From the details of the deployment on. *)
Definition fetchDeployment (rt : Runtime) (remote : Remote) (projectName : jsstring)
    (deploymentId : JSValue) : R DownloadResult :=
  andThen (call (DeploymentsGet projectName deploymentId)
             (deploymentsGet remote deploymentId))
    (fun deployment =>
  andThen (getProp deployment (lit "result"), [])
    (fun result =>
  if negb (truthy result)
  then (Throw (ErrorObj (lit "Deployment not found") JUndefined), [])
  else
    let baseUrl := getOpt result (lit "url") in
    let fetched := tryFiles rt remote baseUrl in
    (Ret (Downloaded deploymentId baseUrl (fst fetched) (length (fst fetched))),
     snd fetched))).

(** The [try] block. *)
Definition attempt (rt : Runtime) (remote : Remote) (projectName : jsstring)
    (deploymentId : JSValue) : R DownloadResult :=
  andThen
    (if truthy deploymentId then pure (inr deploymentId)
     else latestDeployment remote projectName)
    (fun found =>
       match found with
       | inl early => pure early
       | inr deploymentId => fetchDeployment rt remote projectName deploymentId
       end).

(** [downloadDeploymentFiles(projectName, deploymentId)]: the [catch]
    clause turns what the [try] block throws into a failure. *)
Definition downloadDeploymentFiles (rt : Runtime) (remote : Remote)
    (projectName : jsstring) (deploymentId : JSValue) : DownloadResult * list Call :=
  match fst (attempt rt remote projectName deploymentId) with
  | Ret result => (result, snd (attempt rt remote projectName deploymentId))
  | Throw t =>
      (DownloadFailed (messageOr (lit "Failed to download deployment files") t),
       snd (attempt rt remote projectName deploymentId))
  end.

(** Is [a] what is left of [b] when some elements are dropped? *)
Fixpoint isSubsequence (a b : list jsstring) : bool :=
  match a, b with
  | [], _ => true
  | _ :: _, [] => false
  | x :: a', y :: b' => if jsEq x y then isSubsequence a' b' else isSubsequence a b'
  end.

Definition sizeIsLength (entry : jsstring * FileEntry) : bool :=
  Nat.eqb (fSize (snd entry)) (length (fContent (snd entry))).

Definition isDeploymentsList (c : Call) : bool :=
  match c with DeploymentsList _ => true | _ => false end.

(** A remote on which the page is there, the stylesheet is not, and the
    script cannot be fetched. *)
Definition exampleRemote : Remote :=
  mkRemote
    (Ret (JObj [(lit "result", JArr [JObj [(lit "id", JStr (lit "d1"))]])]))
    (fun _ => Ret (JObj [(lit "result",
                          JObj [(lit "url", JStr (lit "https://d1.demo.pages.dev"))])]))
    (fun fileUrl =>
       if includes fileUrl (lit "index.html")
       then FileResponse true (Ret (lit "<p>hi</p>")) (Some (lit "text/html"))
       else if includes fileUrl (lit "styles.css")
       then FileResponse false (Ret (lit "not found")) None
       else FetchRejects (ErrorObj (lit "fetch failed") JUndefined)).

End Download.

(** ** [listPages] *)

Module Listing.

Inductive Call : Type :=
| ProjectsList                          (* cf.pages.projects.list *)
| DeploymentsList (projectName : JSValue).  (* cf.pages.projects.deployments.list *)

(** The projects of the account, and the deployments of the project at
    each position of that list. *)
Record Remote : Type := mkRemote {
  projectsList : Outcome JSValue;
  deploymentsList : nat -> Outcome JSValue
}.

Inductive ListResult : Type :=
| Listed (projects : list JSValue)   (* success: true *)
| ListFailed (error : jsstring).     (* success: false *)

(** One element of [deployments]; [None] when reading it throws. *)
Definition deploymentRow (deployment : JSValue) : option JSValue :=
  match getProp deployment (lit "id") with
  | Throw _ => None
  | Ret id =>
      Some (JObj [(lit "id", id);
                  (lit "url", getOpt deployment (lit "url"));
                  (lit "status",
                   orElse (getOpt (getOpt deployment (lit "latest_stage")) (lit "status"))
                          (JStr (lit "unknown")));
                  (lit "createdAt", getOpt deployment (lit "created_on"))])
  end.

Fixpoint rowsOf (deployments : list JSValue) : option (list JSValue) :=
  match deployments with
  | [] => Some []
  | d :: rest =>
      match deploymentRow d, rowsOf rest with
      | Some row, Some rows => Some (row :: rows)
      | _, _ => None
      end
  end.

(** [deployments.result.slice(0, 5).map(...)]; [None] when it throws:
    [deployments] or its [result] is [undefined] or [null], or the
    [result] is not an array, or one of its first five elements is
    [undefined] or [null]. *)
Definition latestRows (deployments : JSValue) : option (list JSValue) :=
  match getProp deployments (lit "result") with
  | Ret (JArr l) => rowsOf (firstn 5 l)
  | _ => None
  end.

(** The object returned for a project, by the [try] block and by its
    [catch] clause. *)
Definition entryOf (project : JSValue) (rows : list JSValue) : JSValue :=
  JObj [(lit "id", getOpt project (lit "id"));
        (lit "name", getOpt project (lit "name"));
        (lit "domain",
         orElse (getOpt (getOpt project (lit "canonical_deployment")) (lit "url"))
                JNull);
        (lit "createdAt", getOpt project (lit "created_on"));
        (lit "deployments", JArr rows)].

(** The function mapped over the projects: the promise it returns, and
    the call it makes.  A project that is [undefined] or [null] makes
    the [try] block and then the [catch] clause throw on [project.name],
    before any call. *)
Definition withDeployments (remote : Remote) (position : nat) (project : JSValue)
  : Outcome JSValue * list Call :=
  match getProp project (lit "name") with
  | Throw t => (Throw t, [])
  | Ret name =>
      (match deploymentsList remote position with
       | Throw _ => Ret (entryOf project [])
       | Ret deployments =>
           match latestRows deployments with
           | None => Ret (entryOf project [])
           | Some rows => Ret (entryOf project rows)
           end
       end,
       [DeploymentsList name])
  end.

(** [Promise.all(projects.map(...))]: every call is made; the promises
    that are rejected are so before any other settles, hence the first
    of them in the list is the one that counts. *)
Fixpoint allWithDeployments (remote : Remote) (position : nat) (projects : list JSValue)
  : Outcome (list JSValue) * list Call :=
  match projects with
  | [] => (Ret [], [])
  | project :: rest =>
      let here := withDeployments remote position project in
      let others := allWithDeployments remote (S position) rest in
      (match fst here with
       | Throw t => Throw t
       | Ret entry =>
           match fst others with
           | Throw t => Throw t
           | Ret entries => Ret (entry :: entries)
           end
       end,
       snd here ++ snd others)
  end.

Definition listPages (remote : Remote) : ListResult * list Call :=
  match projectsList remote with
  | Throw t => (ListFailed (messageOr (lit "Failed to list pages") t), [ProjectsList])
  | Ret projects =>
      match getProp projects (lit "result") with
      | Throw t => (ListFailed (messageOr (lit "Failed to list pages") t), [ProjectsList])
      | Ret (JArr l) =>
          let mapped := allWithDeployments remote 0 l in
          (match fst mapped with
           | Ret entries => Listed entries
           | Throw t => ListFailed (messageOr (lit "Failed to list pages") t)
           end,
           ProjectsList :: snd mapped)
      | Ret JUndefined =>
          (ListFailed (lit "Cannot read properties of undefined (reading 'map')"),
           [ProjectsList])
      | Ret JNull =>
          (ListFailed (lit "Cannot read properties of null (reading 'map')"),
           [ProjectsList])
      | Ret _ =>
          (ListFailed (lit "projects.result.map is not a function"), [ProjectsList])
      end
  end.

(** What an entry says of its project. *)
Definition describes (project entry : JSValue) : Prop :=
  getOpt entry (lit "id") = getOpt project (lit "id")
  /\ getOpt entry (lit "name") = getOpt project (lit "name")
  /\ getOpt entry (lit "createdAt") = getOpt project (lit "created_on")
  /\ exists rows, getOpt entry (lit "deployments") = JArr rows /\ (length rows <= 5)%nat.

(** Two projects; the deployments of the second cannot be listed. *)
Definition exampleRemote : Remote :=
  mkRemote
    (Ret (JObj [(lit "result",
                 JArr [JObj [(lit "id", JStr (lit "p1")); (lit "name", JStr (lit "one"))];
                       JObj [(lit "id", JStr (lit "p2")); (lit "name", JStr (lit "two"))]])]))
    (fun position =>
       match position with
       | O => Ret (JObj [(lit "result", JArr [JObj [(lit "id", JStr (lit "d1"))]])])
       | _ => Throw (ErrorObj (lit "500 Internal Server Error") JUndefined)
       end).

End Listing.

(** ** The client of the deployment stream *)

Module StreamClient.

(** The calls of the callbacks: [onStatus(message, progress, projectName)],
    [onComplete({ success, deployment, message })],
    [onError(new Error(event.error))] and, from the [catch] of the
    promise chain, [onError(error)]. *)
Inductive Callback : Type :=
| OnStatus (message progress projectName : JSValue)
| OnComplete (success deployment message : JSValue)
| OnError (error : JSValue)
| OnFailure (error : Thrown).

(** What [reader.read()] gives, one after the other, until it says
    [done]: a chunk, as [decoder.decode] returns it, or a rejection. *)
Inductive Read : Type :=
| Chunk (text : jsstring)
| ReadRejects (t : Thrown).

(** What [fetch] gives: a rejection, or a response with its status, its
    status text and its body, if any. *)
Inductive Fetched : Type :=
| FetchRejects (t : Thrown)
| Response (ok : bool) (status statusText : jsstring) (body : option (list Read)).

(** The places where [isAborted] is read. *)
Inductive Moment : Type :=
| AtRead (position : nat)
| AtCatch.

(** [chunk.split('\n')] *)
Fixpoint splitLines (s : jsstring) : list jsstring :=
  match s with
  | [] => [[]]
  | c :: r =>
      if (c =? 10)%N then [] :: splitLines r
      else match splitLines r with
           | l :: ls => (c :: l) :: ls
           | [] => [[c]]
           end
  end.

Inductive Step : Type :=
| Continue (calls : list Callback)
| Return (calls : list Callback).

Section Client.

(** [JSON.parse] *)
Variable parse : jsstring -> Outcome JSValue.
Variable isAborted : Moment -> bool.

(** The [try] block on the text after [data: ], with its [catch] that
    only logs; the callbacks themselves return. *)
Definition handle (data : jsstring) : Step :=
  match parse data with
  | Throw _ => Continue []
  | Ret event =>
      match getProp event (lit "type") with
      | Ret (JStr type) =>
          if jsEq type (lit "status")
          then Continue [OnStatus (getOpt event (lit "message"))
                           (orElse (getOpt event (lit "progress")) (JNum 0))
                           (getOpt event (lit "projectName"))]
          else if jsEq type (lit "complete")
          then Return [OnComplete (getOpt event (lit "success"))
                         (getOpt event (lit "deployment"))
                         (getOpt event (lit "message"))]
          else if jsEq type (lit "error")
          then Return [OnError (getOpt event (lit "error"))]
          else Continue []
      | _ => Continue []
      end
  end.

(** The loop over the lines of a chunk. *)
Fixpoint processLines (lines : list jsstring) : Step :=
  match lines with
  | [] => Continue []
  | line :: rest =>
      if startsWith (lit "data: ") line
      then
        let data := skipn 6 line in
        if jsEq data (lit "[DONE]") then Return []
        else match handle data with
             | Return calls => Return calls
             | Continue calls =>
                 match processLines rest with
                 | Return more => Return (calls ++ more)
                 | Continue more => Continue (calls ++ more)
                 end
             end
      else processLines rest
  end.

(** [readStream()]: the callbacks called, and the error with which the
    promise is rejected, if it is. *)
Fixpoint readStream (position : nat) (reads : list Read)
  : list Callback * option Thrown :=
  match reads with
  | [] => ([], None)
  | ReadRejects t :: _ => ([], Some t)
  | Chunk text :: rest =>
      if isAborted (AtRead position) then ([], None)
      else match processLines (splitLines text) with
           | Return calls => (calls, None)
           | Continue calls =>
               (calls ++ fst (readStream (S position) rest),
                snd (readStream (S position) rest))
           end
  end.

(** [.catch(error => { if (!isAborted) onError(error) })] *)
Definition caught (error : Thrown) : list Callback :=
  if isAborted AtCatch then [] else [OnFailure error].

(** The promise chain of [streamDeployment]. *)
Definition streamDeployment (fetched : Fetched) : list Callback :=
  match fetched with
  | FetchRejects t => caught t
  | Response false status statusText _ =>
      caught (ErrorObj (lit "HTTP " ++ status ++ lit ": " ++ statusText) JUndefined)
  | Response true _ _ None =>
      caught (typeError (lit "Cannot read properties of null (reading 'getReader')"))
  | Response true _ _ (Some reads) =>
      fst (readStream 0 reads)
      ++ match snd (readStream 0 reads) with
         | Some t => caught t
         | None => []
         end
  end.

End Client.

Definition isOnStatus (c : Callback) : bool :=
  match c with OnStatus _ _ _ => true | _ => false end.

(** Calls of [onStatus], then at most one call of [onComplete] or
    [onError]. *)
Definition inOrder (calls : list Callback) : Prop :=
  exists statuses terminal,
    calls = statuses ++ terminal
    /\ forallb isOnStatus statuses = true
    /\ (terminal = [] \/ exists c, terminal = [c] /\ isOnStatus c = false).

End StreamClient.

(** ** Which step of [deployPage] throws *)



(** ** [deployPage] of the SDK-style service, from its first step on *)

Module SdkService.

Section TryBlock.

Variable w : World.
(** What follows the project in the [try] block (the log lines, the
    prepared files, the manifest, the backup and [deployWithSDK]), by
    what it does for a project name. *)
Variable rest : JSValue -> M DeployResult.

(** A call of the SDK, whose promise resolves or rejects. *)
Definition settle (fault : option Thrown) : M unit :=
  lift (match fault with
        | None => Ret tt
        | Some t => Throw t
        end).

(** The inner [try]/[catch]: look the project up and create it when the
    lookup fails with [error.status === 404]. *)
Definition ensureProject : M unit :=
  tryCatch (settle (projectsGet w))
    (fun error =>
       st <- lift (statusProp error) ;;
       if is404 st then settle (projectsCreate w) else throw error).

Definition tryBlock (projectName : JSValue) : M DeployResult :=
  let finalProjectName := orElse projectName (JStr (lit "webmint-app")) in
  ensureProject ;;
  rest finalProjectName.

(** The [catch] clause reads [error.message || 'Failed to deploy page']. *)
Definition deployPage (projectName : JSValue) : M DeployResult :=
  tryCatch (tryBlock projectName)
    (fun error =>
       m <- lift (messageProp error) ;;
       ret (failureWith (orElse m (JStr (lit "Failed to deploy page"))))).

End TryBlock.

End SdkService.




(* ================================================================== *)
(** * Properties *)
(* ================================================================== *)

(** ** Characters and the two-sided drops *)

Ltac boolp :=
  repeat (rewrite ?orb_true_iff, ?andb_true_iff, ?orb_false_iff, ?andb_false_iff,
            ?negb_true_iff, ?negb_false_iff,
            ?N.leb_le, ?N.eqb_eq, ?N.leb_gt, ?N.eqb_neq in * ).

Lemma alnum_nameChar c : isLowerAlnum c = true -> isNameChar c = true.
Proof. unfold isNameChar. intros ->. reflexivity. Qed.

Lemma alnum_not_hyphen c : isLowerAlnum c = true -> isHyphen c = false.
Proof.
  unfold isLowerAlnum, isHyphen, hyphen. intro H.
  destruct (c =? 45) eqn:E; [|reflexivity]. boolp. lia.
Qed.

Lemma alnum_not_space c : isLowerAlnum c = true -> isWhiteSpace c = false.
Proof.
  unfold isLowerAlnum. intro H.
  destruct (isWhiteSpace c) eqn:E; [|reflexivity].
  unfold isWhiteSpace in E. boolp. lia.
Qed.

Lemma nameChar_not_hyphen_alnum c :
  isNameChar c = true -> isHyphen c = false -> isLowerAlnum c = true.
Proof.
  unfold isNameChar, isHyphen. intros H E. rewrite E, orb_false_r in H. exact H.
Qed.

Lemma dropWhile_split f s :
  exists pre, s = pre ++ dropWhile f s /\ forallb f pre = true.
Proof.
  induction s as [|c r IH]; simpl.
  - exists []. split; reflexivity.
  - destruct (f c) eqn:E.
    + destruct IH as [pre [H1 H2]]. exists (c :: pre). simpl. rewrite E, H2.
      split; [f_equal; exact H1 | reflexivity].
    + exists []. split; reflexivity.
Qed.

Lemma dropWhile_head f s :
  match dropWhile f s with [] => True | c :: _ => f c = false end.
Proof.
  induction s as [|c r IH]; simpl; [exact I|].
  destruct (f c) eqn:E; [exact IH | exact E].
Qed.

Lemma dropWhile_fix f c r : f c = false -> dropWhile f (c :: r) = c :: r.
Proof. intro E. simpl. rewrite E. reflexivity. Qed.

Lemma dropWhileEnd_split f s :
  exists post, s = dropWhileEnd f s ++ post /\ forallb f post = true.
Proof.
  unfold dropWhileEnd.
  destruct (dropWhile_split f (rev s)) as [pre [H1 H2]].
  exists (rev pre). split.
  - rewrite <- rev_app_distr, <- H1, rev_involutive. reflexivity.
  - rewrite forallb_forall in *. intros x Hx. apply H2. apply in_rev. exact Hx.
Qed.

Lemma dropWhileEnd_last f s :
  match rev (dropWhileEnd f s) with [] => True | c :: _ => f c = false end.
Proof.
  unfold dropWhileEnd. rewrite rev_involutive. apply dropWhile_head.
Qed.

Lemma dropWhileEnd_fix f s c r :
  rev s = c :: r -> f c = false -> dropWhileEnd f s = s.
Proof.
  intros H E. unfold dropWhileEnd. rewrite H, dropWhile_fix by exact E.
  rewrite <- H. apply rev_involutive.
Qed.

Lemma forallb_app_l {A} (f : A -> bool) a b :
  forallb f (a ++ b) = true -> forallb f a = true.
Proof. rewrite forallb_app, andb_true_iff. tauto. Qed.

Lemma forallb_app_r {A} (f : A -> bool) a b :
  forallb f (a ++ b) = true -> forallb f b = true.
Proof. rewrite forallb_app, andb_true_iff. tauto. Qed.

Lemma forallb_dropWhile (p f : N -> bool) s :
  forallb p s = true -> forallb p (dropWhile f s) = true.
Proof.
  intro H. destruct (dropWhile_split f s) as [pre [E _]].
  rewrite E in H. eapply forallb_app_r; exact H.
Qed.

Lemma forallb_dropWhileEnd (p f : N -> bool) s :
  forallb p s = true -> forallb p (dropWhileEnd f s) = true.
Proof.
  intro H. destruct (dropWhileEnd_split f s) as [post [E _]].
  rewrite E in H. eapply forallb_app_l; exact H.
Qed.

(** ** The replacements of [sanitizeProjectName] *)

Lemma replaceInvalid_nameChars s : forallb isNameChar (replaceInvalid s) = true.
Proof.
  induction s as [|c r IH]; simpl; [reflexivity|].
  rewrite IH, andb_true_r.
  destruct (isNameChar c) eqn:E; [exact E | reflexivity].
Qed.

Lemma collapseFrom_forallb (p : N -> bool) s :
  forallb p s = true -> forall prev, forallb p (collapseFrom prev s) = true.
Proof.
  induction s as [|c r IH]; simpl; intros H prev; [reflexivity|].
  apply andb_true_iff in H. destruct H as [Hc Hr].
  destruct (isHyphen c), prev; simpl; rewrite ?Hc; simpl; apply IH; exact Hr.
Qed.

Lemma noDouble_cons_nonhyphen c s :
  isHyphen c = false -> noDoubleHyphen (c :: s) = noDoubleHyphen s.
Proof. intro E. destruct s; simpl; [reflexivity|]. rewrite E. reflexivity. Qed.

Lemma collapseFrom_noDouble s :
  forall prev,
    noDoubleHyphen (collapseFrom prev s) = true
    /\ (prev = true ->
        match collapseFrom prev s with [] => True | c :: _ => isHyphen c = false end).
Proof.
  induction s as [|c r IH]; intro prev; simpl; [split; auto|].
  destruct (isHyphen c) eqn:E.
  - destruct prev.
    + apply IH.
    + split; [|discriminate].
      destruct (IH true) as [H1 H2]. specialize (H2 eq_refl).
      destruct (collapseFrom true r) as [|d t]; [reflexivity|].
      change (negb (isHyphen c && isHyphen d) && noDoubleHyphen (d :: t) = true).
      rewrite H2, andb_false_r, H1. reflexivity.
  - split; [|intros _; exact E].
    rewrite noDouble_cons_nonhyphen by exact E. apply IH.
Qed.

Lemma noDouble_collapse_fix s :
  noDoubleHyphen s = true ->
  collapseFrom false s = s
  /\ (match s with [] => True | c :: _ => isHyphen c = false end ->
      collapseFrom true s = s).
Proof.
  induction s as [|c r IH]; intro H; [split; reflexivity|].
  assert (Hr : noDoubleHyphen r = true).
  { destruct r; [reflexivity|]. simpl in H. apply andb_true_iff in H. apply H. }
  destruct (IH Hr) as [IH1 IH2]. simpl.
  destruct (isHyphen c) eqn:E.
  - split; [|discriminate].
    f_equal. apply IH2. destruct r as [|d t]; [exact I|].
    simpl in H. rewrite E in H. simpl in H.
    destruct (isHyphen d); [discriminate | reflexivity].
  - split; intros; f_equal; exact IH1.
Qed.

Lemma noDouble_app_l a b : noDoubleHyphen (a ++ b) = true -> noDoubleHyphen a = true.
Proof.
  induction a as [|x a' IH]; intro H; [reflexivity|].
  destruct a' as [|y a'']; [reflexivity|].
  simpl in *. apply andb_true_iff in H. destruct H as [H1 H2].
  rewrite H1. simpl. apply IH. exact H2.
Qed.

Lemma noDouble_app_r a b : noDoubleHyphen (a ++ b) = true -> noDoubleHyphen b = true.
Proof.
  induction a as [|x a' IH]; intro H; [exact H|].
  apply IH. simpl in H. destruct (a' ++ b); [reflexivity|].
  apply andb_true_iff in H. apply H.
Qed.

Lemma noDouble_app_mid a z b :
  isHyphen z = false ->
  noDoubleHyphen (a ++ [z]) = true -> noDoubleHyphen (z :: b) = true ->
  noDoubleHyphen (a ++ z :: b) = true.
Proof.
  intros Ez. induction a as [|x a' IH]; intros Ha Hb; [exact Hb|].
  destruct a' as [|y a''].
  - change (negb (isHyphen x && isHyphen z) && noDoubleHyphen (z :: b) = true).
    rewrite Ez, andb_false_r, Hb. reflexivity.
  - simpl in Ha. apply andb_true_iff in Ha. destruct Ha as [H1 H2].
    change (negb (isHyphen x && isHyphen y)
            && noDoubleHyphen ((y :: a'') ++ z :: b) = true).
    rewrite H1. simpl negb. apply IH; assumption.
Qed.

Lemma rev_cons_inv (s : jsstring) c r : rev s = c :: r -> s = rev r ++ [c].
Proof.
  intro H. rewrite <- (rev_involutive s), H. reflexivity.
Qed.

Lemma startsAlnum_inv s :
  startsAlnum s = true -> exists c r, s = c :: r /\ isLowerAlnum c = true.
Proof. destruct s as [|c r]; [discriminate|]. intro H. eauto. Qed.

Lemma endsAlnum_inv s :
  endsAlnum s = true -> exists r c, s = r ++ [c] /\ isLowerAlnum c = true.
Proof.
  unfold endsAlnum. intro H. destruct (startsAlnum_inv _ H) as [c [r [E Hc]]].
  exists (rev r), c. split; [apply rev_cons_inv; exact E | exact Hc].
Qed.

Lemma endsAlnum_app_last r c : endsAlnum (r ++ [c]) = isLowerAlnum c.
Proof. unfold endsAlnum. rewrite rev_app_distr. reflexivity. Qed.

(** What the replacements leave is empty or a clean name. *)
Lemma cleanName_form rt x : cleanName rt x = [] \/ cleanForm (cleanName rt x).
Proof.
  unfold cleanName, stripHyphens, collapseHyphens.
  set (t := collapseFrom false (replaceInvalid (trim (toLowerCase rt x)))).
  assert (Ht : forallb isNameChar t = true)
    by (apply collapseFrom_forallb, replaceInvalid_nameChars).
  assert (Nt : noDoubleHyphen t = true) by apply collapseFrom_noDouble.
  set (u := dropWhile isHyphen t).
  assert (Hu : forallb isNameChar u = true) by (apply forallb_dropWhile; exact Ht).
  assert (Nu : noDoubleHyphen u = true).
  { destruct (dropWhile_split isHyphen t) as [pre [E _]]. fold u in E.
    rewrite E in Nt. eapply noDouble_app_r; exact Nt. }
  pose proof (dropWhile_head isHyphen t) as Hhead. fold u in Hhead.
  destruct (dropWhileEnd_split isHyphen u) as [post [E _]].
  pose proof (dropWhileEnd_last isHyphen u) as Hlast.
  pose proof (forallb_dropWhileEnd isNameChar isHyphen u Hu) as Hv.
  set (v := dropWhileEnd isHyphen u) in *.
  destruct v as [|c r] eqn:Ev; [left; reflexivity|]. right.
  rewrite E in Nu, Hhead. simpl in Hhead.
  repeat split.
  - exact Hv.
  - eapply noDouble_app_l; exact Nu.
  - simpl. apply nameChar_not_hyphen_alnum; [|exact Hhead].
    simpl in Hv. apply andb_true_iff in Hv. apply Hv.
  - unfold endsAlnum. destruct (rev (c :: r)) as [|z q] eqn:Er.
    + apply (f_equal (@length N)) in Er. rewrite length_rev in Er. discriminate.
    + simpl. apply nameChar_not_hyphen_alnum; [|exact Hlast].
      assert (In z (c :: r)) by (apply in_rev; rewrite Er; left; reflexivity).
      rewrite forallb_forall in Hv. apply Hv. assumption.
Qed.

Lemma cleanForm_nonempty s : cleanForm s -> s <> [].
Proof. intros [_ [_ [H _]]] ->. discriminate. Qed.

(** The branches of [sanitizeProjectName], by the cleaned name. *)
Lemma sanitize_empty rt x :
  cleanName rt x = [] -> sanitizeProjectName rt x = lit "webmint--app".
Proof. intro E. unfold sanitizeProjectName. rewrite E. reflexivity. Qed.

Lemma sanitize_clean rt x :
  cleanForm (cleanName rt x) ->
  sanitizeProjectName rt x =
    let s := cleanName rt x in
    let s := if (58 <? length s)%nat then firstn 55 s ++ lit "-app" else s in
    if (length s <? 3)%nat then lit "webmint-" ++ s ++ lit "-app" else s.
Proof.
  intros [_ [_ [Hs He]]]. unfold sanitizeProjectName.
  rewrite Hs. simpl negb. cbv iota. rewrite He. reflexivity.
Qed.

Lemma firstn_prefix {A} n (s : list A) : exists post, s = firstn n s ++ post.
Proof. exists (skipn n s). symmetry. apply firstn_skipn. Qed.

Lemma nameChars_app_suffix s :
  forallb isNameChar s = true -> forallb isNameChar (s ++ lit "-app") = true.
Proof. intro H. rewrite forallb_app, H. reflexivity. Qed.

(** Every part of the naming rule but the upper bound holds of every
    result, and the length never exceeds 59. *)
Lemma sanitizeProjectName_shape rt x :
  let r := sanitizeProjectName rt x in
  (3 <= length r <= 59)%nat
  /\ forallb isNameChar r = true
  /\ startsAlnum r = true /\ endsAlnum r = true.
Proof.
  destruct (cleanName_form rt x) as [E | F].
  - cbv zeta. rewrite (sanitize_empty rt x E).
    repeat split; try reflexivity; simpl; lia.
  - cbv zeta. rewrite (sanitize_clean rt x F). cbv zeta.
    destruct F as [Hn [_ [Hs He]]].
    set (s := cleanName rt x) in *.
    destruct (58 <? length s)%nat eqn:L.
    + apply Nat.ltb_lt in L.
      assert (Hl : length (firstn 55 s ++ lit "-app") = 59%nat).
      { rewrite length_app, length_firstn, Nat.min_l by lia. reflexivity. }
      rewrite Hl. change (59 <? 3)%nat with false. cbv iota.
      split; [lia|]. split; [|split].
      * apply nameChars_app_suffix.
        destruct (firstn_prefix 55 s) as [post E]. rewrite E in Hn.
        eapply forallb_app_l; exact Hn.
      * destruct (startsAlnum_inv s Hs) as [c [r [E Hc]]]. rewrite E. exact Hc.
      * change (lit "-app") with ([45; 97; 112] ++ [112]).
        rewrite app_assoc, endsAlnum_app_last. reflexivity.
    + apply Nat.ltb_ge in L.
      destruct (length s <? 3)%nat eqn:L3.
      * apply Nat.ltb_lt in L3.
        split; [|split; [|split]].
        -- rewrite !length_app. simpl. lia.
        -- rewrite !forallb_app, Hn. reflexivity.
        -- reflexivity.
        -- change (lit "-app") with ([45; 97; 112] ++ [112]).
           rewrite !app_assoc, endsAlnum_app_last. reflexivity.
      * apply Nat.ltb_ge in L3. repeat split; try assumption; lia.
Qed.

(** When the cleaned name is longer than 58, the truncation keeps 55 code
    units and appends 4. *)
Lemma sanitize_overlong rt x :
  (58 < length (cleanName rt x))%nat ->
  sanitizeProjectName rt x = firstn 55 (cleanName rt x) ++ lit "-app".
Proof.
  intro L. destruct (cleanName_form rt x) as [E | F].
  - rewrite E in L. simpl in L. lia.
  - rewrite (sanitize_clean rt x F). cbv zeta.
    apply Nat.ltb_lt in L. rewrite L.
    assert (Hl : length (firstn 55 (cleanName rt x) ++ lit "-app") = 59%nat).
    { apply Nat.ltb_lt in L.
      rewrite length_app, length_firstn, Nat.min_l by lia. reflexivity. }
    rewrite Hl. reflexivity.
Qed.

Lemma replaceInvalid_fix s : forallb isNameChar s = true -> replaceInvalid s = s.
Proof.
  induction s as [|c r IH]; simpl; intro H; [reflexivity|].
  apply andb_true_iff in H. destruct H as [Hc Hr].
  rewrite Hc, IH by exact Hr. reflexivity.
Qed.

Lemma trim_fix s : startsAlnum s = true -> endsAlnum s = true -> trim s = s.
Proof.
  intros Hs He. unfold trim.
  destruct (startsAlnum_inv s Hs) as [c [r [E Hc]]].
  assert (D : dropWhile isWhiteSpace s = s).
  { rewrite E. apply dropWhile_fix, alnum_not_space, Hc. }
  rewrite D.
  destruct (startsAlnum_inv _ He) as [z [q [Ez Hz]]].
  eapply dropWhileEnd_fix; [exact Ez | apply alnum_not_space, Hz].
Qed.

Lemma stripHyphens_fix s :
  startsAlnum s = true -> endsAlnum s = true -> stripHyphens s = s.
Proof.
  intros Hs He. unfold stripHyphens.
  destruct (startsAlnum_inv s Hs) as [c [r [E Hc]]].
  assert (D : dropWhile isHyphen s = s).
  { rewrite E. apply dropWhile_fix, alnum_not_hyphen, Hc. }
  rewrite D.
  destruct (startsAlnum_inv _ He) as [z [q [Ez Hz]]].
  eapply dropWhileEnd_fix; [exact Ez | apply alnum_not_hyphen, Hz].
Qed.

Lemma cleanName_fix rt s : lowerFixesNames rt -> cleanForm s -> cleanName rt s = s.
Proof.
  intros L [Hn [Hd [Hs He]]]. unfold cleanName, collapseHyphens.
  rewrite (L s Hn), (trim_fix s Hs He), (replaceInvalid_fix s Hn).
  rewrite (proj1 (noDouble_collapse_fix s Hd)).
  apply stripHyphens_fix; assumption.
Qed.

Lemma sanitize_fix rt s :
  lowerFixesNames rt -> cleanForm s -> (3 <= length s <= 58)%nat ->
  sanitizeProjectName rt s = s.
Proof.
  intros L F [H3 H58].
  assert (C : cleanName rt s = s) by (apply cleanName_fix; assumption).
  assert (F' : cleanForm (cleanName rt s)) by (rewrite C; exact F).
  rewrite (sanitize_clean rt s F'). cbv zeta. rewrite C.
  assert (A : (58 <? length s)%nat = false) by (apply Nat.ltb_ge; lia).
  rewrite A.
  assert (B : (length s <? 3)%nat = false) by (apply Nat.ltb_ge; lia).
  rewrite B. reflexivity.
Qed.

Lemma cleanForm_wrap s :
  cleanForm s -> cleanForm (lit "webmint-" ++ s ++ lit "-app").
Proof.
  intros [Hn [Hd [Hs He]]].
  destruct (startsAlnum_inv s Hs) as [c [r [E Hc]]].
  destruct (endsAlnum_inv s He) as [q [z [Ez Hz]]].
  split; [|split; [|split]].
  - rewrite !forallb_app, Hn. reflexivity.
  - assert (M : noDoubleHyphen (lit "webmint-" ++ s) = true).
    { rewrite E. apply noDouble_app_mid.
      - apply alnum_not_hyphen, Hc.
      - simpl. rewrite (alnum_not_hyphen c Hc). reflexivity.
      - rewrite <- E. exact Hd. }
    rewrite Ez in *. rewrite <- app_assoc. simpl app at 2.
    rewrite app_assoc. apply noDouble_app_mid.
    + apply alnum_not_hyphen, Hz.
    + rewrite <- app_assoc. exact M.
    + simpl. rewrite (alnum_not_hyphen z Hz). reflexivity.
  - reflexivity.
  - change (lit "-app") with ([45; 97; 112] ++ [112]).
    rewrite !app_assoc, endsAlnum_app_last. reflexivity.
Qed.

Lemma asciiLower_fixes_names : lowerFixesNames exampleRuntime.
Proof.
  intros s. simpl. induction s as [|c r IH]; simpl; intro H; [reflexivity|].
  apply andb_true_iff in H. destruct H as [Hc Hr].
  rewrite IH by exact Hr. f_equal.
  destruct ((65 <=? c) && (c <=? 90)) eqn:E; [|reflexivity].
  unfold isNameChar, isLowerAlnum, hyphen in Hc. boolp. lia.
Qed.

(** ** Name sanitization *)

Example sanitize_my_site :
  sanitizeProjectName exampleRuntime (lit "My Site!") = lit "my-site".
Proof. reflexivity. Qed.

Example sanitize_spaces_and_hyphens :
  sanitizeProjectName exampleRuntime (lit "  --Hello   World--  ") = lit "hello-world".
Proof. reflexivity. Qed.

Example sanitize_short :
  sanitizeProjectName exampleRuntime (lit "a") = lit "webmint-a-app".
Proof. reflexivity. Qed.

Example sanitize_symbols_only :
  sanitizeProjectName exampleRuntime (lit "!!!") = lit "webmint--app".
Proof. reflexivity. Qed.

(** C3 (the code departs from the claim): a name whose cleaned form is
    longer than 58 code units is cut to its first 55 and given the 4 code
    units of [-app], so [sanitizeProjectName] returns 59 code units, one
    more than the 58 the claim and the method's own comment allow.  The
    other parts of the claim hold of every result
    ([sanitizeProjectName_shape]). *)
Theorem sanitizeProjectName_overlong_is_59 (rt : Runtime) (x : jsstring) :
  (58 < length (cleanName rt x))%nat ->
  length (sanitizeProjectName rt x) = 59%nat.
Proof.
  intro L. rewrite (sanitize_overlong rt x L).
  rewrite length_app, length_firstn, Nat.min_l by lia. reflexivity.
Qed.

Lemma sanitizeProjectName_overlong_is_59_witness :
  (58 < length (cleanName exampleRuntime longName))%nat
  /\ length (sanitizeProjectName exampleRuntime longName) = 59%nat.
Proof.
  split.
  - vm_compute. lia.
  - apply (sanitizeProjectName_overlong_is_59 exampleRuntime longName).
    vm_compute. lia.
Defined.

(** C4, as stated, fails: [!!!] cleans to the empty name, which is given
    both the prefix and the suffix, [webmint--app]; sanitizing that
    collapses the two hyphens, [webmint-app]. *)
Lemma sanitize_not_idempotent :
  sanitizeProjectName exampleRuntime (sanitizeProjectName exampleRuntime (lit "!!!"))
  <> sanitizeProjectName exampleRuntime (lit "!!!").
Proof. vm_compute. discriminate. Qed.

(** C4, amended: when the cleaned form of [x] is not empty and has at
    most 58 code units, sanitizing the sanitized name gives it back.
    ([lowerFixesNames] is what [String.prototype.toLowerCase] does on a
    string of lowercase letters, digits and hyphens: nothing.) *)
Theorem sanitize_idempotent_on_clean (rt : Runtime) (x : jsstring) :
  lowerFixesNames rt ->
  cleanName rt x <> [] ->
  (length (cleanName rt x) <= 58)%nat ->
  sanitizeProjectName rt (sanitizeProjectName rt x) = sanitizeProjectName rt x.
Proof.
  intros L Hne H58.
  destruct (cleanName_form rt x) as [E | F]; [contradiction|].
  rewrite (sanitize_clean rt x F). cbv zeta.
  assert (A : (58 <? length (cleanName rt x))%nat = false) by (apply Nat.ltb_ge; lia).
  rewrite A.
  destruct (length (cleanName rt x) <? 3)%nat eqn:L3.
  - apply Nat.ltb_lt in L3.
    apply sanitize_fix; [exact L | apply cleanForm_wrap; exact F |].
    rewrite !length_app. simpl. lia.
  - apply Nat.ltb_ge in L3. apply sanitize_fix; [exact L | exact F | lia].
Qed.

Lemma sanitize_idempotent_on_clean_witness :
  sanitizeProjectName exampleRuntime
    (sanitizeProjectName exampleRuntime (lit "My Site!"))
  = sanitizeProjectName exampleRuntime (lit "My Site!").
Proof.
  apply (sanitize_idempotent_on_clean exampleRuntime (lit "My Site!")).
  - exact asciiLower_fixes_names.
  - vm_compute. discriminate.
  - vm_compute. lia.
Defined.

(** ** Packaging *)

Lemma trim_nil : trim [] = [].
Proof. reflexivity. Qed.

Lemma nonempty_length (s : jsstring) : (0 <? length s)%nat = negb (isEmpty s).
Proof. destruct s; reflexivity. Qed.

Lemma isEmpty_false_iff (s : jsstring) : isEmpty s = false <-> s <> [].
Proof. destruct s; simpl; split; congruence. Qed.

(** C7: [prepareDeploymentFiles] always gives an [index.html] entry, a
    [styles.css] entry exactly when the trimmed css is not empty, and a
    [script.js] entry exactly when the trimmed js is not empty. *)
Theorem prepareDeploymentFiles_entries (files : PageFiles) :
  lookup (lit "index.html") (prepareDeploymentFiles files) <> None
  /\ (lookup (lit "styles.css") (prepareDeploymentFiles files) <> None
      <-> trim (css files) <> [])
  /\ (lookup (lit "script.js") (prepareDeploymentFiles files) <> None
      <-> trim (js files) <> []).
Proof.
  destruct files as [h c j]. unfold prepareDeploymentFiles. simpl html. simpl css. simpl js.
  rewrite !nonempty_length.
  assert (Hc : negb (isEmpty c) && negb (isEmpty (trim c)) = negb (isEmpty (trim c))).
  { destruct c; [reflexivity|]. reflexivity. }
  assert (Hj : negb (isEmpty j) && negb (isEmpty (trim j)) = negb (isEmpty (trim j))).
  { destruct j; [reflexivity|]. reflexivity. }
  rewrite Hc, Hj.
  destruct (isEmpty (trim c)) eqn:Ec; destruct (isEmpty (trim j)) eqn:Ej;
    simpl negb; cbv iota;
    (split; [vm_compute; discriminate|]);
    (split; split; intro H;
     try (apply isEmpty_false_iff; assumption);
     try (intro; apply H; destruct (trim c); [reflexivity|discriminate]);
     try (intro; apply H; destruct (trim j); [reflexivity|discriminate]);
     try (exfalso; apply H; reflexivity);
     try discriminate).
Qed.

(** ** URL normalization *)

Lemma splitAtDot_label label rest :
  noDot label = true -> splitAtDot (label ++ dot :: rest) = Some (label, rest).
Proof.
  induction label as [|c r IH]; simpl; intro H; [reflexivity|].
  apply andb_true_iff in H. destruct H as [Hc Hr].
  apply negb_true_iff in Hc. rewrite Hc, IH by exact Hr. reflexivity.
Qed.

Lemma splitAtDot_noDot s : noDot s = true -> splitAtDot s = None.
Proof.
  induction s as [|c r IH]; simpl; intro H; [reflexivity|].
  apply andb_true_iff in H. destruct H as [Hc Hr].
  apply negb_true_iff in Hc. rewrite Hc, IH by exact Hr. reflexivity.
Qed.

Lemma cleanUrl_label label rest :
  label <> [] -> noDot label = true -> noLineTerminator rest = true ->
  cleanUrl (label ++ dot :: rest) = rest.
Proof.
  intros Hne Hd Hl. unfold cleanUrl. rewrite splitAtDot_label by exact Hd.
  rewrite Hl. destruct label; [contradiction | reflexivity].
Qed.

Lemma cleanUrl_noDot s : noDot s = true -> cleanUrl s = s.
Proof. intro H. unfold cleanUrl. rewrite splitAtDot_noDot by exact H. reflexivity. Qed.

Example cleanUrl_preview :
  cleanUrl (lit "c678f41b.myproj.pages.dev") = lit "myproj.pages.dev".
Proof. reflexivity. Qed.

Example cleanUrl_preview_with_scheme :
  cleanUrl (lit "https://c678f41b.testing-clg.pages.dev") = lit "testing-clg.pages.dev".
Proof. reflexivity. Qed.

(** C5, as stated, fails: a URL that has only the project's own labels
    still loses its first one. *)
Lemma cleanUrl_strips_project_label :
  cleanUrl (lit "myproj.pages.dev") <> lit "myproj.pages.dev".
Proof. vm_compute. discriminate. Qed.

(** C5, amended: a URL made of a non-empty first label without a dot, a
    dot, and a rest without line terminator is replaced by the rest; a
    URL without any dot is returned unchanged; and [deployPage] applies
    this replacement on both paths: to the [url] of the provider's reply
    when the deployment was created (the result then gets [https://] in
    front), and to the URL of the response when it was not. *)
Theorem cleanUrl_first_label (rt : Runtime) (w : World)
    (name label rest plain reqUrl : jsstring) (body : JSValue) :
  label <> [] -> noDot label = true -> noLineTerminator rest = true ->
  noDot plain = true ->
  cleanUrl (label ++ dot :: rest) = rest
  /\ cleanUrl plain = plain
  /\ (exists r,
        concludeDeployment rt w name
          (mkResponse true reqUrl (BodyJson (replyWithUrl (label ++ dot :: rest))))
        = (Ret r, [])
        /\ success r = true /\ url r = JStr (lit "https://" ++ rest))
  /\ (exists r,
        concludeDeployment rt w name
          (mkResponse false (label ++ dot :: rest) (BodyJson body))
        = (Ret r, [])
        /\ success r = true /\ url r = JStr rest).
Proof.
  intros Hne Hd Hl Hp.
  pose proof (cleanUrl_label label rest Hne Hd Hl) as C.
  split; [exact C|]. split; [apply cleanUrl_noDot; exact Hp|]. split.
  - eexists. split; [|split].
    + unfold concludeDeployment, bind, json, lift, ret. simpl. reflexivity.
    + reflexivity.
    + simpl. unfold httpsUrl. rewrite C. reflexivity.
  - eexists. split; [|split].
    + unfold concludeDeployment, bind, json, ret. simpl. reflexivity.
    + reflexivity.
    + simpl. rewrite C. reflexivity.
Qed.

Lemma cleanUrl_first_label_witness :
  cleanUrl (lit "c678f41b" ++ dot :: lit "myproj.pages.dev") = lit "myproj.pages.dev"
  /\ cleanUrl (lit "localhost") = lit "localhost".
Proof.
  destruct (cleanUrl_first_label exampleRuntime happyWorld (lit "myproj")
              (lit "c678f41b") (lit "myproj.pages.dev") (lit "localhost")
              (lit "https://api.cloudflare.com/") JNull)
    as [H1 [H2 _]].
  - vm_compute. discriminate.
  - reflexivity.
  - reflexivity.
  - reflexivity.
  - split; [exact H1 | exact H2].
Defined.

(** ** Running computations *)

Lemma bind_ret_eq {A B} (m : M A) (k : A -> M B) a :
  fst m = Ret a -> bind m k = (fst (k a), snd m ++ snd (k a)).
Proof. intro E. unfold bind. rewrite E. reflexivity. Qed.

Lemma bind_throw_eq {A B} (m : M A) (k : A -> M B) t :
  fst m = Throw t -> bind m k = (Throw t, snd m).
Proof. intro E. unfold bind. rewrite E. reflexivity. Qed.

Lemma tryCatch_ret_eq {A} (m : M A) h a :
  fst m = Ret a -> tryCatch m h = (Ret a, snd m).
Proof. intro E. unfold tryCatch. rewrite E. reflexivity. Qed.

Lemma tryCatch_throw_eq {A} (m : M A) h t :
  fst m = Throw t -> tryCatch m h = (fst (h t), snd m ++ snd (h t)).
Proof. intro E. unfold tryCatch. rewrite E. reflexivity. Qed.

Lemma bind_ret_inv {A B} (m : M A) (k : A -> M B) b :
  fst (bind m k) = Ret b -> exists a, fst m = Ret a /\ fst (k a) = Ret b.
Proof.
  unfold bind. destruct (fst m) as [a|t]; simpl; intro H; [eauto | discriminate].
Qed.

Lemma silent_ret {A} q (a : A) : silent q (ret a).
Proof. reflexivity. Qed.

Lemma silent_throw {A} q t : silent q (@throw A t).
Proof. reflexivity. Qed.

Lemma silent_lift {A} q (o : Outcome A) : silent q (lift o).
Proof. reflexivity. Qed.

Lemma silent_record q c : q c = false -> silent q (record c).
Proof. intro H. unfold silent. simpl. rewrite H. reflexivity. Qed.

Lemma silent_bind {A B} q (m : M A) (k : A -> M B) :
  silent q m -> (forall a, silent q (k a)) -> silent q (bind m k).
Proof.
  unfold silent, bind. intros Hm Hk. destruct (fst m) as [a|t]; simpl.
  - rewrite existsb_app, Hm, Hk. reflexivity.
  - exact Hm.
Qed.

Lemma silent_tryCatch {A} q (m : M A) h :
  silent q m -> (forall t, silent q (h t)) -> silent q (tryCatch m h).
Proof.
  unfold silent, tryCatch. intros Hm Hh. destruct (fst m) as [a|t]; simpl.
  - exact Hm.
  - rewrite existsb_app, Hm, Hh. reflexivity.
Qed.

Lemma silent_perform q c fault : q c = false -> silent q (perform c fault).
Proof.
  intro H. unfold perform. apply silent_bind; [apply silent_record; exact H|].
  intros _. destruct fault; [apply silent_throw | apply silent_ret].
Qed.

Lemma silent_forEach {A} q (f : A -> M unit) l :
  (forall a, silent q (f a)) -> silent q (forEach f l).
Proof.
  intro H. induction l as [|a r IH]; simpl; [apply silent_ret|].
  apply silent_bind; [apply H | intros _; exact IH].
Qed.

Lemma silent_json q r : silent q (json r).
Proof. unfold json. destruct (respBody r); [apply silent_ret | apply silent_throw]. Qed.

Lemma silent_fetch q c u o : q c = false -> silent q (fetch c u o).
Proof.
  intro H. unfold fetch. apply silent_bind; [apply silent_record; exact H|].
  intros _. destruct o; [apply silent_throw | apply silent_ret].
Qed.

Lemma silent_generateAsync q rt w site entries :
  silent q (generateAsync rt w site entries).
Proof.
  unfold generateAsync. destruct (zipFault w site); [apply silent_throw | apply silent_ret].
Qed.

(** A computation whose trace is silent up to a point, and whose whole
    trace is not, got past that point. *)
Lemma bind_reaches {A B} q (m : M A) (k : A -> M B) :
  silent q m -> existsb q (snd (bind m k)) = true ->
  exists a, fst m = Ret a /\ existsb q (snd (k a)) = true.
Proof.
  unfold silent, bind. intros Hm H. destruct (fst m) as [a|t]; simpl in H.
  - rewrite existsb_app, Hm in H. simpl in H. eauto.
  - rewrite Hm in H. discriminate.
Qed.

Lemma silent_all_nil {A} (m : M A) : silent (fun _ => true) m -> snd m = [].
Proof. unfold silent. destruct (snd m); [reflexivity | discriminate]. Qed.

(** ** The stages of [deployPage] and the calls they make *)

Section Stages.

Variable rt : Runtime.
Variable svc : Service.
Variable w : World.
Variable q : Call -> bool.

Lemma silent_ensureProject n :
  (forall c, kindOf c = KProject -> q c = false) -> silent q (ensureProject w n).
Proof.
  intro H. unfold ensureProject. apply silent_tryCatch.
  - apply silent_perform, H. reflexivity.
  - intros [m st | v]; [|apply silent_throw].
    destruct (includes m (lit "404")); [|apply silent_throw].
    apply silent_perform, H. reflexivity.
Qed.

Lemma silent_createLocalBackupAndZip files n :
  (forall c, kindOf c = KDisk -> q c = false) ->
  silent q (createLocalBackupAndZip rt w files n).
Proof.
  intro H. unfold createLocalBackupAndZip. apply silent_tryCatch.
  - apply silent_bind; [apply silent_perform, H; reflexivity|]. intros _.
    apply silent_bind.
    + apply silent_forEach. intros [fileName fileData].
      apply silent_perform, H. reflexivity.
    + intros _. apply silent_bind; [apply silent_generateAsync|]. intro z.
      apply silent_bind; [apply silent_perform, H; reflexivity|]. intros _.
      apply silent_ret.
  - intro t. apply silent_throw.
Qed.

Lemma silent_getUploadToken n :
  (forall c, kindOf c = KToken -> q c = false) -> silent q (getUploadToken rt svc w n).
Proof.
  intro H. unfold getUploadToken.
  apply silent_bind; [apply silent_fetch, H; reflexivity|]. intro r.
  destruct (negb (respOk r)).
  - apply silent_bind; [apply silent_json | intro; apply silent_throw].
  - apply silent_bind; [apply silent_json|]. intro.
    apply silent_bind; [apply silent_lift|]. intro. apply silent_lift.
Qed.

Lemma silent_buildUploadFiles files : silent q (buildUploadFiles rt w files).
Proof.
  unfold buildUploadFiles. apply silent_bind.
  - destruct (lookup (lit "index.html") files); [apply silent_ret | apply silent_throw].
  - intro index. apply silent_bind; [apply silent_generateAsync|]. intro.
    apply silent_bind; [apply silent_generateAsync|]. intro. apply silent_ret.
Qed.

Lemma silent_buildManifestData files n : silent q (buildManifestData rt w files n).
Proof.
  unfold buildManifestData.
  apply silent_bind; [apply silent_generateAsync|]. intro. apply silent_ret.
Qed.

Lemma silent_uploadAssets tok items :
  (forall c, kindOf c = KUpload -> q c = false) ->
  silent q (uploadAssets rt w tok items).
Proof.
  intro H. unfold uploadAssets.
  apply silent_bind; [apply silent_fetch, H; reflexivity|]. intro r.
  destruct (negb (respOk r)).
  - apply silent_bind; [apply silent_json | intro; apply silent_throw].
  - apply silent_bind; [apply silent_json | intro; apply silent_ret].
Qed.

Lemma silent_createDeployment n files :
  (forall c, kindOf c = KCreate -> q c = false) ->
  silent q (createDeployment rt svc w n files).
Proof.
  intro H. unfold createDeployment.
  apply silent_bind; [apply silent_buildManifestData|].
  intro. apply silent_fetch, H. reflexivity.
Qed.

Lemma silent_concludeDeployment n r : silent q (concludeDeployment rt w n r).
Proof.
  unfold concludeDeployment. destruct (negb (respOk r)).
  - apply silent_bind; [apply silent_json | intro; apply silent_ret].
  - apply silent_bind; [apply silent_json|]. intro.
    apply silent_bind; [apply silent_lift|]. intro.
    apply silent_bind; [apply silent_lift|]. intro. apply silent_ret.
Qed.

Lemma silent_deployPage name files :
  (forall c, kindOf c <> KStream -> kindOf c <> KProbe -> q c = false) ->
  silent q (deployPage rt svc w name files).
Proof.
  intro H. unfold deployPage. apply silent_tryCatch; [|intro; apply silent_ret].
  unfold deployPageBody.
  apply silent_bind; [apply silent_lift|]. intro n.
  apply silent_bind;
    [apply silent_ensureProject; intros c E; apply H; rewrite E; discriminate|].
  intros _.
  apply silent_bind;
    [apply silent_createLocalBackupAndZip; intros c E; apply H; rewrite E; discriminate|].
  intros _.
  apply silent_bind;
    [apply silent_getUploadToken; intros c E; apply H; rewrite E; discriminate|].
  intro tok.
  apply silent_bind; [apply silent_buildUploadFiles|].
  intro items.
  apply silent_bind;
    [apply silent_uploadAssets; intros c E; apply H; rewrite E; discriminate|].
  intros _.
  apply silent_bind;
    [apply silent_createDeployment; intros c E; apply H; rewrite E; discriminate|].
  intro r. apply silent_concludeDeployment.
Qed.

End Stages.

(** ** [deployPage] returns *)

Lemma concludeDeployment_success rt w n r res :
  fst (concludeDeployment rt w n r) = Ret res -> success res = true.
Proof.
  unfold concludeDeployment. destruct (negb (respOk r)); intro H.
  - apply bind_ret_inv in H. destruct H as [v [_ H]]. simpl in H.
    injection H as <-. reflexivity.
  - apply bind_ret_inv in H. destruct H as [v [_ H]].
    apply bind_ret_inv in H. destruct H as [x [_ H]].
    apply bind_ret_inv in H. destruct H as [u [_ H]]. simpl in H.
    injection H as <-. reflexivity.
Qed.

Lemma deployPageBody_success rt svc w name files res :
  fst (deployPageBody rt svc w name files) = Ret res -> success res = true.
Proof.
  unfold deployPageBody. intro H.
  repeat (apply bind_ret_inv in H; destruct H as [? [_ H]]).
  eapply concludeDeployment_success. exact H.
Qed.

Lemma deployPage_returns rt svc w name files :
  exists res,
    fst (deployPage rt svc w name files) = Ret res
    /\ (success res = true \/ exists message, res = failure message).
Proof.
  unfold deployPage, tryCatch.
  destruct (fst (deployPageBody rt svc w name files)) as [res|t] eqn:E; simpl.
  - exists res. split; [reflexivity|]. left. eapply deployPageBody_success. exact E.
  - eexists. split; [reflexivity|]. right. eexists. reflexivity.
Qed.

Lemma deployPage_trace rt svc w name files :
  snd (deployPage rt svc w name files) = snd (deployPageBody rt svc w name files).
Proof.
  unfold deployPage, tryCatch.
  destruct (fst (deployPageBody rt svc w name files)); simpl;
    [reflexivity | apply app_nil_r].
Qed.

(** When the [try] block throws, [deployPage] hands the message over. *)
Lemma deployPage_caught rt svc w name files t :
  fst (deployPageBody rt svc w name files) = Throw t ->
  fst (deployPage rt svc w name files)
  = Ret (failure (messageOr (lit "Failed to deploy page") t)).
Proof. intro E. unfold deployPage, tryCatch. rewrite E. reflexivity. Qed.







Example deployPage_happy_path :
  exists res,
    fst (deployPage exampleRuntime exampleService happyWorld (JStr (lit "demo"))
           exampleFiles) = Ret res
    /\ success res = true
    /\ url res = JStr (lit "https://myproj.pages.dev")
    /\ warning res = JUndefined
    /\ map kindOf (snd (deployPage exampleRuntime exampleService happyWorld
                          (JStr (lit "demo")) exampleFiles))
       = [KProject; KDisk; KDisk; KDisk; KToken; KUpload; KCreate].
Proof. eexists. vm_compute. repeat split. Qed.

(** ** The stream around [deployPage] *)

(** A request without html is answered with status 400 before anything
    is sent or called. *)
Example POST_rejects_blank_html :
  POST exampleRuntime happyWorld (lit "gen")
    (mkEnv (Some (lit "token")) (Some (lit "acct")))
    (BodyJson (JObj [(lit "html", JStr (lit "   ")); (lit "projectAlias", JStr (lit "demo"))]))
  = (Ret (JsonResponse 400 (errorBody (lit "Missing or invalid HTML content"))), []).
Proof. reflexivity. Qed.

Lemma emitted_app a b : emitted (a ++ b) = emitted a ++ emitted b.
Proof.
  induction a as [|c r IH]; simpl; [reflexivity|].
  destruct c; simpl; rewrite ?IH; reflexivity.
Qed.

Lemma emitted_silent tr : existsb isEnqueue tr = false -> emitted tr = [].
Proof.
  induction tr as [|c r IH]; simpl; [reflexivity|].
  destruct c; simpl; try exact IH. discriminate.
Qed.

Lemma deployPage_emits_nothing rt svc w name files :
  emitted (snd (deployPage rt svc w name files)) = [].
Proof.
  apply emitted_silent. apply silent_deployPage.
  intros c H1 H2. destruct c; simpl in *; congruence.
Qed.

Lemma deploy_run rt w gen svc hint html css js :
  exists statuses res,
    forallb isStatus statuses = true
    /\ map progressOf statuses = [10; 30; 60]%Z
    /\ fst (deployPage rt svc w (deployName gen hint) (deployFiles html css js)) = Ret res
    /\ snd (deploy rt w gen svc hint html css js)
       = map Enqueue statuses
         ++ snd (deployPage rt svc w (deployName gen hint) (deployFiles html css js))
         ++ [Enqueue (terminalOf res); Enqueue DoneMarker; Close].
Proof.
  destruct (deployPage_returns rt svc w (deployName gen hint) (deployFiles html css js))
    as [res [E _]].
  eexists [_; _; _], res. split; [|split; [|split; [exact E|]]].
  3:{ unfold deploy, postStart, trimOrEmpty, terminalOf.
      assert (Tc : trimOf (orElse (JStr css) (JStr [])) = Ret (trim css))
        by (destruct css; reflexivity).
      assert (Tj : trimOf (orElse (JStr js) (JStr [])) = Ret (trim js))
        by (destruct js; reflexivity).
      rewrite Tc, Tj.
      unfold tryCatch, bind, enqueue, record, lift. simpl fst. simpl snd.
      cbv iota. simpl fst. simpl snd.
      fold (deployName gen hint). fold (deployFiles html css js).
      rewrite E. cbv iota.
      destruct (success res); simpl; rewrite <- ?app_assoc; reflexivity. }
  - reflexivity.
  - reflexivity.
Qed.

(** ** Failures before the deployment is created *)

Lemma failsQuietly_here {A B} q (m : M A) (k : A -> M B) :
  failsQuietly q m -> failsQuietly q (bind m k).
Proof.
  intros [[t E] S]. unfold failsQuietly. rewrite (bind_throw_eq m k t E).
  split; [eexists; reflexivity | exact S].
Qed.

Lemma failsQuietly_later {A B} q (m : M A) (k : A -> M B) :
  silent q m -> (forall a, failsQuietly q (k a)) -> failsQuietly q (bind m k).
Proof.
  intros S H. destruct (fst m) as [a|t] eqn:E.
  - rewrite (bind_ret_eq m k a E). destruct (H a) as [[t Et] Sk].
    split; [exists t; exact Et|]. simpl. rewrite existsb_app, S, Sk. reflexivity.
  - apply failsQuietly_here. split; [eexists; exact E | exact S].
Qed.

Lemma getUploadToken_rejected rt svc w n :
  nonSuccess (tokenFetch w) = true -> exists t, fst (getUploadToken rt svc w n) = Throw t.
Proof.
  intro H. unfold getUploadToken, fetch.
  destruct (tokenFetch w) as [t | [|] body]; try discriminate.
  destruct body; eexists; reflexivity.
Qed.

Lemma uploadAssets_rejected rt w tok items :
  nonSuccess (uploadFetch w) = true -> exists t, fst (uploadAssets rt w tok items) = Throw t.
Proof.
  intro H. unfold uploadAssets, fetch.
  destruct (uploadFetch w) as [t | [|] body]; try discriminate.
  destruct body; eexists; reflexivity.
Qed.

Ltac not_kind := let c := fresh in let E := fresh in intros c E; destruct c; (discriminate E || reflexivity).

Lemma deployPageBody_fails_before_create rt svc w name files :
  nonSuccess (tokenFetch w) = true \/ nonSuccess (uploadFetch w) = true ->
  failsQuietly isCreateDeployment (deployPageBody rt svc w name files).
Proof.
  intro H. unfold deployPageBody.
  apply failsQuietly_later; [apply silent_lift|]. intro n.
  apply failsQuietly_later; [apply silent_ensureProject; not_kind|]. intros _.
  apply failsQuietly_later; [apply silent_createLocalBackupAndZip; not_kind|]. intros _.
  destruct H as [H | H].
  - apply failsQuietly_here. split.
    + apply getUploadToken_rejected. exact H.
    + apply silent_getUploadToken. not_kind.
  - apply failsQuietly_later; [apply silent_getUploadToken; not_kind|]. intro tok.
    apply failsQuietly_later; [apply silent_buildUploadFiles|]. intro items.
    apply failsQuietly_here. split.
    + apply uploadAssets_rejected. exact H.
    + apply silent_uploadAssets. not_kind.
Qed.

Lemma existsb_map_Enqueue q cs :
  (forall c, q (Enqueue c) = false) -> existsb q (map Enqueue cs) = false.
Proof.
  intro H. induction cs as [|c r IH]; simpl; [reflexivity|]. rewrite H, IH. reflexivity.
Qed.

Lemma emitted_map_Enqueue cs : emitted (map Enqueue cs) = cs.
Proof. induction cs as [|c r IH]; simpl; [reflexivity|]. rewrite IH. reflexivity. Qed.

(** What the stream of [deploy] sends, from what [deployPage] returns. *)
Lemma deploy_events rt w gen svc hint html css js :
  exists statuses res,
    forallb isStatus statuses = true
    /\ map progressOf statuses = [10; 30; 60]%Z
    /\ fst (deployPage rt svc w (deployName gen hint) (deployFiles html css js)) = Ret res
    /\ emitted (snd (deploy rt w gen svc hint html css js))
       = statuses ++ [terminalOf res; DoneMarker].
Proof.
  destruct (deploy_run rt w gen svc hint html css js) as [statuses [res [S [P [E T]]]]].
  exists statuses, res. repeat split; try assumption.
  rewrite T, !emitted_app, emitted_map_Enqueue, deployPage_emits_nothing. reflexivity.
Qed.

Lemma deploy_silent q rt w gen svc hint html css js :
  (forall c, kindOf c = KStream -> q c = false) ->
  silent q (deployPage rt svc w (deployName gen hint) (deployFiles html css js)) ->
  silent q (deploy rt w gen svc hint html css js).
Proof.
  intros H S.
  destruct (deploy_run rt w gen svc hint html css js) as [statuses [res [_ [_ [_ T]]]]].
  unfold silent in *. rewrite T, !existsb_app, S.
  rewrite existsb_map_Enqueue by (intro; apply H; reflexivity).
  simpl. rewrite !H by reflexivity. reflexivity.
Qed.

(** C8: when the upload-token request or the upload request comes back
    with a non-success status, [deployPage] returns a failure, the stream
    of [deploy] ends with an error event that carries its message (after
    status events only, so no completion event is sent), and the
    deployment-creation call is not made. *)
Theorem upload_failure_is_fatal (rt : Runtime) (w : World) (gen : jsstring)
    (svc : Service) (hint html css js : jsstring) :
  nonSuccess (tokenFetch w) = true \/ nonSuccess (uploadFetch w) = true ->
  exists message statuses,
    fst (deployPage rt svc w (deployName gen hint) (deployFiles html css js))
    = Ret (failure message)
    /\ silent isCreateDeployment (deploy rt w gen svc hint html css js)
    /\ emitted (snd (deploy rt w gen svc hint html css js))
       = statuses ++ [errorEvent (JStr message); DoneMarker]
    /\ forallb isStatus statuses = true.
Proof.
  intro H.
  destruct (deployPageBody_fails_before_create rt svc w (deployName gen hint)
              (deployFiles html css js) H) as [[t E] S].
  pose proof (deployPage_caught _ _ _ _ _ _ E) as R.
  destruct (deploy_events rt w gen svc hint html css js)
    as [statuses [res [St [_ [Er Ev]]]]].
  rewrite R in Er. injection Er as <-.
  exists (messageOr (lit "Failed to deploy page") t), statuses.
  split; [exact R|]. split; [|split; [exact Ev | exact St]].
  apply deploy_silent; [not_kind|].
  unfold silent. rewrite deployPage_trace. exact S.
Qed.

Lemma upload_failure_is_fatal_witness :
  exists message statuses,
    fst (deployPage exampleRuntime exampleService (withTokenFetch rejected happyWorld)
           (deployName (lit "gen") (lit "demo"))
           (deployFiles (lit "<p>hi</p>") [] []))
    = Ret (failure message)
    /\ silent isCreateDeployment
         (deploy exampleRuntime (withTokenFetch rejected happyWorld) (lit "gen")
            exampleService (lit "demo") (lit "<p>hi</p>") [] [])
    /\ emitted (snd (deploy exampleRuntime (withTokenFetch rejected happyWorld)
                       (lit "gen") exampleService (lit "demo") (lit "<p>hi</p>") [] []))
       = statuses ++ [errorEvent (JStr message); DoneMarker]
    /\ forallb isStatus statuses = true.
Proof.
  apply (upload_failure_is_fatal exampleRuntime (withTokenFetch rejected happyWorld)
           (lit "gen") exampleService (lit "demo") (lit "<p>hi</p>") [] []).
  left. reflexivity.
Defined.

(** ** An attempt that reaches the deployment-creation call *)

Lemma snd_bind {A B} (m : M A) (k : A -> M B) a :
  fst m = Ret a -> snd (bind m k) = snd m ++ snd (k a).
Proof. intro E. rewrite (bind_ret_eq m k a E). reflexivity. Qed.

Lemma fst_bind {A B} (m : M A) (k : A -> M B) a :
  fst m = Ret a -> fst (bind m k) = fst (k a).
Proof. intro E. rewrite (bind_ret_eq m k a E). reflexivity. Qed.

Lemma uploadAssets_trace rt w tok items :
  snd (uploadAssets rt w tok items) = [UploadAssets tok items].
Proof.
  unfold uploadAssets, fetch.
  destruct (uploadFetch w) as [t | ok body]; [reflexivity|].
  destruct ok, body; reflexivity.
Qed.

Lemma fetch_trace c u o : snd (fetch c u o) = [c].
Proof. unfold fetch. destruct o; reflexivity. Qed.

Lemma fetch_outcome c u o :
  fst (fetch c u o)
  = match o with
    | FetchThrows t => Throw t
    | Responded ok body => Ret (mkResponse ok u body)
    end.
Proof. unfold fetch. destruct o; reflexivity. Qed.

Lemma createDeployment_run rt svc w n files manifest :
  fst (buildManifestData rt w files n) = Ret manifest ->
  let u := projectUrl svc n (lit "/deployments") in
  let c := CreateDeployment u manifest (lit "main") in
  snd (createDeployment rt svc w n files) = [c]
  /\ fst (createDeployment rt svc w n files) = fst (fetch c u (deployFetch w)).
Proof.
  intro E. cbv zeta. unfold createDeployment.
  rewrite (bind_ret_eq _ _ manifest E). cbn [fst snd].
  rewrite fetch_trace.
  rewrite (silent_all_nil _ (silent_buildManifestData rt w _ files n)).
  split; reflexivity.
Qed.

Lemma conclude_after_create_trace (m : M Response) rt w n :
  snd (bind m (concludeDeployment rt w n)) = snd m.
Proof.
  unfold bind. destruct (fst m) as [r|t]; cbn [snd]; [|reflexivity].
  rewrite (silent_all_nil _ (silent_concludeDeployment rt w _ n r)).
  apply app_nil_r.
Qed.

(** The attempt whose trace holds a deployment-creation call got a name,
    built the upload and the manifest, and made exactly this upload
    before this creation call; its outcome is that of the conclusion. *)
Lemma reaches_create rt svc w name files :
  existsb isCreateDeployment (snd (deployPage rt svc w name files)) = true ->
  exists n tok items manifest pre,
    resolveName rt name = Ret n
    /\ fst (buildUploadFiles rt w (prepareDeploymentFiles files)) = Ret items
    /\ fst (buildManifestData rt w (prepareDeploymentFiles files) n) = Ret manifest
    /\ existsb isUploadOrCreate pre = false
    /\ snd (deployPage rt svc w name files)
       = pre ++ [UploadAssets tok items;
                 CreateDeployment (projectUrl svc n (lit "/deployments")) manifest
                   (lit "main")]
    /\ fst (deployPageBody rt svc w name files)
       = fst (bind (fetch (CreateDeployment (projectUrl svc n (lit "/deployments"))
                             manifest (lit "main"))
                          (projectUrl svc n (lit "/deployments")) (deployFetch w))
                   (concludeDeployment rt w n)).
Proof.
  rewrite deployPage_trace. unfold deployPageBody. intro H.
  pose proof H as H0.
  apply bind_reaches in H; [|apply silent_lift]. destruct H as [n [En H]].
  apply bind_reaches in H; [|apply silent_ensureProject; not_kind].
  destruct H as [u1 [Ee H]].
  apply bind_reaches in H; [|apply silent_createLocalBackupAndZip; not_kind].
  destruct H as [bk [Eb H]].
  apply bind_reaches in H; [|apply silent_getUploadToken; not_kind].
  destruct H as [tok [Et H]].
  apply bind_reaches in H; [|apply silent_buildUploadFiles].
  destruct H as [items [Ei H]].
  apply bind_reaches in H; [|apply silent_uploadAssets; not_kind].
  destruct H as [u2 [Eu H]].
  rewrite conclude_after_create_trace in H.
  destruct (fst (buildManifestData rt w (prepareDeploymentFiles files) n))
    as [manifest|t] eqn:Em.
  2:{ unfold createDeployment in H. rewrite (bind_throw_eq _ _ t Em) in H.
      cbn [snd] in H.
      rewrite (silent_all_nil _ (silent_buildManifestData rt w _ _ n)) in H.
      discriminate. }
  destruct (createDeployment_run rt svc w n (prepareDeploymentFiles files) manifest Em)
    as [Ct Co].
  exists n, tok, items, manifest.
  exists (snd (ensureProject w n)
          ++ snd (createLocalBackupAndZip rt w (prepareDeploymentFiles files) n)
          ++ snd (getUploadToken rt svc w n)).
  split; [exact En|]. split; [exact Ei|]. split; [exact Em|]. split; [|split].
  - rewrite !existsb_app.
    rewrite (silent_ensureProject w isUploadOrCreate n) by not_kind.
    rewrite (silent_createLocalBackupAndZip rt w isUploadOrCreate _ n) by not_kind.
    rewrite (silent_getUploadToken rt svc w isUploadOrCreate n) by not_kind.
    reflexivity.
  - rewrite (snd_bind _ _ n En), (snd_bind _ _ u1 Ee), (snd_bind _ _ bk Eb),
      (snd_bind _ _ tok Et), (snd_bind _ _ items Ei), (snd_bind _ _ u2 Eu).
    rewrite conclude_after_create_trace, Ct, uploadAssets_trace.
    rewrite (silent_all_nil _ (silent_buildUploadFiles rt w _ _)).
    simpl. rewrite <- !app_assoc. reflexivity.
  - rewrite (fst_bind _ _ n En), (fst_bind _ _ u1 Ee), (fst_bind _ _ bk Eb),
      (fst_bind _ _ tok Et), (fst_bind _ _ items Ei), (fst_bind _ _ u2 Eu).
    unfold bind. rewrite Co.
    destruct (fst (fetch _ _ (deployFetch w))); reflexivity.
Qed.

Lemma cleanUrl_projectUrl_nonempty svc n leaf : cleanUrl (projectUrl svc n leaf) <> [].
Proof.
  unfold projectUrl, cleanUrl. simpl.
  match goal with |- context [noLineTerminator ?r] => destruct (noLineTerminator r) end;
    discriminate.
Qed.

Lemma partial_success rt svc w name files v :
  existsb isCreateDeployment (snd (deployPage rt svc w name files)) = true ->
  deployFetch w = Responded false (BodyJson v) ->
  exists n,
    resolveName rt name = Ret n
    /\ fst (deployPage rt svc w name files)
       = Ret (mkDeployResult true (JStr (lit "uploaded"))
                (JStr (cleanUrl (projectUrl svc n (lit "/deployments"))))
                (JStr n) (JStr (toISOString rt (resultDate w)))
                (JStr (lit "direct-upload"))
                (JStr (lit "Files uploaded but deployment creation failed"))
                JUndefined).
Proof.
  intros H D.
  destruct (reaches_create rt svc w name files H)
    as [n [tok [items [manifest [pre [En [_ [_ [_ [_ Eo]]]]]]]]]].
  exists n. split; [exact En|].
  unfold deployPage, tryCatch. rewrite Eo, D.
  erewrite fst_bind by (rewrite fetch_outcome; reflexivity).
  reflexivity.
Qed.

(** ** Creation fails after the upload *)

(** C1, as stated, fails: the provider accepts the token request and the
    upload and rejects the creation; [deployPage] returns the warning,
    and the stream ends with a completion event, but no event of the
    stream carries a warning. *)
Lemma completion_event_drops_warning :
  let run := deploy exampleRuntime creationRejectedWorld (lit "gen") exampleService
               (lit "demo") (lit "<p>hi</p>") [] [] in
  nonSuccess (deployFetch creationRejectedWorld) = true
  /\ existsb isUploadAssets (snd run) = true
  /\ existsb isCreateDeployment (snd run) = true
  /\ existsb (hasType "complete") (emitted (snd run)) = true
  /\ existsb carriesWarning (emitted (snd run)) = false.
Proof. vm_compute. repeat split. Qed.

(** C1, amended: when the attempt reaches the deployment-creation call
    (the token request and the upload went through) and that call comes
    back with a non-success status and a body that parses as JSON,
    [deployPage] returns [success: true], a non-empty [url] and the
    warning, without [error]; the stream of [deploy] ends with a
    completion event that reports this url and carries no warning. *)
Theorem creation_failure_is_partial_success (rt : Runtime) (w : World)
    (gen : jsstring) (svc : Service) (hint html css js : jsstring) (v : JSValue) :
  existsb isCreateDeployment
    (snd (deployPage rt svc w (deployName gen hint) (deployFiles html css js))) = true ->
  deployFetch w = Responded false (BodyJson v) ->
  exists res u statuses,
    fst (deployPage rt svc w (deployName gen hint) (deployFiles html css js)) = Ret res
    /\ success res = true
    /\ url res = JStr u /\ u <> []
    /\ warning res = JStr (lit "Files uploaded but deployment creation failed")
    /\ error res = JUndefined
    /\ emitted (snd (deploy rt w gen svc hint html css js))
       = statuses ++ [completionEvent res; DoneMarker]
    /\ forallb isStatus statuses = true
    /\ getOpt (field "deployment" (completionEvent res)) (lit "url") = JStr u
    /\ carriesWarning (completionEvent res) = false.
Proof.
  intros H D.
  destruct (partial_success rt svc w _ _ v H D) as [n [_ R]].
  destruct (deploy_events rt w gen svc hint html css js)
    as [statuses [res [St [_ [Er Ev]]]]].
  rewrite R in Er. injection Er as <-.
  eexists _, _, statuses.
  split; [exact R|].
  split; [reflexivity|]. split; [reflexivity|].
  split; [apply cleanUrl_projectUrl_nonempty|].
  split; [reflexivity|]. split; [reflexivity|].
  split; [exact Ev|]. split; [exact St|]. split; reflexivity.
Qed.

Lemma creation_failure_is_partial_success_witness :
  exists res u statuses,
    fst (deployPage exampleRuntime exampleService creationRejectedWorld
           (deployName (lit "gen") (lit "demo")) (deployFiles (lit "<p>hi</p>") [] []))
    = Ret res
    /\ success res = true
    /\ url res = JStr u /\ u <> []
    /\ warning res = JStr (lit "Files uploaded but deployment creation failed")
    /\ error res = JUndefined
    /\ emitted (snd (deploy exampleRuntime creationRejectedWorld (lit "gen")
                       exampleService (lit "demo") (lit "<p>hi</p>") [] []))
       = statuses ++ [completionEvent res; DoneMarker]
    /\ forallb isStatus statuses = true
    /\ getOpt (field "deployment" (completionEvent res)) (lit "url") = JStr u
    /\ carriesWarning (completionEvent res) = false.
Proof.
  apply (creation_failure_is_partial_success exampleRuntime creationRejectedWorld
           (lit "gen") exampleService (lit "demo") (lit "<p>hi</p>") [] []
           (JObj [(lit "success", JBool false)])).
  - vm_compute. reflexivity.
  - reflexivity.
Defined.

(** ** The local backup *)





(** ** Ordering of the events *)

Lemma trimOf_cases v :
  (exists s, trimOf v = Ret s) \/ (exists m, trimOf v = Throw (typeError m)).
Proof. destruct v; simpl; eauto. Qed.

Lemma trimOrEmpty_cases v :
  (exists s, trimOrEmpty v = Ret s) \/ (exists m, trimOrEmpty v = Throw (typeError m)).
Proof. unfold trimOrEmpty. apply trimOf_cases. Qed.

Ltac runM :=
  unfold perform; unfold tryCatch, bind, enqueue, record, lift, ret, throw;
  cbn [fst snd].

Ltac ordered statuses :=
  exists statuses; eexists; eexists;
  split; [simpl; reflexivity|];
  split; [reflexivity|]; split; [reflexivity|]; split; [reflexivity|];
  (left; reflexivity) || (right; reflexivity).

Lemma postStart_wellOrdered rt w gen svc html css js projectName projectAlias :
  wellOrdered (emitted (snd (postStart rt w gen svc html css js projectName projectAlias))).
Proof.
  unfold postStart.
  set (name := orElse projectAlias (orElse projectName (JStr gen))).
  set (e10 := statusEvent (lit "Preparing deployment...") 10 []).
  set (e30 := statusEvent _ 30 _).
  set (e60 := statusEvent _ 60 _).
  destruct (trimOf_cases html) as [[h Eh] | [m Eh]]; rewrite Eh;
    [|runM; ordered [e10; e30]].
  destruct (trimOrEmpty_cases css) as [[c Ec] | [m Ec]]; rewrite Ec;
    [|runM; ordered [e10; e30]].
  destruct (trimOrEmpty_cases js) as [[j Ej] | [m Ej]]; rewrite Ej;
    [|runM; ordered [e10; e30]].
  destruct (deployPage_returns rt svc w name (mkPageFiles h c j)) as [res [E _]].
  runM. rewrite E. cbn [fst snd app].
  destruct (success res); cbn [fst snd app emitted];
    rewrite !emitted_app, deployPage_emits_nothing; cbn [app emitted];
    ordered [e10; e30; e60].
Qed.

Lemma checkProject_cases rt probe n :
  (exists evs,
     checkProject rt probe n = (Ret tt, ProbeProject n :: map Enqueue evs)
     /\ (evs = [] \/ exists m, evs = [statusEvent m 50 []]))
  \/ (exists m, checkProject rt probe n = (Throw (typeError m), [ProbeProject n])).
Proof.
  unfold checkProject. destruct probe as [t|].
  - destruct t as [m st | v].
    + left. runM. cbn [statusProp fst snd app]. destruct (is404 st); cbn [fst snd app].
      * eexists [_]. split; [reflexivity|]. right. eexists. reflexivity.
      * exists []. split; [reflexivity|]. left. reflexivity.
    + destruct v; runM; cbn [statusProp getProp fst snd app];
        try (left; exists []; split; [reflexivity | left; reflexivity]);
        try (right; eexists; reflexivity).
      left.
      destruct (is404 match lookup (lit "status") fields with
                      | Some x => x | None => JUndefined end); cbn [fst snd app].
      * eexists [_]. split; [reflexivity|]. right. eexists. reflexivity.
      * exists []. split; [reflexivity|]. left. reflexivity.
  - left. runM. eexists [_]. split; [reflexivity|]. right. eexists. reflexivity.
Qed.

Lemma deployPageSdk_cases attempt :
  (exists res, deployPageSdk attempt = (Ret res, []))
  \/ (exists m, deployPageSdk attempt = (Throw (typeError m), [])).
Proof.
  unfold deployPageSdk. destruct attempt as [res | [m st | v]]; runM.
  - left. eexists. reflexivity.
  - left. eexists. reflexivity.
  - destruct v; cbn [messageProp getProp fst snd app];
      try (left; eexists; reflexivity); right; eexists; reflexivity.
Qed.

Lemma actionStart_wellOrdered rt probe attempt html css js projectName :
  wellOrdered (emitted (snd (actionStart rt probe attempt html css js projectName))).
Proof.
  unfold actionStart.
  set (e10 := statusEvent (lit "Preparing deployment...") 10 _).
  set (e30 := statusEvent _ 30 _).
  set (e70 := statusEvent _ 70 _).
  set (e85 := statusEvent _ 85 _).
  destruct (trimOf_cases html) as [[h Eh] | [m Eh]]; rewrite Eh;
    [|runM; ordered [e10]].
  destruct (trimOrEmpty_cases css) as [[c Ec] | [m Ec]]; rewrite Ec;
    [|runM; ordered [e10]].
  destruct (trimOrEmpty_cases js) as [[j Ej] | [m Ej]]; rewrite Ej;
    [|runM; ordered [e10]].
  destruct (checkProject_cases rt probe projectName)
    as [[evs [Ep Hevs]] | [m Ep]]; rewrite Ep;
    [|runM; ordered [e10; e30]].
  destruct (deployPageSdk_cases attempt) as [[res Ed] | [m Ed]]; rewrite Ed.
  - destruct Hevs as [-> | [m ->]]; runM;
      destruct (success res); cbn [fst snd app emitted map].
    + ordered [e10; e30; e70; e85].
    + ordered [e10; e30; e70].
    + ordered [e10; e30; statusEvent m 50 []; e70; e85].
    + ordered [e10; e30; statusEvent m 50 []; e70].
  - destruct Hevs as [-> | [m' ->]]; runM; cbn [fst snd app emitted map].
    + ordered [e10; e30; e70].
    + ordered [e10; e30; statusEvent m' 50 []; e70].
Qed.

(** C9: on both streaming endpoints, whatever the request carries and
    whatever the service does, the chunks sent are status events with
    non-decreasing progress, then exactly one terminal event ([complete]
    or [error]), then at most the closing marker. *)
Theorem stream_events_well_ordered (rt : Runtime) (w : World) (gen : jsstring)
    (svc : Service) (probe : option Thrown) (attempt : Outcome DeployResult)
    (html css js projectName projectAlias : JSValue) :
  wellOrdered (emitted (snd (postStart rt w gen svc html css js projectName projectAlias)))
  /\ wellOrdered (emitted (snd (actionStart rt probe attempt html css js projectName))).
Proof.
  split; [apply postStart_wellOrdered | apply actionStart_wellOrdered].
Qed.

(** ** The manifest and the upload *)

Lemma jsEq_length a : forall b, jsEq a b = true -> length a = length b.
Proof.
  induction a as [|x a IH]; intros [|y b]; simpl; try discriminate; [reflexivity|].
  intro H. apply andb_true_iff in H. f_equal. apply IH. apply H.
Qed.

Lemma jsEq_refl a : jsEq a a = true.
Proof. induction a as [|x a IH]; simpl; [reflexivity|]. rewrite N.eqb_refl. exact IH. Qed.

Lemma zipPath_long n : (16 <= length (zipPathOf n))%nat.
Proof. unfold zipPathOf. rewrite !length_app. simpl. lia. Qed.

Lemma zipPath_not_short n k : (length k < 16)%nat -> jsEq (zipPathOf n) k = false.
Proof.
  intro H. pose proof (zipPath_long n) as L.
  destruct (jsEq (zipPathOf n) k) eqn:E; [|reflexivity].
  apply jsEq_length in E. lia.
Qed.

Lemma short_not_zipPath n k : (length k < 16)%nat -> jsEq k (zipPathOf n) = false.
Proof.
  intro H. pose proof (zipPath_long n) as L.
  destruct (jsEq k (zipPathOf n)) eqn:E; [|reflexivity].
  apply jsEq_length in E. lia.
Qed.

Ltac zip_keys zp Z1 Z2 Zr :=
  repeat match goal with
  | |- context [jsEq zp zp] => rewrite Zr
  | |- context [jsEq zp ?k] => rewrite (Z1 k) by (simpl; lia)
  | |- context [jsEq ?k zp] => rewrite (Z2 k) by (simpl; lia)
  | |- context [jsEq ?a ?b] =>
      let v := eval vm_compute in (jsEq a b) in
      lazymatch v with
      | true => change (jsEq a b) with true
      | false => change (jsEq a b) with false
      end
  end.

Ltac crunch zp Z1 Z2 Zr :=
  repeat (progress (cbn -[jsEq md5OfText auditManifest zipOf fileItem];
                    zip_keys zp Z1 Z2 Zr)).

Tactic Notation "have_item" integer(k) :=
  eexists; split; [do k right; left; reflexivity | split; reflexivity].

Ltac find_item :=
  unfold uploaded;
  first [have_item 0 | have_item 1 | have_item 2 | have_item 3 | have_item 4].

Lemma builders_explicit rt w files n items manifest :
  fst (buildUploadFiles rt w (prepareDeploymentFiles files)) = Ret items ->
  fst (buildManifestData rt w (prepareDeploymentFiles files) n) = Ret manifest ->
  let prepared := prepareDeploymentFiles files in
  let audit := auditManifest rt prepared in
  keys manifest
  = map (fun f => lit "/" ++ f) (keys prepared) ++ [zipPathOf n; lit "/manifest.json"]
  /\ (forall f d, In (f, d) prepared ->
        lookup (lit "/" ++ f) manifest = Some (md5OfText rt (content d))
        /\ uploaded rt items (md5OfText rt (content d)) (utf8 rt (content d)))
  /\ lookup (lit "/manifest.json") manifest
     = Some (md5OfText rt (stringifyPretty rt audit))
  /\ uploaded rt items (md5OfText rt (stringify rt audit))
       (utf8 rt (stringifyPretty rt audit))
  /\ lookup (zipPathOf n) manifest
     = Some (md5hex rt (zipBytes rt (zipOf prepared (manifestZipDate w))))
  /\ uploaded rt items (md5hex rt (zipBytes rt (zipOf prepared (uploadZipDate w))))
       (zipBytes rt (zipOf prepared (uploadZipDate w))).
Proof.
  destruct files as [h c j]. unfold prepareDeploymentFiles. cbn [html css js].
  generalize (createFullHtmlPage h c j). intro page.
  rewrite !nonempty_length.
  assert (Hc : negb (isEmpty c) && negb (isEmpty (trim c)) = negb (isEmpty (trim c)))
    by (destruct c; reflexivity).
  assert (Hj : negb (isEmpty j) && negb (isEmpty (trim j)) = negb (isEmpty (trim j)))
    by (destruct j; reflexivity).
  rewrite Hc, Hj. clear Hc Hj.
  generalize (trim c) (trim j). intros tc tj.
  unfold buildUploadFiles, buildManifestData, hasContent, generateAsync.
  pose proof (zipPath_not_short n) as Z1. pose proof (short_not_zipPath n) as Z2.
  pose proof (jsEq_refl (zipPathOf n)) as Zr.
  generalize dependent (zipPathOf n). intros zp Z1 Z2 Zr.
  destruct (zipFault w UploadZipBase64); [destruct tc, tj; discriminate|].
  destruct (zipFault w UploadZipBytes); [destruct tc, tj; discriminate|].
  destruct (zipFault w ManifestZip); [destruct tc, tj; intros _ H; discriminate H|].
  destruct tc as [|c0 cs]; destruct tj as [|j0 js0]; cbn [isEmpty negb];
    crunch zp Z1 Z2 Zr;
    intros Hi Hm; injection Hi as <-; injection Hm as <-;
    crunch zp Z1 Z2 Zr.
  all: split; [reflexivity|].
  all: split; [intros f d Hin;
      repeat (destruct Hin as [Hin | Hin]; [injection Hin as <- <-|]); try contradiction;
      crunch zp Z1 Z2 Zr;
      (split; [reflexivity | find_item])|].
  all: split; [reflexivity|]. all: split; [find_item|].
  all: split; [reflexivity | find_item].
Qed.

(** C6 (the code departs from the claim on the archive): in an attempt
    that reaches the deployment-creation call, that call is the only one,
    it follows the only upload, and its manifest has exactly the paths of
    the prepared files, the path of the archive and [/manifest.json] as
    keys.  The value of a prepared file is the MD5 of the bytes uploaded
    for it, under that key.  The value of [/manifest.json] is the MD5 of
    the pretty-printed text that was uploaded, which sits under the MD5
    of the compact text.  The value of the archive is the MD5 of an
    archive built again after the upload, dated [manifestZipDate], while
    the archive uploaded is dated [uploadZipDate]. *)
Theorem manifest_of_attempt (rt : Runtime) (svc : Service) (w : World)
    (name : JSValue) (files : PageFiles) :
  existsb isCreateDeployment (snd (deployPage rt svc w name files)) = true ->
  exists n tok items manifest pre,
    resolveName rt name = Ret n
    /\ snd (deployPage rt svc w name files)
       = pre ++ [UploadAssets tok items;
                 CreateDeployment (projectUrl svc n (lit "/deployments")) manifest
                   (lit "main")]
    /\ existsb isUploadOrCreate pre = false
    /\ let prepared := prepareDeploymentFiles files in
       let audit := auditManifest rt prepared in
       keys manifest
       = map (fun f => lit "/" ++ f) (keys prepared)
         ++ [zipPathOf n; lit "/manifest.json"]
       /\ (forall f d, In (f, d) prepared ->
             lookup (lit "/" ++ f) manifest = Some (md5OfText rt (content d))
             /\ uploaded rt items (md5OfText rt (content d)) (utf8 rt (content d)))
       /\ lookup (lit "/manifest.json") manifest
          = Some (md5OfText rt (stringifyPretty rt audit))
       /\ uploaded rt items (md5OfText rt (stringify rt audit))
            (utf8 rt (stringifyPretty rt audit))
       /\ lookup (zipPathOf n) manifest
          = Some (md5hex rt (zipBytes rt (zipOf prepared (manifestZipDate w))))
       /\ uploaded rt items
            (md5hex rt (zipBytes rt (zipOf prepared (uploadZipDate w))))
            (zipBytes rt (zipOf prepared (uploadZipDate w))).
Proof.
  intro H.
  destruct (reaches_create rt svc w name files H)
    as [n [tok [items [manifest [pre [En [Ei [Em [Hp [Ht _]]]]]]]]]].
  exists n, tok, items, manifest, pre.
  split; [exact En|]. split; [exact Ht|]. split; [exact Hp|].
  apply builders_explicit; assumption.
Qed.

Lemma manifest_of_attempt_witness :
  exists n tok items manifest pre,
    resolveName exampleRuntime (JStr (lit "demo")) = Ret n
    /\ snd (deployPage exampleRuntime exampleService happyWorld (JStr (lit "demo"))
              exampleFiles)
       = pre ++ [UploadAssets tok items;
                 CreateDeployment (projectUrl exampleService n (lit "/deployments"))
                   manifest (lit "main")]
    /\ existsb isUploadOrCreate pre = false
    /\ let prepared := prepareDeploymentFiles exampleFiles in
       let audit := auditManifest exampleRuntime prepared in
       keys manifest
       = map (fun f => lit "/" ++ f) (keys prepared)
         ++ [zipPathOf n; lit "/manifest.json"]
       /\ (forall f d, In (f, d) prepared ->
             lookup (lit "/" ++ f) manifest
             = Some (md5OfText exampleRuntime (content d))
             /\ uploaded exampleRuntime items (md5OfText exampleRuntime (content d))
                  (utf8 exampleRuntime (content d)))
       /\ lookup (lit "/manifest.json") manifest
          = Some (md5OfText exampleRuntime (stringifyPretty exampleRuntime audit))
       /\ uploaded exampleRuntime items
            (md5OfText exampleRuntime (stringify exampleRuntime audit))
            (utf8 exampleRuntime (stringifyPretty exampleRuntime audit))
       /\ lookup (zipPathOf n) manifest
          = Some (md5hex exampleRuntime
                    (zipBytes exampleRuntime
                       (zipOf prepared (manifestZipDate happyWorld))))
       /\ uploaded exampleRuntime items
            (md5hex exampleRuntime
               (zipBytes exampleRuntime (zipOf prepared (uploadZipDate happyWorld))))
            (zipBytes exampleRuntime (zipOf prepared (uploadZipDate happyWorld))).
Proof.
  apply (manifest_of_attempt exampleRuntime exampleService happyWorld
           (JStr (lit "demo")) exampleFiles).
  vm_compute. reflexivity.
Defined.

(** On the example runtime, whose archive bytes record the date of the
    entries and whose digests tell different inputs apart, with the clock
    of [happyWorld] moving between the two archives: the values of the
    page are keys of the upload, those of the archive and of
    [/manifest.json] are not. *)
Example manifest_values_and_upload_keys :
  let tr := snd (deployPage exampleRuntime exampleService happyWorld
                   (JStr (lit "demo")) exampleFiles) in
  exists manifest,
    submittedManifests tr = [manifest]
    /\ valueIsUploadKey (uploadedItems tr) manifest (lit "/index.html") = true
    /\ valueIsUploadKey (uploadedItems tr) manifest (zipPathOf (lit "demo")) = false
    /\ valueIsUploadKey (uploadedItems tr) manifest (lit "/manifest.json") = false.
Proof. eexists. vm_compute. repeat split. Qed.


(* ================================================================== *)
(** * Further properties *)
(* ================================================================== *)

(** ** Names and URLs *)

(** X1: whatever the input, the name [sanitizeProjectName] returns is
    made of lowercase letters, digits and hyphens, starts and ends with a
    letter or a digit, and has between 3 and 59 code units. *)
Theorem sanitized_name_is_well_formed (rt : Runtime) (x : jsstring) :
  forallb isNameChar (sanitizeProjectName rt x) = true
  /\ startsAlnum (sanitizeProjectName rt x) = true
  /\ endsAlnum (sanitizeProjectName rt x) = true
  /\ (3 <= length (sanitizeProjectName rt x) <= 59)%nat.
Proof.
  destruct (sanitizeProjectName_shape rt x) as [L [C [S E]]].
  repeat split; try assumption; lia.
Qed.

(** X2: a name that is already valid (lowercase letters, digits and
    single hyphens, a letter or digit at both ends, 3 to 58 code units)
    is returned as it is. *)
Theorem valid_name_is_kept (rt : Runtime) (s : jsstring) :
  lowerFixesNames rt ->
  cleanForm s -> (3 <= length s <= 58)%nat ->
  sanitizeProjectName rt s = s.
Proof. intros L F B. apply sanitize_fix; assumption. Qed.

Lemma valid_name_is_kept_witness :
  sanitizeProjectName exampleRuntime (lit "pricing-demo") = lit "pricing-demo".
Proof.
  apply (valid_name_is_kept exampleRuntime (lit "pricing-demo")).
  - exact asciiLower_fixes_names.
  - repeat split.
  - vm_compute. split; lia.
Defined.

Lemma splitAtDot_sound s label rest :
  splitAtDot s = Some (label, rest) ->
  s = label ++ dot :: rest /\ noDot label = true.
Proof.
  revert label rest. induction s as [|c r IH]; simpl; intros label rest H;
    [discriminate|].
  destruct (c =? dot)%N eqn:E.
  - injection H as <- <-. apply N.eqb_eq in E. subst c. split; reflexivity.
  - destruct (splitAtDot r) as [[a b]|]; [|discriminate].
    injection H as <- <-. destruct (IH a b eq_refl) as [-> Hd].
    split; [reflexivity|]. simpl. rewrite E. exact Hd.
Qed.

(** X3: the cleaned URL is the URL itself, or what follows the first dot
    of the URL; in that case what was removed is a non-empty label without
    a dot, and its dot.  Nothing else is ever changed. *)
Theorem cleanUrl_keeps_or_drops_first_label (url : jsstring) :
  cleanUrl url = url
  \/ exists label,
       url = label ++ dot :: cleanUrl url
       /\ label <> [] /\ noDot label = true
       /\ noLineTerminator (cleanUrl url) = true.
Proof.
  unfold cleanUrl. destruct (splitAtDot url) as [[label rest]|] eqn:E; [|left; reflexivity].
  destruct (splitAtDot_sound url label rest E) as [-> Hd].
  destruct (negb (isEmpty label) && noLineTerminator rest) eqn:C; [|left; reflexivity].
  right. apply andb_true_iff in C. destruct C as [Hn Hl].
  exists label. repeat split; try assumption.
  intros ->. discriminate.
Qed.

(** ** Packaging *)

Lemma startsWith_app p s : startsWith p (p ++ s) = true.
Proof.
  induction p as [|a p IH]; simpl; [destruct s; reflexivity|].
  rewrite N.eqb_refl. exact IH.
Qed.

Lemma includes_head s p : startsWith p s = true -> includes s p = true.
Proof. intro H. destruct s; simpl; rewrite H; reflexivity. Qed.

Lemma includes_app_mid a p b : includes (a ++ p ++ b) p = true.
Proof.
  induction a as [|x a IH].
  - change ([] ++ p ++ b) with (p ++ b). apply includes_head, startsWith_app.
  - simpl. rewrite IH. apply orb_true_r.
Qed.

Lemma includes_right a s p : includes s p = true -> includes (a ++ s) p = true.
Proof.
  intro H. induction a as [|x a IH]; simpl; [exact H|].
  rewrite IH. apply orb_true_r.
Qed.

Lemma includes_left s b p : includes s p = true -> includes (s ++ b) p = true.
Proof.
  revert b. induction s as [|x s IH]; intros b H.
  - simpl in H. rewrite orb_false_r in H. destruct p; [|discriminate].
    destruct b; reflexivity.
  - simpl in H. apply orb_true_iff in H. destruct H as [H | H].
    + assert (S : forall q t u, startsWith q t = true -> startsWith q (t ++ u) = true).
      { induction q as [|y q IHq]; intros [|z t] u Hq; simpl in *;
          try reflexivity; try discriminate.
        apply andb_true_iff in Hq. destruct Hq as [Hz Hq].
        rewrite Hz. simpl. apply IHq. exact Hq. }
      change ((x :: s) ++ b) with (x :: s ++ b).
      change (includes (x :: s ++ b) p)
        with (startsWith p (x :: s ++ b) || includes (s ++ b) p).
      change (x :: s ++ b) with ((x :: s) ++ b).
      rewrite (S p (x :: s) b H). reflexivity.
    + change ((x :: s) ++ b) with (x :: s ++ b).
      change (includes (x :: s ++ b) p)
        with (startsWith p (x :: s ++ b) || includes (s ++ b) p).
      rewrite (IH b H). apply orb_true_r.
Qed.

Lemma index_entry files :
  lookup (lit "index.html") (prepareDeploymentFiles files)
  = Some (mkFileData (createFullHtmlPage (html files) (css files) (js files))
            (lit "text/html")).
Proof.
  unfold prepareDeploymentFiles.
  generalize (createFullHtmlPage (html files) (css files) (js files)). intro page.
  destruct (negb (isEmpty (css files)) && (0 <? length (trim (css files)))%nat);
    destruct (negb (isEmpty (js files)) && (0 <? length (trim (js files)))%nat);
    reflexivity.
Qed.

Lemma long_trim_nonempty (s : jsstring) :
  (500 < length (trim s))%nat ->
  negb (isEmpty s) = true /\ (0 <? length (trim s))%nat = true
  /\ (500 <? length (trim s))%nat = true.
Proof.
  intro H. split; [|split].
  - destruct s; [simpl in H; lia | reflexivity].
  - apply Nat.ltb_lt. lia.
  - apply Nat.ltb_lt. exact H.
Qed.

(** X4: when the trimmed css (or js) has more than 500 code units,
    [index.html] holds the link to [styles.css] (the script tag for
    [script.js]) and that file is among the prepared files, with the
    trimmed input as content: the reference that [createFullHtmlPage]
    adds for a long css or js comes with its file. *)
Theorem linked_files_are_packaged (a : Asset) (files : PageFiles) :
  (500 < length (trim (sourceOf a files)))%nat ->
  includes (createFullHtmlPage (html files) (css files) (js files)) (linkOf a) = true
  /\ lookup (fileNameOf a) (prepareDeploymentFiles files)
     = Some (mkFileData (trim (sourceOf a files)) (mimeOf a)).
Proof.
  destruct files as [h c j]. destruct a; cbn [sourceOf html css js linkOf fileNameOf mimeOf];
    intro H; destruct (long_trim_nonempty _ H) as [A [B C]].
  - split.
    + unfold createFullHtmlPage. rewrite A, C. cbn [andb].
      fold stylesheetLink.
      repeat (first [apply includes_head, startsWith_app | apply includes_right]).
    + unfold prepareDeploymentFiles. cbn [html css js]. rewrite A, B. cbn [andb].
      destruct (negb (isEmpty j) && (0 <? length (trim j))%nat); reflexivity.
  - split.
    + unfold createFullHtmlPage. rewrite A, C. cbn [andb].
      fold scriptLink.
      repeat (first [apply includes_head, startsWith_app | apply includes_right]).
    + unfold prepareDeploymentFiles. cbn [html css js]. rewrite A, B. cbn [andb].
      destruct (negb (isEmpty c) && (0 <? length (trim c))%nat); reflexivity.
Qed.

Lemma linked_files_are_packaged_witness :
  includes (createFullHtmlPage (html longCssFiles) (css longCssFiles) (js longCssFiles))
    (linkOf Stylesheet) = true
  /\ lookup (fileNameOf Stylesheet) (prepareDeploymentFiles longCssFiles)
     = Some (mkFileData (trim (sourceOf Stylesheet longCssFiles)) (mimeOf Stylesheet)).
Proof.
  apply (linked_files_are_packaged Stylesheet longCssFiles).
  vm_compute. lia.
Defined.

(** X5: the html of the request is embedded in the page as it is, after
    the document type that opens every page. *)
Theorem page_embeds_html (html css js : jsstring) :
  startsWith (lit "<!DOCTYPE html>") (createFullHtmlPage html css js) = true
  /\ includes (createFullHtmlPage html css js) html = true.
Proof.
  unfold createFullHtmlPage. cbv zeta. split.
  - apply startsWith_app.
  - repeat (first [apply includes_head, startsWith_app | apply includes_right]).
Qed.

Lemma prepared_shapes files :
  exists page extra,
    prepareDeploymentFiles files = (lit "index.html", page) :: extra
    /\ content page <> []
    /\ (extra = []
        \/ (extra = [(lit "styles.css", mkFileData (trim (css files)) (lit "text/css"))]
            /\ trim (css files) <> [])
        \/ (extra = [(lit "script.js",
                      mkFileData (trim (js files)) (lit "application/javascript"))]
            /\ trim (js files) <> [])
        \/ (extra = [(lit "styles.css", mkFileData (trim (css files)) (lit "text/css"));
                     (lit "script.js",
                      mkFileData (trim (js files)) (lit "application/javascript"))]
            /\ trim (css files) <> [] /\ trim (js files) <> [])).
Proof.
  unfold prepareDeploymentFiles. rewrite !nonempty_length.
  assert (P : createFullHtmlPage (html files) (css files) (js files) <> [])
    by (unfold createFullHtmlPage; discriminate).
  revert P.
  generalize (createFullHtmlPage (html files) (css files) (js files)). intros page P.
  destruct (negb (isEmpty (css files)) && negb (isEmpty (trim (css files)))) eqn:Ec;
    destruct (negb (isEmpty (js files)) && negb (isEmpty (trim (js files)))) eqn:Ej;
    eexists; eexists; (split; [reflexivity|]); (split; [exact P|]);
    try (apply andb_true_iff in Ec; destruct Ec as [_ Ec];
         apply negb_true_iff, isEmpty_false_iff in Ec);
    try (apply andb_true_iff in Ej; destruct Ej as [_ Ej];
         apply negb_true_iff, isEmpty_false_iff in Ej);
    tauto.
Qed.

(** X6: the prepared files are at most three, [index.html] first, then
    [styles.css], then [script.js]; no name occurs twice, and no prepared
    file is empty. *)
Theorem prepared_files_are_distinct (files : PageFiles) :
  NoDup (keys (prepareDeploymentFiles files))
  /\ (1 <= length (prepareDeploymentFiles files) <= 3)%nat
  /\ (exists rest, keys (prepareDeploymentFiles files) = lit "index.html" :: rest
                   /\ (rest = [] \/ rest = [lit "styles.css"]
                       \/ rest = [lit "script.js"]
                       \/ rest = [lit "styles.css"; lit "script.js"]))
  /\ forall name data,
       In (name, data) (prepareDeploymentFiles files) -> content data <> [].
Proof.
  assert (D : NoDup [lit "index.html"; lit "styles.css"; lit "script.js"]).
  { repeat constructor; simpl; intuition discriminate. }
  split; [|split; [|split]].
  - destruct (prepared_shapes files) as [page [extra [-> [_ H]]]].
    destruct H as [-> | [[-> _] | [[-> _] | [-> _]]]]; cbn [keys map fst].
    + constructor; [simpl; tauto | constructor].
    + inversion D as [|? ? N1 D1]. inversion D1 as [|? ? N2 D2].
      constructor; [simpl in *; intuition discriminate|]. constructor; [simpl; tauto|constructor].
    + constructor; [simpl; intuition discriminate|]. constructor; [simpl; tauto|constructor].
    + exact D.
  - destruct (prepared_shapes files) as [page [extra [-> [_ H]]]].
    destruct H as [-> | [[-> _] | [[-> _] | [-> _]]]]; simpl; lia.
  - destruct (prepared_shapes files) as [page [extra [-> [_ H]]]].
    destruct H as [-> | [[-> _] | [[-> _] | [-> _]]]];
      eexists; (split; [reflexivity|]); tauto.
  - destruct (prepared_shapes files) as [page [extra [-> [P H]]]].
    intros name data Hin.
    destruct H as [-> | [[-> Hc] | [[-> Hj] | [-> [Hc Hj]]]]];
      repeat (destruct Hin as [Hin | Hin]; [injection Hin as <- <-; cbn [content]|]);
      try contradiction; assumption.
Qed.

(** ** The project of an attempt *)

Lemma silent_rest_of_attempt rt svc w q n files :
  (forall c, kindOf c <> KStream -> kindOf c <> KProbe -> kindOf c <> KProject ->
             q c = false) ->
  silent q
    (bind (createLocalBackupAndZip rt w files n)
       (fun _ =>
          bind (getUploadToken rt svc w n)
            (fun uploadToken =>
               bind (buildUploadFiles rt w files)
                 (fun uploadFiles =>
                    bind (uploadAssets rt w uploadToken uploadFiles)
                      (fun _ =>
                         bind (createDeployment rt svc w n files)
                           (concludeDeployment rt w n)))))).
Proof.
  intro H.
  apply silent_bind;
    [apply silent_createLocalBackupAndZip; intros c E; apply H; rewrite E; discriminate|].
  intros _.
  apply silent_bind;
    [apply silent_getUploadToken; intros c E; apply H; rewrite E; discriminate|].
  intro tok.
  apply silent_bind; [apply silent_buildUploadFiles|]. intro items.
  apply silent_bind;
    [apply silent_uploadAssets; intros c E; apply H; rewrite E; discriminate|].
  intros _.
  apply silent_bind;
    [apply silent_createDeployment; intros c E; apply H; rewrite E; discriminate|].
  intro r. apply silent_concludeDeployment.
Qed.

(** X7: a project that the lookup finds is never created again: when
    [cf.pages.projects.get] resolves, the attempt makes no
    [cf.pages.projects.create] call, whatever happens afterwards. *)
Theorem existing_project_is_not_created (rt : Runtime) (svc : Service) (w : World)
    (name : JSValue) (files : PageFiles) :
  projectsGet w = None ->
  silent isProjectsCreate (deployPage rt svc w name files).
Proof.
  intro G. unfold silent. rewrite deployPage_trace. unfold deployPageBody.
  apply silent_bind; [apply silent_lift|]. intro n.
  apply silent_bind.
  - unfold ensureProject. rewrite G. reflexivity.
  - intros _. apply silent_rest_of_attempt.
    intros c H1 H2 H3. destruct c; simpl in *; congruence.
Qed.

Lemma existing_project_is_not_created_witness :
  silent isProjectsCreate
    (deployPage exampleRuntime exampleService happyWorld (JStr (lit "demo")) exampleFiles).
Proof.
  apply (existing_project_is_not_created exampleRuntime exampleService happyWorld).
  reflexivity.
Defined.

(** X8: a lookup that fails with anything but an [Error] whose message
    holds 404 ends the attempt at once: [deployPage] returns that error
    as the failure, and the lookup is the only call made. *)
Theorem lookup_error_ends_attempt (rt : Runtime) (svc : Service) (w : World)
    (name : JSValue) (files : PageFiles) (n : jsstring) (t : Thrown) :
  resolveName rt name = Ret n ->
  projectsGet w = Some t ->
  notA404 t = true ->
  deployPage rt svc w name files
  = (Ret (failure (messageOr (lit "Failed to deploy page") t)), [ProjectsGet n]).
Proof.
  intros En G N.
  assert (E : ensureProject w n = (Throw t, [ProjectsGet n])).
  { unfold ensureProject. rewrite G. runM.
    destruct t as [m st | v]; [|reflexivity].
    unfold notA404 in N. apply negb_true_iff in N. rewrite N. reflexivity. }
  unfold deployPage, deployPageBody.
  rewrite (bind_ret_eq _ _ n) by exact En.
  rewrite (bind_throw_eq _ _ t) by (rewrite E; reflexivity).
  rewrite E. reflexivity.
Qed.

Lemma lookup_error_ends_attempt_witness :
  deployPage exampleRuntime exampleService lookupForbiddenWorld (JStr (lit "demo"))
    exampleFiles
  = (Ret (failure (messageOr (lit "Failed to deploy page") forbidden)),
     [ProjectsGet (lit "demo")]).
Proof.
  apply (lookup_error_ends_attempt exampleRuntime exampleService lookupForbiddenWorld
           (JStr (lit "demo")) exampleFiles (lit "demo") forbidden);
    reflexivity.
Defined.

(** X9: when the lookup fails with a 404 message the project is created
    under the same name, and a failure of that creation ends the attempt:
    the lookup and the creation are the only calls made, and
    [deployPage] returns the error of the creation. *)
Theorem project_creation_error_ends_attempt (rt : Runtime) (svc : Service)
    (w : World) (name : JSValue) (files : PageFiles) (n : jsstring)
    (t t' : Thrown) :
  resolveName rt name = Ret n ->
  projectsGet w = Some t ->
  notA404 t = false ->
  projectsCreate w = Some t' ->
  deployPage rt svc w name files
  = (Ret (failure (messageOr (lit "Failed to deploy page") t')),
     [ProjectsGet n; ProjectsCreate n]).
Proof.
  intros En G N C.
  assert (E : ensureProject w n = (Throw t', [ProjectsGet n; ProjectsCreate n])).
  { unfold ensureProject. rewrite G, C. runM.
    destruct t as [m st | v]; [|discriminate].
    unfold notA404 in N. apply negb_false_iff in N. rewrite N. reflexivity. }
  unfold deployPage, deployPageBody.
  rewrite (bind_ret_eq _ _ n) by exact En.
  rewrite (bind_throw_eq _ _ t') by (rewrite E; reflexivity).
  rewrite E. reflexivity.
Qed.

Lemma project_creation_error_ends_attempt_witness :
  deployPage exampleRuntime exampleService createForbiddenWorld (JStr (lit "demo"))
    exampleFiles
  = (Ret (failure (messageOr (lit "Failed to deploy page") forbidden)),
     [ProjectsGet (lit "demo"); ProjectsCreate (lit "demo")]).
Proof.
  apply (project_creation_error_ends_attempt exampleRuntime exampleService
           createForbiddenWorld (JStr (lit "demo")) exampleFiles (lit "demo")
           notFound forbidden);
    reflexivity.
Defined.

(** ** The token, the upload and the reply of the creation *)

Lemma getUploadToken_trace rt svc w n :
  snd (getUploadToken rt svc w n)
  = [GetUploadToken (projectUrl svc n (lit "/upload-token"))].
Proof.
  unfold getUploadToken, fetch, json, bind, record, ret, throw, lift.
  destruct (tokenFetch w) as [t | ok body]; [reflexivity|].
  destruct ok, body as [v|t]; cbn [respOk respBody negb fst snd app]; try reflexivity.
  destruct (getProp v (lit "result")) as [r|t]; reflexivity.
Qed.

(** The attempt whose trace holds the token request got a name, the
    project and the backup; that request is the first remote one, and
    when it throws the attempt stops there. *)
Lemma reaches_token rt svc w name files :
  existsb isGetUploadToken (snd (deployPage rt svc w name files)) = true ->
  exists n pre post,
    resolveName rt name = Ret n
    /\ snd (deployPage rt svc w name files)
       = pre ++ GetUploadToken (projectUrl svc n (lit "/upload-token")) :: post
    /\ existsb isRemoteFetch pre = false
    /\ (forall t, fst (getUploadToken rt svc w n) = Throw t ->
                  fst (deployPageBody rt svc w name files) = Throw t /\ post = []).
Proof.
  rewrite deployPage_trace. unfold deployPageBody. intro H.
  apply bind_reaches in H; [|apply silent_lift]. destruct H as [n [En H]].
  apply bind_reaches in H; [|apply silent_ensureProject; not_kind].
  destruct H as [u1 [Ee H]].
  apply bind_reaches in H; [|apply silent_createLocalBackupAndZip; not_kind].
  destruct H as [bk [Eb _]].
  exists n.
  exists (snd (ensureProject w n)
          ++ snd (createLocalBackupAndZip rt w (prepareDeploymentFiles files) n)).
  rewrite (snd_bind _ _ n En), (snd_bind _ _ u1 Ee), (snd_bind _ _ bk Eb).
  rewrite (fst_bind _ _ n En), (fst_bind _ _ u1 Ee), (fst_bind _ _ bk Eb).
  destruct (fst (getUploadToken rt svc w n)) as [tok|t] eqn:Et.
  - eexists. split; [exact En|]. split; [|split].
    + rewrite (snd_bind _ _ tok Et), getUploadToken_trace. cbn [snd lift app].
      rewrite <- app_assoc. reflexivity.
    + rewrite existsb_app.
      rewrite (silent_ensureProject w isRemoteFetch n) by not_kind.
      rewrite (silent_createLocalBackupAndZip rt w isRemoteFetch _ n) by not_kind.
      reflexivity.
    + intros t D. discriminate D.
  - exists []. split; [exact En|]. split; [|split].
    + rewrite (bind_throw_eq _ _ t Et), getUploadToken_trace. cbn [snd lift app].
      rewrite <- app_assoc. reflexivity.
    + rewrite existsb_app.
      rewrite (silent_ensureProject w isRemoteFetch n) by not_kind.
      rewrite (silent_createLocalBackupAndZip rt w isRemoteFetch _ n) by not_kind.
      reflexivity.
    + intros t' D. injection D as <-. rewrite (bind_throw_eq _ _ t Et).
      split; reflexivity.
Qed.

(** X10: when the token request is made and turned down with a JSON
    body, [deployPage] fails with the message
    [Failed to get upload token: ] followed by the body as JSON; the
    token request is the last call of the attempt and the only remote
    one. *)
Theorem token_rejection_message (rt : Runtime) (svc : Service) (w : World)
    (name : JSValue) (files : PageFiles) (v : JSValue) :
  existsb isGetUploadToken (snd (deployPage rt svc w name files)) = true ->
  tokenFetch w = Responded false (BodyJson v) ->
  exists n pre,
    resolveName rt name = Ret n
    /\ deployPage rt svc w name files
       = (Ret (failure (lit "Failed to get upload token: " ++ stringify rt v)),
          pre ++ [GetUploadToken (projectUrl svc n (lit "/upload-token"))])
    /\ existsb isRemoteFetch pre = false.
Proof.
  intros H T.
  destruct (reaches_token rt svc w name files H) as [n [pre [post [En [Tr [Sp F]]]]]].
  assert (E : fst (getUploadToken rt svc w n)
              = Throw (ErrorObj (lit "Failed to get upload token: " ++ stringify rt v)
                         JUndefined)).
  { unfold getUploadToken, fetch. rewrite T. reflexivity. }
  destruct (F _ E) as [B ->].
  exists n, pre. split; [exact En|]. split; [|exact Sp].
  rewrite (surjective_pairing (deployPage rt svc w name files)), Tr.
  rewrite (deployPage_caught _ _ _ _ _ _ B). reflexivity.
Qed.

Lemma token_rejection_message_witness :
  exists n pre,
    resolveName exampleRuntime (JStr (lit "demo")) = Ret n
    /\ deployPage exampleRuntime exampleService tokenRejectedWorld (JStr (lit "demo"))
         exampleFiles
       = (Ret (failure (lit "Failed to get upload token: "
                        ++ stringify exampleRuntime (JObj [(lit "success", JBool false)]))),
          pre ++ [GetUploadToken (projectUrl exampleService n (lit "/upload-token"))])
    /\ existsb isRemoteFetch pre = false.
Proof.
  apply (token_rejection_message exampleRuntime exampleService tokenRejectedWorld
           (JStr (lit "demo")) exampleFiles (JObj [(lit "success", JBool false)])).
  - vm_compute. reflexivity.
  - reflexivity.
Defined.


Lemma bind_stops {A B} q (m : M A) (k : A -> M B) :
  silent q m ->
  (forall a, fst m = Ret a -> (exists t, fst (k a) = Throw t) /\ silent q (k a)) ->
  (exists t, fst (bind m k) = Throw t) /\ silent q (bind m k).
Proof.
  intros Hm Hk. destruct (fst m) as [a|t] eqn:E.
  - destruct (Hk a eq_refl) as [[t Et] S]. rewrite (bind_ret_eq _ _ a E). split.
    + exists t. exact Et.
    + unfold silent in *. cbn [snd]. rewrite existsb_app, Hm, S. reflexivity.
  - rewrite (bind_throw_eq _ _ t E). split; [eexists; reflexivity | exact Hm].
Qed.

(** X11: a token reply that parses to [null] or [undefined], or whose
    [result] is missing or [null], ends the attempt in a failure; nothing
    is uploaded and no deployment is created. *)
Theorem token_reply_without_result (rt : Runtime) (svc : Service) (w : World)
    (name : JSValue) (files : PageFiles) (v : JSValue) :
  tokenFetch w = Responded true (BodyJson v) ->
  nullish v || nullish (getOpt v (lit "result")) = true ->
  (exists message, fst (deployPage rt svc w name files) = Ret (failure message))
  /\ silent isUploadOrCreate (deployPage rt svc w name files).
Proof.
  intros T N.
  assert (B : (exists t, fst (deployPageBody rt svc w name files) = Throw t)
              /\ silent isUploadOrCreate (deployPageBody rt svc w name files)).
  { unfold deployPageBody.
    apply bind_stops; [apply silent_lift|]. intros n _.
    apply bind_stops; [apply silent_ensureProject; not_kind|]. intros _ _.
    apply bind_stops; [apply silent_createLocalBackupAndZip; not_kind|]. intros _ _.
    assert (E : exists t, fst (getUploadToken rt svc w n) = Throw t).
    { unfold getUploadToken, fetch, json, bind, record, ret, throw, lift. rewrite T.
      cbn [respOk respBody negb fst snd].
      destruct v as [| | b | z | s | l | fields]; cbn [getProp fst];
        try (eexists; reflexivity); try discriminate N.
      cbn [nullish orb getOpt] in N.
      destruct (lookup (lit "result") fields) as [[| | b | z | s | l | o]|];
        cbn [getProp fst]; try (eexists; reflexivity); discriminate N. }
    destruct E as [t E]. rewrite (bind_throw_eq _ _ t E).
    split; [eexists; reflexivity|].
    apply silent_getUploadToken; not_kind. }
  destruct B as [[t E] S]. split.
  - eexists. apply (deployPage_caught _ _ _ _ _ _ E).
  - unfold silent. rewrite deployPage_trace. exact S.
Qed.

Lemma token_reply_without_result_witness :
  (exists message,
     fst (deployPage exampleRuntime exampleService emptyTokenWorld (JStr (lit "demo"))
            exampleFiles) = Ret (failure message))
  /\ silent isUploadOrCreate
       (deployPage exampleRuntime exampleService emptyTokenWorld (JStr (lit "demo"))
          exampleFiles).
Proof.
  apply (token_reply_without_result exampleRuntime exampleService emptyTokenWorld
           (JStr (lit "demo")) exampleFiles (JObj [])); reflexivity.
Defined.

Lemma token_is_jwt rt svc w n tok :
  fst (getUploadToken rt svc w n) = Ret tok ->
  exists v r,
    tokenFetch w = Responded true (BodyJson v)
    /\ getProp v (lit "result") = Ret r
    /\ getProp r (lit "jwt") = Ret tok.
Proof.
  unfold getUploadToken, fetch, json, bind, record, ret, throw, lift.
  destruct (tokenFetch w) as [t | ok body]; [discriminate|].
  destruct ok, body as [v|t]; cbn [respOk respBody negb fst snd]; try discriminate.
  destruct (getProp v (lit "result")) as [r|t] eqn:Er; cbn [fst]; [|discriminate].
  intro E. exists v, r. repeat split; [exact Er | exact E].
Qed.

(** The attempt whose trace holds the upload got the token and built the
    list; the upload is the first call that sends files, and when it
    throws the attempt stops there. *)
Lemma reaches_upload rt svc w name files :
  existsb isUploadAssets (snd (deployPage rt svc w name files)) = true ->
  exists n tok items pre post,
    resolveName rt name = Ret n
    /\ fst (getUploadToken rt svc w n) = Ret tok
    /\ fst (buildUploadFiles rt w (prepareDeploymentFiles files)) = Ret items
    /\ snd (deployPage rt svc w name files) = pre ++ UploadAssets tok items :: post
    /\ existsb isUploadOrCreate pre = false
    /\ (forall t, fst (uploadAssets rt w tok items) = Throw t ->
                  fst (deployPageBody rt svc w name files) = Throw t /\ post = []).
Proof.
  rewrite deployPage_trace. unfold deployPageBody. intro H.
  apply bind_reaches in H; [|apply silent_lift]. destruct H as [n [En H]].
  apply bind_reaches in H; [|apply silent_ensureProject; not_kind].
  destruct H as [u1 [Ee H]].
  apply bind_reaches in H; [|apply silent_createLocalBackupAndZip; not_kind].
  destruct H as [bk [Eb H]].
  apply bind_reaches in H; [|apply silent_getUploadToken; not_kind].
  destruct H as [tok [Et H]].
  apply bind_reaches in H; [|apply silent_buildUploadFiles].
  destruct H as [items [Ei _]].
  exists n, tok, items.
  exists (snd (ensureProject w n)
          ++ snd (createLocalBackupAndZip rt w (prepareDeploymentFiles files) n)
          ++ snd (getUploadToken rt svc w n)).
  rewrite (snd_bind _ _ n En), (snd_bind _ _ u1 Ee), (snd_bind _ _ bk Eb),
    (snd_bind _ _ tok Et), (snd_bind _ _ items Ei).
  rewrite (fst_bind _ _ n En), (fst_bind _ _ u1 Ee), (fst_bind _ _ bk Eb),
    (fst_bind _ _ tok Et), (fst_bind _ _ items Ei).
  rewrite (silent_all_nil _ (silent_buildUploadFiles rt w _ _)).
  assert (P : existsb isUploadOrCreate
                (snd (ensureProject w n)
                 ++ snd (createLocalBackupAndZip rt w (prepareDeploymentFiles files) n)
                 ++ snd (getUploadToken rt svc w n)) = false).
  { rewrite !existsb_app.
    rewrite (silent_ensureProject w isUploadOrCreate n) by not_kind.
    rewrite (silent_createLocalBackupAndZip rt w isUploadOrCreate _ n) by not_kind.
    rewrite (silent_getUploadToken rt svc w isUploadOrCreate n) by not_kind.
    reflexivity. }
  destruct (fst (uploadAssets rt w tok items)) as [u2|t] eqn:Eu.
  - eexists. split; [exact En|]. split; [exact Et|]. split; [exact Ei|].
    split; [|split; [exact P|]].
    + rewrite (snd_bind _ _ u2 Eu), uploadAssets_trace. cbn [snd lift app].
      rewrite <- !app_assoc. reflexivity.
    + intros t D. discriminate D.
  - exists []. split; [exact En|]. split; [exact Et|]. split; [exact Ei|].
    split; [|split; [exact P|]].
    + rewrite (bind_throw_eq _ _ t Eu), uploadAssets_trace. cbn [snd lift app].
      rewrite <- !app_assoc. reflexivity.
    + intros t' D. injection D as <-. rewrite (bind_throw_eq _ _ t Eu).
      split; reflexivity.
Qed.

Ltac ground_keys :=
  repeat match goal with
  | |- context [jsEq ?a ?b] =>
      let v := eval vm_compute in (jsEq a b) in
      lazymatch v with
      | true => change (jsEq a b) with true
      | false => change (jsEq a b) with false
      end
  end.

Lemma upload_list_shape rt w files items :
  fst (buildUploadFiles rt w (prepareDeploymentFiles files)) = Ret items ->
  let prepared := prepareDeploymentFiles files in
  map uContentType items
  = lit "text/html"
    :: match lookup (lit "script.js") prepared with
       | Some _ => [lit "application/javascript"]
       | None => []
       end
    ++ match lookup (lit "styles.css") prepared with
       | Some _ => [lit "text/css"]
       | None => []
       end
    ++ [lit "application/json"; lit "application/zip"]
  /\ forallb uBase64 items = true
  /\ length items = (length prepared + 2)%nat.
Proof.
  destruct files as [h c j]. unfold prepareDeploymentFiles. cbn [html css js].
  generalize (createFullHtmlPage h c j). intro page.
  rewrite !nonempty_length.
  assert (Hc : negb (isEmpty c) && negb (isEmpty (trim c)) = negb (isEmpty (trim c)))
    by (destruct c; reflexivity).
  assert (Hj : negb (isEmpty j) && negb (isEmpty (trim j)) = negb (isEmpty (trim j)))
    by (destruct j; reflexivity).
  rewrite Hc, Hj. clear Hc Hj.
  generalize (trim c) (trim j). intros tc tj.
  unfold buildUploadFiles, hasContent, generateAsync.
  destruct (zipFault w UploadZipBase64); [destruct tc, tj; discriminate|].
  destruct (zipFault w UploadZipBytes); [destruct tc, tj; discriminate|].
  destruct tc as [|c0 cs]; destruct tj as [|j0 js0]; cbn [isEmpty negb];
    repeat (progress (cbn -[jsEq md5OfText auditManifest zipOf fileItem]; ground_keys));
    intro Hi; injection Hi as <-;
    repeat (progress (cbn -[jsEq md5OfText auditManifest zipOf]; ground_keys));
    repeat split.
Qed.

(** X12: when the upload is made and turned down with a JSON body,
    [deployPage] fails with the message [Failed to upload files: ]
    followed by the body as JSON, and the upload is the last call of the
    attempt. *)
Theorem upload_rejection_message (rt : Runtime) (svc : Service) (w : World)
    (name : JSValue) (files : PageFiles) (v : JSValue) :
  existsb isUploadAssets (snd (deployPage rt svc w name files)) = true ->
  uploadFetch w = Responded false (BodyJson v) ->
  exists pre tok items,
    deployPage rt svc w name files
    = (Ret (failure (lit "Failed to upload files: " ++ stringify rt v)),
       pre ++ [UploadAssets tok items])
    /\ existsb isUploadOrCreate pre = false.
Proof.
  intros H U.
  destruct (reaches_upload rt svc w name files H)
    as [n [tok [items [pre [post [_ [_ [_ [Tr [Sp F]]]]]]]]]].
  assert (E : fst (uploadAssets rt w tok items)
              = Throw (ErrorObj (lit "Failed to upload files: " ++ stringify rt v)
                         JUndefined)).
  { unfold uploadAssets, fetch. rewrite U. reflexivity. }
  destruct (F _ E) as [B ->].
  exists pre, tok, items. split; [|exact Sp].
  rewrite (surjective_pairing (deployPage rt svc w name files)), Tr.
  rewrite (deployPage_caught _ _ _ _ _ _ B). reflexivity.
Qed.

Lemma upload_rejection_message_witness :
  exists pre tok items,
    deployPage exampleRuntime exampleService uploadRejectedWorld (JStr (lit "demo"))
      exampleFiles
    = (Ret (failure (lit "Failed to upload files: "
                     ++ stringify exampleRuntime (JObj [(lit "success", JBool false)]))),
       pre ++ [UploadAssets tok items])
    /\ existsb isUploadOrCreate pre = false.
Proof.
  apply (upload_rejection_message exampleRuntime exampleService uploadRejectedWorld
           (JStr (lit "demo")) exampleFiles (JObj [(lit "success", JBool false)])).
  - vm_compute. reflexivity.
  - reflexivity.
Defined.

(** X13: the upload of an attempt carries the [jwt] of the [result] of
    the token reply, and a list that holds the page, then the script,
    then the stylesheet (each only when it was prepared), then the
    manifest and the archive: two items more than the prepared files,
    all of them marked as base64. *)
Theorem upload_carries_token_and_files (rt : Runtime) (svc : Service) (w : World)
    (name : JSValue) (files : PageFiles) :
  existsb isUploadAssets (snd (deployPage rt svc w name files)) = true ->
  exists reply result tok items pre post,
    tokenFetch w = Responded true (BodyJson reply)
    /\ getProp reply (lit "result") = Ret result
    /\ getProp result (lit "jwt") = Ret tok
    /\ snd (deployPage rt svc w name files) = pre ++ UploadAssets tok items :: post
    /\ existsb isUploadOrCreate pre = false
    /\ map uContentType items
       = lit "text/html"
         :: match lookup (lit "script.js") (prepareDeploymentFiles files) with
            | Some _ => [lit "application/javascript"]
            | None => []
            end
         ++ match lookup (lit "styles.css") (prepareDeploymentFiles files) with
            | Some _ => [lit "text/css"]
            | None => []
            end
         ++ [lit "application/json"; lit "application/zip"]
    /\ forallb uBase64 items = true
    /\ length items = (length (prepareDeploymentFiles files) + 2)%nat.
Proof.
  intro H.
  destruct (reaches_upload rt svc w name files H)
    as [n [tok [items [pre [post [_ [Et [Ei [Tr [Sp _]]]]]]]]]].
  destruct (token_is_jwt rt svc w n tok Et) as [reply [result [T [R J]]]].
  destruct (upload_list_shape rt w files items Ei) as [C [B L]].
  exists reply, result, tok, items, pre, post.
  repeat (split; [assumption|]). exact L.
Qed.

Lemma upload_carries_token_and_files_witness :
  exists reply result tok items pre post,
    tokenFetch happyWorld = Responded true (BodyJson reply)
    /\ getProp reply (lit "result") = Ret result
    /\ getProp result (lit "jwt") = Ret tok
    /\ snd (deployPage exampleRuntime exampleService happyWorld (JStr (lit "demo"))
              fullFiles) = pre ++ UploadAssets tok items :: post
    /\ existsb isUploadOrCreate pre = false
    /\ map uContentType items
       = lit "text/html"
         :: match lookup (lit "script.js") (prepareDeploymentFiles fullFiles) with
            | Some _ => [lit "application/javascript"]
            | None => []
            end
         ++ match lookup (lit "styles.css") (prepareDeploymentFiles fullFiles) with
            | Some _ => [lit "text/css"]
            | None => []
            end
         ++ [lit "application/json"; lit "application/zip"]
    /\ forallb uBase64 items = true
    /\ length items = (length (prepareDeploymentFiles fullFiles) + 2)%nat.
Proof.
  apply (upload_carries_token_and_files exampleRuntime exampleService happyWorld
           (JStr (lit "demo")) fullFiles).
  vm_compute. reflexivity.
Defined.

(** X14: when the deployment-creation call comes back with a non-success
    status and a body that does not parse, the error of the parser is
    what [deployPage] reports: a failure, although the files were
    uploaded. *)
Theorem unparsable_creation_reply_fails (rt : Runtime) (svc : Service) (w : World)
    (name : JSValue) (files : PageFiles) (t : Thrown) :
  existsb isCreateDeployment (snd (deployPage rt svc w name files)) = true ->
  deployFetch w = Responded false (BodyThrows t) ->
  fst (deployPage rt svc w name files)
  = Ret (failure (messageOr (lit "Failed to deploy page") t))
  /\ existsb isUploadAssets (snd (deployPage rt svc w name files)) = true.
Proof.
  intros H D.
  destruct (reaches_create rt svc w name files H)
    as [n [tok [items [manifest [pre [_ [_ [_ [_ [Tr B]]]]]]]]]].
  split.
  - apply deployPage_caught. rewrite B. unfold fetch. rewrite D. reflexivity.
  - rewrite Tr, existsb_app. simpl. apply orb_true_r.
Qed.

Lemma unparsable_creation_reply_fails_witness :
  fst (deployPage exampleRuntime exampleService gatewayErrorWorld (JStr (lit "demo"))
         exampleFiles)
  = Ret (failure (messageOr (lit "Failed to deploy page") syntaxError))
  /\ existsb isUploadAssets
       (snd (deployPage exampleRuntime exampleService gatewayErrorWorld
               (JStr (lit "demo")) exampleFiles)) = true.
Proof.
  apply (unparsable_creation_reply_fails exampleRuntime exampleService gatewayErrorWorld
           (JStr (lit "demo")) exampleFiles syntaxError).
  - vm_compute. reflexivity.
  - reflexivity.
Defined.

(** X15: when the deployment-creation call succeeds with a reply whose
    [result] is missing or [null], [deployPage] still returns a success:
    the id is [created], the time is the clock's, and the url is
    [https://] followed by the text of [undefined]. *)
Theorem reply_without_result_is_success (rt : Runtime) (svc : Service) (w : World)
    (name : JSValue) (files : PageFiles) (reply result : JSValue) :
  existsb isCreateDeployment (snd (deployPage rt svc w name files)) = true ->
  deployFetch w = Responded true (BodyJson reply) ->
  getProp reply (lit "result") = Ret result ->
  nullish result = true ->
  exists n,
    resolveName rt name = Ret n
    /\ fst (deployPage rt svc w name files)
       = Ret (mkDeployResult true (JStr (lit "created"))
                (JStr (lit "https://" ++ display rt JUndefined))
                (JStr n) (JStr (toISOString rt (resultDate w)))
                (JStr (lit "direct-upload")) JUndefined JUndefined).
Proof.
  intros H D R N.
  destruct (reaches_create rt svc w name files H)
    as [n [tok [items [manifest [pre [En [_ [_ [_ [Tr B]]]]]]]]]].
  exists n. split; [exact En|].
  unfold deployPage, tryCatch.
  assert (E : fst (deployPageBody rt svc w name files)
              = Ret (mkDeployResult true (JStr (lit "created"))
                       (JStr (lit "https://" ++ display rt JUndefined))
                       (JStr n) (JStr (toISOString rt (resultDate w)))
                       (JStr (lit "direct-upload")) JUndefined JUndefined));
    [|rewrite E; reflexivity].
  rewrite B. unfold fetch. rewrite D.
  unfold concludeDeployment, json, bind, record, ret, throw, lift.
  cbn [respOk respBody negb fst snd]. rewrite R. cbn [fst snd].
  destruct result; try discriminate N; reflexivity.
Qed.

Lemma reply_without_result_is_success_witness :
  exists n,
    resolveName exampleRuntime (JStr (lit "demo")) = Ret n
    /\ fst (deployPage exampleRuntime exampleService emptyReplyWorld (JStr (lit "demo"))
              exampleFiles)
       = Ret (mkDeployResult true (JStr (lit "created"))
                (JStr (lit "https://" ++ display exampleRuntime JUndefined))
                (JStr n) (JStr (toISOString exampleRuntime (resultDate emptyReplyWorld)))
                (JStr (lit "direct-upload")) JUndefined JUndefined).
Proof.
  apply (reply_without_result_is_success exampleRuntime exampleService emptyReplyWorld
           (JStr (lit "demo")) exampleFiles (JObj []) JUndefined).
  - vm_compute. reflexivity.
  - reflexivity.
  - reflexivity.
  - reflexivity.
Defined.

(** ** The local backup *)

Lemma forEach_ext {A} (f g : A -> M unit) l :
  (forall a, f a = g a) -> forEach f l = forEach g l.
Proof.
  intro H. induction l as [|a l IH]; [reflexivity|].
  simpl. rewrite H, IH. reflexivity.
Qed.

Lemma forEach_perform {A} (c : A -> Call) (fault : A -> option Thrown) l :
  (fst (forEach (fun a => perform (c a) (fault a)) l) = Ret tt
   /\ snd (forEach (fun a => perform (c a) (fault a)) l) = map c l)
  \/ (exists t k,
        fst (forEach (fun a => perform (c a) (fault a)) l) = Throw t
        /\ (1 <= k <= length l)%nat
        /\ snd (forEach (fun a => perform (c a) (fault a)) l) = firstn k (map c l)).
Proof.
  induction l as [|a l IH]; [left; split; reflexivity|].
  cbn [forEach].
  remember (forEach (fun a => perform (c a) (fault a)) l) as rest eqn:R.
  runM. subst rest.
  destruct (fault a) as [t|]; cbn [fst snd app].
  - right. exists t, 1%nat. split; [reflexivity|]. split; [simpl; lia | reflexivity].
  - destruct IH as [[F Sn] | [t [k [F [K Sn]]]]].
    + left. rewrite F, Sn. split; reflexivity.
    + right. exists t, (S k). rewrite F, Sn. split; [reflexivity|].
      split; [simpl; lia | reflexivity].
Qed.

Lemma backup_runs rt w dfiles n :
  (fst (createLocalBackupAndZip rt w dfiles n)
   = Ret (backupDirOf rt w n, zipBytes rt (zipOf dfiles (backupZipDate w)))
   /\ snd (createLocalBackupAndZip rt w dfiles n) = backupCalls rt w dfiles n)
  \/ (exists t k,
        fst (createLocalBackupAndZip rt w dfiles n) = Throw t
        /\ (1 <= k <= length (backupCalls rt w dfiles n))%nat
        /\ snd (createLocalBackupAndZip rt w dfiles n)
           = firstn k (backupCalls rt w dfiles n)).
Proof.
  unfold createLocalBackupAndZip, backupCalls. cbv zeta. fold (backupDirOf rt w n).
  set (dir := backupDirOf rt w n).
  rewrite (forEach_ext _ (fun a => perform (backupWrite rt dir a)
                                     (writeFault w (pathJoin rt [dir; fst a]))))
    by (intros [f d]; reflexivity).
  set (zipCall := WriteFile _ (zipBytes rt _)).
  assert (L : length (Mkdir dir :: map (backupWrite rt dir) dfiles ++ [zipCall])
              = S (S (length dfiles)))
    by (simpl; rewrite length_app, length_map; simpl; lia).
  rewrite L.
  remember (forEach _ dfiles) as loop eqn:R.
  unfold generateAsync. runM. subst loop.
  destruct (mkdirFault w) as [t|]; cbn [fst snd app].
  { right. exists t, 1%nat. split; [reflexivity|]. split; [lia | reflexivity]. }
  destruct (forEach_perform (backupWrite rt dir)
              (fun a => writeFault w (pathJoin rt [dir; fst a])) dfiles)
    as [[F Sn] | [t [k [F [K Sn]]]]]; rewrite F, Sn; cbn [fst snd app].
  2:{ right. exists t, (S k). split; [reflexivity|]. split; [lia|].
      rewrite app_nil_r. cbn [firstn]. f_equal.
      rewrite firstn_app, length_map.
      replace (k - length dfiles)%nat with 0%nat by lia.
      cbn [firstn]. rewrite app_nil_r. reflexivity. }
  destruct (zipFault w BackupZip) as [t|]; cbn [fst snd app].
  { right. exists t, (S (length dfiles)). split; [reflexivity|]. split; [lia|].
    rewrite !app_nil_r. cbn [firstn]. f_equal.
    rewrite firstn_app, length_map, Nat.sub_diag. cbn [firstn].
    rewrite app_nil_r, <- (length_map (backupWrite rt dir)), firstn_all. reflexivity. }
  subst zipCall.
  destruct (writeFault w (pathJoin rt [dir; n ++ lit "-deployment.zip"])) as [t|];
    cbn [fst snd app].
  - right. exists t, (S (S (length dfiles))). split; [reflexivity|]. split; [lia|].
    rewrite <- L at 1. rewrite firstn_all, ?app_nil_r. reflexivity.
  - left. rewrite ?app_nil_r. split; reflexivity.
Qed.

(** X16: a backup that returns has made the directory, written every
    prepared file under it in the order of the files, and written the
    archive last; it returns the directory and the bytes of the
    archive. *)
Theorem backup_writes_every_file (rt : Runtime) (w : World)
    (deploymentFiles : DeploymentFiles) (projectName : jsstring)
    (result : jsstring * bytes) :
  fst (createLocalBackupAndZip rt w deploymentFiles projectName) = Ret result ->
  result = (backupDirOf rt w projectName,
            zipBytes rt (zipOf deploymentFiles (backupZipDate w)))
  /\ snd (createLocalBackupAndZip rt w deploymentFiles projectName)
     = Mkdir (backupDirOf rt w projectName)
       :: map (backupWrite rt (backupDirOf rt w projectName)) deploymentFiles
       ++ [WriteFile (pathJoin rt [backupDirOf rt w projectName;
                                   projectName ++ lit "-deployment.zip"])
             (snd result)].
Proof.
  intro E.
  destruct (backup_runs rt w deploymentFiles projectName) as [[F S] | [t [k [F _]]]].
  - rewrite F in E. injection E as <-. split; [reflexivity | exact S].
  - rewrite F in E. discriminate E.
Qed.

Lemma backup_writes_every_file_witness :
  (lit "/srv/backups/demo-2024-01-01T00-00-00-000Z",
   zipBytes exampleRuntime (zipOf (prepareDeploymentFiles fullFiles) 2))
  = (backupDirOf exampleRuntime happyWorld (lit "demo"),
     zipBytes exampleRuntime
       (zipOf (prepareDeploymentFiles fullFiles) (backupZipDate happyWorld)))
  /\ snd (createLocalBackupAndZip exampleRuntime happyWorld
            (prepareDeploymentFiles fullFiles) (lit "demo"))
     = Mkdir (backupDirOf exampleRuntime happyWorld (lit "demo"))
       :: map (backupWrite exampleRuntime (backupDirOf exampleRuntime happyWorld (lit "demo")))
            (prepareDeploymentFiles fullFiles)
       ++ [WriteFile (pathJoin exampleRuntime
                        [backupDirOf exampleRuntime happyWorld (lit "demo");
                         lit "demo" ++ lit "-deployment.zip"])
             (snd (lit "/srv/backups/demo-2024-01-01T00-00-00-000Z",
                   zipBytes exampleRuntime (zipOf (prepareDeploymentFiles fullFiles) 2)))].
Proof.
  apply (backup_writes_every_file exampleRuntime happyWorld
           (prepareDeploymentFiles fullFiles) (lit "demo")).
  vm_compute. reflexivity.
Defined.

(** X17: a backup that fails throws the error it met, after a non-empty
    beginning of the calls of a backup that goes through: nothing is
    written after the call that failed. *)
Theorem failed_backup_stops_writing (rt : Runtime) (w : World)
    (deploymentFiles : DeploymentFiles) (projectName : jsstring) (t : Thrown) :
  fst (createLocalBackupAndZip rt w deploymentFiles projectName) = Throw t ->
  exists k,
    (1 <= k <= length (backupCalls rt w deploymentFiles projectName))%nat
    /\ snd (createLocalBackupAndZip rt w deploymentFiles projectName)
       = firstn k (backupCalls rt w deploymentFiles projectName).
Proof.
  intro E.
  destruct (backup_runs rt w deploymentFiles projectName) as [[F S] | [t' [k [F [K S]]]]].
  - rewrite F in E. discriminate E.
  - exists k. split; [exact K | exact S].
Qed.

Lemma failed_backup_stops_writing_witness :
  exists k,
    (1 <= k <= length (backupCalls exampleRuntime diskFullWorld
                         (prepareDeploymentFiles fullFiles) (lit "demo")))%nat
    /\ snd (createLocalBackupAndZip exampleRuntime diskFullWorld
              (prepareDeploymentFiles fullFiles) (lit "demo"))
       = firstn k (backupCalls exampleRuntime diskFullWorld
                     (prepareDeploymentFiles fullFiles) (lit "demo")).
Proof.
  apply (failed_backup_stops_writing exampleRuntime diskFullWorld
           (prepareDeploymentFiles fullFiles) (lit "demo")
           (ErrorObj (lit "ENOSPC: no space left on device") JUndefined)).
  vm_compute. reflexivity.
Defined.

(** ** The hash of the manifest of the SDK-style service *)

Section FileHash.

Local Open Scope Z_scope.

Lemma toInt32_range z : - 2 ^ 31 <= toInt32 z < 2 ^ 31.
Proof.
  unfold toInt32. pose proof (Z.mod_pos_bound (z + 2 ^ 31) (2 ^ 32) ltac:(lia)). lia.
Qed.

Lemma toInt32_small z : - 2 ^ 31 <= z < 2 ^ 31 -> toInt32 z = z.
Proof. intro H. unfold toInt32. rewrite Z.mod_small; lia. Qed.

Lemma toInt32_add_l x y : toInt32 (toInt32 x + y) = toInt32 (x + y).
Proof.
  unfold toInt32. f_equal.
  replace ((x + 2 ^ 31) mod 2 ^ 32 - 2 ^ 31 + y + 2 ^ 31)
    with ((x + 2 ^ 31) mod 2 ^ 32 + y) by lia.
  rewrite Zplus_mod_idemp_l. f_equal. lia.
Qed.

Lemma toInt32_mul_r x k : toInt32 (toInt32 x * k) = toInt32 (x * k).
Proof.
  unfold toInt32. f_equal.
  replace (((x + 2 ^ 31) mod 2 ^ 32 - 2 ^ 31) * k + 2 ^ 31)
    with ((x + 2 ^ 31) mod 2 ^ 32 * k + (2 ^ 31 - 2 ^ 31 * k)) by lia.
  rewrite <- Zplus_mod_idemp_l, Zmult_mod_idemp_l, Zplus_mod_idemp_l.
  f_equal. lia.
Qed.

Lemma toInt32_idem x : toInt32 (toInt32 x) = toInt32 x.
Proof. apply toInt32_small, toInt32_range. Qed.

Lemma hashStep_toInt32 a c :
  hashStep (toInt32 a) c = toInt32 (a * 31 + Z.of_N c).
Proof.
  unfold hashStep. cbv zeta.
  replace (toInt32 (toInt32 a * 32) - toInt32 a + Z.of_N c)
    with (toInt32 (toInt32 a * 32) + (- toInt32 a + Z.of_N c)) by lia.
  rewrite toInt32_add_l.
  replace (toInt32 a * 32 + (- toInt32 a + Z.of_N c))
    with (toInt32 a * 31 + Z.of_N c) by lia.
  rewrite <- toInt32_add_l, toInt32_mul_r, toInt32_add_l. reflexivity.
Qed.

Lemma fold_hashStep content a :
  fold_left hashStep content (toInt32 a)
  = toInt32 (fold_left (fun acc c => acc * 31 + Z.of_N c) content a).
Proof.
  revert a. induction content as [|c content IH]; intro a; [reflexivity|].
  cbn [fold_left]. rewrite hashStep_toInt32. apply IH.
Qed.

Lemma rollingHash_polynomial content :
  rollingHash content = toInt32 (polynomial31 content).
Proof.
  unfold rollingHash, polynomial31.
  rewrite <- fold_hashStep. rewrite toInt32_small by lia. reflexivity.
Qed.

Lemma polynomial31_app a b :
  polynomial31 (a ++ b)
  = fold_left (fun acc c => acc * 31 + Z.of_N c) b (polynomial31 a).
Proof. unfold polynomial31. apply fold_left_app. Qed.

Lemma digit36_ok d : 0 <= d < 36 -> isDigit36 (digit36 d) = true /\ value36 (digit36 d) = d.
Proof.
  intro H. unfold isDigit36, digit36, value36.
  destruct (d <? 10) eqn:E.
  - apply Z.ltb_lt in E. split.
    + apply orb_true_iff. left. apply andb_true_iff. split; apply N.leb_le; lia.
    + assert (L : (Z.to_N (48 + d) <? 58)%N = true) by (apply N.ltb_lt; lia).
      rewrite L. lia.
  - apply Z.ltb_ge in E. split.
    + apply orb_true_iff. right. apply andb_true_iff. split; apply N.leb_le; lia.
    + assert (L : (Z.to_N (97 + (d - 10)) <? 58)%N = false) by (apply N.ltb_ge; lia).
      rewrite L. lia.
Qed.

Lemma fromBase36_snoc s c : fromBase36 (s ++ [c]) = fromBase36 s * 36 + value36 c.
Proof. unfold fromBase36. rewrite fold_left_app. reflexivity. Qed.

Lemma toBase36_spec fuel : forall n,
  0 <= n < 2 ^ Z.of_nat fuel -> (0 < fuel)%nat ->
  fromBase36 (toBase36 fuel n) = n
  /\ forallb isDigit36 (toBase36 fuel n) = true
  /\ toBase36 fuel n <> []
  /\ forall k, (0 < k)%nat -> n < 36 ^ Z.of_nat k ->
               (length (toBase36 fuel n) <= k)%nat.
Proof.
  induction fuel as [|fuel IH]; intros n H F; [lia|].
  cbn [toBase36]. destruct (n <? 36) eqn:E.
  - apply Z.ltb_lt in E. destruct (digit36_ok n ltac:(lia)) as [D V].
    split; [unfold fromBase36; simpl; lia|].
    split; [simpl; rewrite D; reflexivity|].
    split; [discriminate|]. intros k K _. simpl. lia.
  - apply Z.ltb_ge in E.
    destruct (digit36_ok (n mod 36) (Z.mod_pos_bound n 36 ltac:(lia))) as [D V].
    assert (Q : 0 <= n / 36 < 2 ^ Z.of_nat fuel).
    { split; [apply Z.div_pos; lia|].
      apply Z.div_lt_upper_bound; [lia|].
      rewrite Nat2Z.inj_succ, Z.pow_succ_r in H by lia. lia. }
    assert (Fp : (0 < fuel)%nat).
    { destruct fuel; [|lia]. simpl in H. lia. }
    destruct (IH (n / 36) Q Fp) as [R [G [_ Len]]].
    split; [rewrite fromBase36_snoc, R, V; pose proof (Z.div_mod n 36); lia|].
    split; [rewrite forallb_app, G; simpl; rewrite D; reflexivity|].
    split; [intro C; apply app_eq_nil in C; destruct C as [_ C]; discriminate C|].
    intros k K B. rewrite length_app. simpl.
    destruct k as [|k]; [lia|].
    destruct k as [|k]; [simpl in B; lia|].
    assert (n / 36 < 36 ^ Z.of_nat (S k)).
    { apply Z.div_lt_upper_bound; [lia|].
      rewrite (Nat2Z.inj_succ (S k)), Z.pow_succ_r in B by lia. lia. }
    pose proof (Len (S k) ltac:(lia) H0). lia.
Qed.

Lemma toString36_spec n :
  0 <= n ->
  fromBase36 (toString36 n) = n
  /\ forallb isDigit36 (toString36 n) = true
  /\ toString36 n <> []
  /\ forall k, (0 < k)%nat -> n < 36 ^ Z.of_nat k -> (length (toString36 n) <= k)%nat.
Proof.
  intro H. unfold toString36. apply toBase36_spec; [|lia].
  split; [exact H|].
  rewrite Nat2Z.inj_succ, Z2Nat.id by apply Z.log2_nonneg.
  destruct (Z.eq_dec n 0) as [->|N]; [simpl; lia|].
  apply Z.log2_spec. lia.
Qed.

(** X18: the loop of [generateFileHash] computes the polynomial in 31
    whose coefficients are the code units of the content, brought back
    to 32 bits with a sign; what is printed is its absolute value in
    base 36, and [0] for the empty content. *)
Theorem generateFileHash_is_polynomial (content : jsstring) :
  generateFileHash content
  = if isEmpty content then lit "0"
    else toString36 (Z.abs (toInt32 (polynomial31 content))).
Proof.
  unfold generateFileHash. fold (rollingHash content).
  rewrite rollingHash_polynomial. reflexivity.
Qed.

(** X19: the hash is a numeral of one to six digits of base 36 (digits
    and lower-case letters, no sign), and read back in base 36 it is the
    absolute value of the 32-bit hash. *)
Theorem generateFileHash_is_numeral (content : jsstring) :
  forallb isDigit36 (generateFileHash content) = true
  /\ (1 <= length (generateFileHash content) <= 6)%nat
  /\ fromBase36 (generateFileHash content) = Z.abs (rollingHash content)
  /\ 0 <= fromBase36 (generateFileHash content) <= 2 ^ 31.
Proof.
  unfold generateFileHash. fold (rollingHash content).
  destruct content as [|c content].
  - cbn [isEmpty]. change (fromBase36 (lit "0")) with 0.
    change (rollingHash []) with 0. change (length (lit "0")) with 1%nat.
    repeat split; try reflexivity; lia.
  - cbn [isEmpty].
    pose proof (rollingHash_polynomial (c :: content)) as P.
    pose proof (toInt32_range (polynomial31 (c :: content))) as R. rewrite <- P in R.
    destruct (toString36_spec (Z.abs (rollingHash (c :: content))) (Z.abs_nonneg _))
      as [V [D [N L]]].
    split; [exact D|]. split; [|split; [exact V | rewrite V; lia]].
    split.
    + destruct (toString36 (Z.abs (rollingHash (c :: content)))); [congruence | simpl; lia].
    + apply L; [lia|]. change (36 ^ Z.of_nat 6) with 2176782336. lia.
Qed.

(** X20: two contents that differ in two neighbouring code units have
    the same hash as soon as 31 times the first unit plus the second is
    the same for both, whatever comes before and after: [Aa] and [BB]
    are such a pair. *)
Theorem generateFileHash_collides (before after : jsstring) (a b c d : N) :
  31 * Z.of_N a + Z.of_N b = 31 * Z.of_N c + Z.of_N d ->
  generateFileHash (before ++ [a; b] ++ after)
  = generateFileHash (before ++ [c; d] ++ after).
Proof.
  intro H. unfold generateFileHash.
  fold (rollingHash (before ++ [a; b] ++ after)).
  fold (rollingHash (before ++ [c; d] ++ after)).
  rewrite !rollingHash_polynomial, !polynomial31_app. cbn [app fold_left].
  replace ((polynomial31 before * 31 + Z.of_N a) * 31 + Z.of_N b)
    with ((polynomial31 before * 31 + Z.of_N c) * 31 + Z.of_N d) by lia.
  destruct before; reflexivity.
Qed.

Lemma generateFileHash_collides_witness :
  generateFileHash (lit "x" ++ lit "Aa" ++ lit "y")
  = generateFileHash (lit "x" ++ lit "BB" ++ lit "y").
Proof.
  apply (generateFileHash_collides (lit "x") (lit "y") 65 97 66 66). reflexivity.
Defined.

End FileHash.

(** ** The streaming route as a whole *)

Lemma tryCatch_unit (m : M unit) h :
  (forall t, fst (h t) = Ret tt) -> fst (tryCatch m h) = Ret tt.
Proof.
  intro H. unfold tryCatch. destruct (fst m) as [[]|t]; [reflexivity|].
  cbn [fst]. apply H.
Qed.

Lemma postStart_returns rt w gen svc html css js projectName projectAlias :
  fst (postStart rt w gen svc html css js projectName projectAlias) = Ret tt.
Proof. unfold postStart. apply tryCatch_unit. intro t. reflexivity. Qed.

Lemma POST_cases rt w gen env request :
  (exists st b,
     POST rt w gen env request = (Ret (JsonResponse st b), [])
     /\ (st = 400 \/ st = 500)%N)
  \/ (exists svc html css js projectName projectAlias,
        createCloudFlarePagesService env = Some svc
        /\ missingOrBlank html = false
        /\ missingOrBlank projectAlias = false
        /\ POST rt w gen env request
           = (Ret EventStream,
              snd (postStart rt w gen svc html css js projectName projectAlias))).
Proof.
  unfold POST.
  destruct request as [v|t]; runM;
    [|left; eexists _, _; split; [reflexivity | right; reflexivity]].
  destruct (getProp v (lit "html")) as [h|t] eqn:Eh; cbn [fst snd app];
    [|left; eexists _, _; split; [reflexivity | right; reflexivity]].
  destruct (missingOrBlank h) eqn:Mh; cbn [fst snd app];
    [left; eexists _, _; split; [reflexivity | left; reflexivity]|].
  destruct (missingOrBlank (getOpt v (lit "projectAlias"))) eqn:Ma; cbn [fst snd app];
    [left; eexists _, _; split; [reflexivity | left; reflexivity]|].
  destruct (createCloudFlarePagesService env) as [svc|] eqn:Es; cbn [fst snd app];
    [|left; eexists _, _; split; [reflexivity | right; reflexivity]].
  right. exists svc, h, (getOpt v (lit "css")), (getOpt v (lit "js")),
           (getOpt v (lit "projectName")), (getOpt v (lit "projectAlias")).
  split; [reflexivity|]. split; [exact Mh|]. split; [exact Ma|].
  rewrite (postStart_returns rt w gen svc h (getOpt v (lit "css")) (getOpt v (lit "js"))
             (getOpt v (lit "projectName")) (getOpt v (lit "projectAlias"))).
  cbn [fst snd app]. rewrite !app_nil_r. reflexivity.
Qed.

(** X21: the streaming route always answers.  A JSON answer has status
    400 or 500 and comes before any event is sent and any call is made;
    otherwise the answer is the stream, the credentials were there, and
    what was sent is well ordered. *)
Theorem POST_always_responds (rt : Runtime) (w : World) (gen : jsstring) (env : Env)
    (request : BodyOutcome) :
  exists r,
    fst (POST rt w gen env request) = Ret r
    /\ match r with
       | JsonResponse st _ =>
           (st = 400 \/ st = 500)%N /\ snd (POST rt w gen env request) = []
       | EventStream =>
           wellOrdered (emitted (snd (POST rt w gen env request)))
           /\ exists svc, createCloudFlarePagesService env = Some svc
       end.
Proof.
  destruct (POST_cases rt w gen env request)
    as [[st [b [E S]]] | [svc [h [c [j [pn [pa [Es [_ [_ E]]]]]]]]]]; rewrite E.
  - eexists. split; [reflexivity|]. split; [exact S | reflexivity].
  - eexists. split; [reflexivity|]. split; [apply postStart_wellOrdered|].
    exists svc. exact Es.
Qed.

(** X22: a request with html but without a project alias (missing, not
    a string, empty or blank) is answered with status 400 before anything
    is sent or called, also when it carries a project name. *)
Theorem POST_needs_alias (rt : Runtime) (w : World) (gen : jsstring) (env : Env)
    (body html : JSValue) :
  getProp body (lit "html") = Ret html ->
  missingOrBlank html = false ->
  missingOrBlank (getOpt body (lit "projectAlias")) = true ->
  POST rt w gen env (BodyJson body)
  = (Ret (JsonResponse 400
            (errorBody (lit "Project name is required to avoid creating too many projects"))),
     []).
Proof.
  intros H Mh Ma. unfold POST. runM. rewrite H. cbn [fst snd app].
  rewrite Mh, Ma. reflexivity.
Qed.

Lemma POST_needs_alias_witness :
  POST exampleRuntime happyWorld (lit "gen") exampleEnv
    (BodyJson (JObj [(lit "html", JStr (lit "<p>hi</p>"));
                     (lit "projectName", JStr (lit "demo"))]))
  = (Ret (JsonResponse 400
            (errorBody (lit "Project name is required to avoid creating too many projects"))),
     []).
Proof.
  apply (POST_needs_alias exampleRuntime happyWorld (lit "gen") exampleEnv
           (JObj [(lit "html", JStr (lit "<p>hi</p>"));
                  (lit "projectName", JStr (lit "demo"))])
           (JStr (lit "<p>hi</p>"))); reflexivity.
Defined.

(** X23: when the token or the account id is missing or empty there is
    no service, and a request that passes the checks is answered with
    status 500 and the message about the credentials, before anything is
    sent or called. *)
Theorem POST_without_credentials (rt : Runtime) (w : World) (gen : jsstring) (env : Env)
    (body html : JSValue) :
  unset (CLOUDFLARE_API_TOKEN env) || unset (CLOUDFLARE_ACCOUNT_ID env) = true ->
  getProp body (lit "html") = Ret html ->
  missingOrBlank html = false ->
  missingOrBlank (getOpt body (lit "projectAlias")) = false ->
  createCloudFlarePagesService env = None
  /\ POST rt w gen env (BodyJson body)
     = (Ret (JsonResponse 500 (errorBody credentialsMessage)), []).
Proof.
  intros U H Mh Ma.
  assert (N : createCloudFlarePagesService env = None).
  { unfold createCloudFlarePagesService.
    destruct (CLOUDFLARE_API_TOKEN env) as [[|a t]|];
      destruct (CLOUDFLARE_ACCOUNT_ID env) as [[|b c]|];
      try reflexivity; discriminate U. }
  split; [exact N|].
  unfold POST. runM. rewrite H. cbn [fst snd app]. rewrite Mh, Ma, N. reflexivity.
Qed.

Lemma POST_without_credentials_witness :
  createCloudFlarePagesService emptyEnv = None
  /\ POST exampleRuntime happyWorld (lit "gen") emptyEnv
       (BodyJson (JObj [(lit "html", JStr (lit "<p>hi</p>"));
                        (lit "projectAlias", JStr (lit "demo"))]))
     = (Ret (JsonResponse 500 (errorBody credentialsMessage)), []).
Proof.
  apply (POST_without_credentials exampleRuntime happyWorld (lit "gen") emptyEnv
           (JObj [(lit "html", JStr (lit "<p>hi</p>"));
                  (lit "projectAlias", JStr (lit "demo"))])
           (JStr (lit "<p>hi</p>"))); reflexivity.
Defined.

(** X24: when the css or the js of the request cannot be trimmed (a
    value that is true in a condition and is not a string), the stream
    ends after its first two status events with one error event that
    carries the message of the error: no closing marker is sent and the
    service is not called. *)
Theorem untrimmable_input_ends_stream (rt : Runtime) (w : World) (gen : jsstring)
    (svc : Service) (html css js projectName projectAlias : JSValue) (h : jsstring)
    (t : Thrown) :
  trimOf html = Ret h ->
  trimOrEmpty css = Throw t
  \/ (exists c, trimOrEmpty css = Ret c) /\ trimOrEmpty js = Throw t ->
  exists e10 e30,
    snd (postStart rt w gen svc html css js projectName projectAlias)
    = [Enqueue e10; Enqueue e30;
       Enqueue (errorEvent (JStr (messageOr (lit "Deployment failed") t))); Close]
    /\ isStatus e10 = true /\ isStatus e30 = true
    /\ progressOf e10 = 10%Z /\ progressOf e30 = 30%Z.
Proof.
  intros H [C | [[c C] J]]; unfold postStart; rewrite H, C; [|rewrite J];
    runM; eexists _, _; (split; [reflexivity|]); repeat split.
Qed.

Lemma untrimmable_input_ends_stream_witness :
  exists e10 e30,
    snd (postStart exampleRuntime happyWorld (lit "gen") exampleService
           (JStr (lit "<p>hi</p>")) (JNum 5) JUndefined JUndefined (JStr (lit "demo")))
    = [Enqueue e10; Enqueue e30;
       Enqueue (errorEvent (JStr (messageOr (lit "Deployment failed")
                                    (typeError (lit "trim is not a function"))))); Close]
    /\ isStatus e10 = true /\ isStatus e30 = true
    /\ progressOf e10 = 10%Z /\ progressOf e30 = 30%Z.
Proof.
  apply (untrimmable_input_ends_stream exampleRuntime happyWorld (lit "gen") exampleService
           (JStr (lit "<p>hi</p>")) (JNum 5) JUndefined JUndefined (JStr (lit "demo"))
           (lit "<p>hi</p>") (typeError (lit "trim is not a function"))).
  - reflexivity.
  - left. reflexivity.
Defined.

(** ** The route that answers in one piece *)



(** X26: an html that is neither a string nor [undefined] nor [null]
    makes the route that answers in one piece fail in its log line: the
    answer has status 500, where the streaming route answers 400 with
    the message about the html; neither makes a call. *)
Theorem non_string_html_status (rt : Runtime) (w : World) (gen : jsstring) (env : Env)
    (body html : JSValue) :
  getProp body (lit "html") = Ret html ->
  otherThanString html = true ->
  (exists b, DeployRoute.POST rt w gen env (BodyJson body)
             = (Ret (JsonResponse 500 b), [])
             /\ getOpt b (lit "success") = JBool false)
  /\ POST rt w gen env (BodyJson body)
     = (Ret (JsonResponse 400 (errorBody (lit "Missing or invalid HTML content"))), []).
Proof.
  intros H O. split.
  - unfold DeployRoute.POST. runM. rewrite H. cbn [fst snd app].
    destruct html; try discriminate O; cbn [DeployRoute.preview fst snd app];
      eexists; split; reflexivity.
  - unfold POST. runM. rewrite H. cbn [fst snd app].
    destruct html; try discriminate O; reflexivity.
Qed.

Lemma non_string_html_status_witness :
  (exists b, DeployRoute.POST exampleRuntime happyWorld (lit "gen") exampleEnv
               (BodyJson (JObj [(lit "html", JNum 5);
                                (lit "projectAlias", JStr (lit "demo"))]))
             = (Ret (JsonResponse 500 b), [])
             /\ getOpt b (lit "success") = JBool false)
  /\ POST exampleRuntime happyWorld (lit "gen") exampleEnv
       (BodyJson (JObj [(lit "html", JNum 5);
                        (lit "projectAlias", JStr (lit "demo"))]))
     = (Ret (JsonResponse 400 (errorBody (lit "Missing or invalid HTML content"))), []).
Proof.
  apply (non_string_html_status exampleRuntime happyWorld (lit "gen") exampleEnv
           (JObj [(lit "html", JNum 5); (lit "projectAlias", JStr (lit "demo"))])
           (JNum 5)); reflexivity.
Defined.

(** ** Downloading a deployment *)

Lemma tryFiles_shape rt remote baseUrl :
  (length (fst (Download.tryFiles rt remote baseUrl)) <= 3)%nat
  /\ Download.isSubsequence (keys (fst (Download.tryFiles rt remote baseUrl)))
       Download.fileNames = true
  /\ forallb Download.sizeIsLength (fst (Download.tryFiles rt remote baseUrl)) = true.
Proof.
  unfold Download.tryFiles, Download.fileNames. cbn [fst fold_left].
  unfold Download.tryFile.
  destruct (Download.fetchFile remote (Download.fileUrlOf rt baseUrl (lit "index.html")))
    as [t1 | [] [c1|t1] ct1];
    destruct (Download.fetchFile remote (Download.fileUrlOf rt baseUrl (lit "styles.css")))
      as [t2 | [] [c2|t2] ct2];
    destruct (Download.fetchFile remote (Download.fileUrlOf rt baseUrl (lit "script.js")))
      as [t3 | [] [c3|t3] ct3];
    repeat (progress (cbn -[jsEq Nat.eqb length]; ground_keys));
    unfold Download.sizeIsLength; cbn [snd Download.fSize Download.fContent];
    rewrite ?Nat.eqb_refl; repeat split; cbn [length]; lia.
Qed.

Ltac runD :=
  unfold Download.andThen, Download.pure, Download.call; cbn [fst snd app].

Lemma fetchDeployment_downloaded rt remote projectName deploymentId did url files n :
  fst (Download.fetchDeployment rt remote projectName deploymentId)
  = Ret (Download.Downloaded did url files n) ->
  did = deploymentId
  /\ files = fst (Download.tryFiles rt remote url)
  /\ n = length files
  /\ snd (Download.fetchDeployment rt remote projectName deploymentId)
     = Download.DeploymentsGet projectName deploymentId
       :: snd (Download.tryFiles rt remote url)
  /\ (exists deployment result,
        Download.deploymentsGet remote deploymentId = Ret deployment
        /\ getProp deployment (lit "result") = Ret result
        /\ truthy result = true
        /\ url = getOpt result (lit "url")).
Proof.
  unfold Download.fetchDeployment. runD.
  destruct (Download.deploymentsGet remote deploymentId) as [d|t] eqn:G;
    cbn [fst snd app]; [|discriminate].
  destruct (getProp d (lit "result")) as [r|t] eqn:P; cbn [fst snd app]; [|discriminate].
  destruct (truthy r) eqn:T; cbn [negb fst snd app]; [|discriminate].
  intro E. injection E as <- <- <- <-.
  split; [reflexivity|]. split; [reflexivity|]. split; [reflexivity|].
  split; [reflexivity|].
  exists d, r. repeat split; assumption.
Qed.

Lemma latestDeployment_cases remote projectName :
  snd (Download.latestDeployment remote projectName)
  = [Download.DeploymentsList projectName]
  /\ forall r, fst (Download.latestDeployment remote projectName) = Ret (inl r) ->
               exists message, r = Download.NoDeployments message projectName.
Proof.
  unfold Download.latestDeployment. runD.
  destruct (Download.deploymentsList remote) as [d|t]; cbn [fst snd app];
    [|split; [reflexivity | discriminate]].
  destruct (getProp d (lit "result")) as [r|t]; cbn [fst snd app];
    [|split; [reflexivity | discriminate]].
  destruct (negb (truthy r) || Download.lengthIsZero r); cbn [fst snd app].
  - split; [reflexivity|]. intros r0 E. injection E as <-. eexists. reflexivity.
  - destruct (getProp (Download.first r) (lit "id")); cbn [fst snd app];
      split; try reflexivity; discriminate.
Qed.

(** X27: a download that succeeds has tried the three file names, in
    their order, under the url of the deployment, as its last three
    calls, after the details of the deployment and at most one listing.
    It keeps at most three files, in that order, each with the length
    of its content as size, and reports their number. *)
Theorem download_tries_every_file (rt : Runtime) (remote : Download.Remote)
    (projectName : jsstring) (deploymentId did url : JSValue)
    (files : list (jsstring * Download.FileEntry)) (n : nat) :
  fst (Download.downloadDeploymentFiles rt remote projectName deploymentId)
  = Download.Downloaded did url files n ->
  n = length files
  /\ (n <= 3)%nat
  /\ Download.isSubsequence (keys files) Download.fileNames = true
  /\ forallb Download.sizeIsLength files = true
  /\ exists pre,
       snd (Download.downloadDeploymentFiles rt remote projectName deploymentId)
       = pre ++ Download.DeploymentsGet projectName did
               :: map (fun fileName => Download.FetchFile (Download.fileUrlOf rt url fileName))
                    Download.fileNames
       /\ (pre = [] \/ pre = [Download.DeploymentsList projectName]).
Proof.
  unfold Download.downloadDeploymentFiles, Download.attempt.
  assert (K : forall pre id,
             fst (Download.fetchDeployment rt remote projectName id)
             = Ret (Download.Downloaded did url files n) ->
             (pre = [] \/ pre = [Download.DeploymentsList projectName]) ->
             n = length files
             /\ (n <= 3)%nat
             /\ Download.isSubsequence (keys files) Download.fileNames = true
             /\ forallb Download.sizeIsLength files = true
             /\ exists pre0,
                  pre ++ snd (Download.fetchDeployment rt remote projectName id)
                  = pre0 ++ Download.DeploymentsGet projectName did
                            :: map (fun fileName =>
                                      Download.FetchFile (Download.fileUrlOf rt url fileName))
                                 Download.fileNames
                  /\ (pre0 = [] \/ pre0 = [Download.DeploymentsList projectName])).
  { intros pre id E P.
    destruct (fetchDeployment_downloaded _ _ _ _ _ _ _ _ E) as [-> [-> [-> [Tr _]]]].
    destruct (tryFiles_shape rt remote url) as [L [S Z]].
    split; [reflexivity|]. split; [exact L|]. split; [exact S|]. split; [exact Z|].
    exists pre. split; [|exact P]. rewrite Tr. reflexivity. }
  destruct (truthy deploymentId); runD.
  - destruct (fst (Download.fetchDeployment rt remote projectName deploymentId))
      as [r|t] eqn:E; cbn [fst snd]; [|discriminate].
    intros ->. apply (K [] deploymentId E). left. reflexivity.
  - destruct (latestDeployment_cases remote projectName) as [Tr Early].
    rewrite Tr.
    destruct (fst (Download.latestDeployment remote projectName)) as [[early|id]|t] eqn:F;
      cbn [fst snd]; [| |discriminate].
    + intros ->. destruct (Early _ eq_refl) as [m D]. discriminate D.
    + destruct (fst (Download.fetchDeployment rt remote projectName id))
        as [r|t] eqn:E; cbn [fst snd]; [|discriminate].
      intros ->. apply (K [Download.DeploymentsList projectName] id E). right. reflexivity.
Qed.

Lemma download_tries_every_file_witness :
  1%nat = length [(lit "index.html",
                   Download.mkFileEntry (lit "<p>hi</p>") 9 (lit "text/html"))]
  /\ (1 <= 3)%nat
  /\ Download.isSubsequence
       (keys [(lit "index.html",
               Download.mkFileEntry (lit "<p>hi</p>") 9 (lit "text/html"))])
       Download.fileNames = true
  /\ forallb Download.sizeIsLength
       [(lit "index.html", Download.mkFileEntry (lit "<p>hi</p>") 9 (lit "text/html"))]
     = true
  /\ exists pre,
       snd (Download.downloadDeploymentFiles exampleRuntime Download.exampleRemote
              (lit "demo") JNull)
       = pre ++ Download.DeploymentsGet (lit "demo") (JStr (lit "d1"))
               :: map (fun fileName =>
                         Download.FetchFile
                           (Download.fileUrlOf exampleRuntime
                              (JStr (lit "https://d1.demo.pages.dev")) fileName))
                    Download.fileNames
       /\ (pre = [] \/ pre = [Download.DeploymentsList (lit "demo")]).
Proof.
  apply (download_tries_every_file exampleRuntime Download.exampleRemote (lit "demo")
           JNull (JStr (lit "d1")) (JStr (lit "https://d1.demo.pages.dev"))
           [(lit "index.html", Download.mkFileEntry (lit "<p>hi</p>") 9 (lit "text/html"))]
           1%nat).
  vm_compute. reflexivity.
Defined.

(** X28: with a deployment id the deployments are not listed, and as
    soon as the details of the deployment have a [result] the download
    succeeds, whatever the three requests for the files do: it reports
    the id it was given and the [url] of the [result]. *)
Theorem download_with_id_succeeds (rt : Runtime) (remote : Download.Remote)
    (projectName : jsstring) (deploymentId deployment result : JSValue) :
  truthy deploymentId = true ->
  Download.deploymentsGet remote deploymentId = Ret deployment ->
  getProp deployment (lit "result") = Ret result ->
  truthy result = true ->
  exists files,
    Download.downloadDeploymentFiles rt remote projectName deploymentId
    = (Download.Downloaded deploymentId (getOpt result (lit "url")) files (length files),
       Download.DeploymentsGet projectName deploymentId
       :: map (fun fileName =>
                 Download.FetchFile
                   (Download.fileUrlOf rt (getOpt result (lit "url")) fileName))
            Download.fileNames)
    /\ existsb Download.isDeploymentsList
         (snd (Download.downloadDeploymentFiles rt remote projectName deploymentId))
       = false.
Proof.
  intros T G P R.
  assert (E : Download.downloadDeploymentFiles rt remote projectName deploymentId
              = (Download.Downloaded deploymentId (getOpt result (lit "url"))
                   (fst (Download.tryFiles rt remote (getOpt result (lit "url"))))
                   (length (fst (Download.tryFiles rt remote (getOpt result (lit "url"))))),
                 Download.DeploymentsGet projectName deploymentId
                 :: map (fun fileName =>
                           Download.FetchFile
                             (Download.fileUrlOf rt (getOpt result (lit "url")) fileName))
                      Download.fileNames)).
  { unfold Download.downloadDeploymentFiles, Download.attempt, Download.fetchDeployment.
    rewrite T. runD. rewrite G. cbn [fst snd app]. rewrite P. cbn [fst snd app].
    rewrite R. reflexivity. }
  eexists. split; [exact E|]. rewrite E. reflexivity.
Qed.

Lemma download_with_id_succeeds_witness :
  exists files,
    Download.downloadDeploymentFiles exampleRuntime Download.exampleRemote (lit "demo")
      (JStr (lit "d7"))
    = (Download.Downloaded (JStr (lit "d7"))
         (getOpt (JObj [(lit "url", JStr (lit "https://d1.demo.pages.dev"))]) (lit "url"))
         files (length files),
       Download.DeploymentsGet (lit "demo") (JStr (lit "d7"))
       :: map (fun fileName =>
                 Download.FetchFile
                   (Download.fileUrlOf exampleRuntime
                      (getOpt (JObj [(lit "url", JStr (lit "https://d1.demo.pages.dev"))])
                         (lit "url")) fileName))
            Download.fileNames)
    /\ existsb Download.isDeploymentsList
         (snd (Download.downloadDeploymentFiles exampleRuntime Download.exampleRemote
                 (lit "demo") (JStr (lit "d7"))))
       = false.
Proof.
  apply (download_with_id_succeeds exampleRuntime Download.exampleRemote (lit "demo")
           (JStr (lit "d7"))
           (JObj [(lit "result",
                   JObj [(lit "url", JStr (lit "https://d1.demo.pages.dev"))])])
           (JObj [(lit "url", JStr (lit "https://d1.demo.pages.dev"))]));
    reflexivity.
Defined.

(** ** Listing the projects *)

Lemma rowsOf_length l rows : Listing.rowsOf l = Some rows -> length rows = length l.
Proof.
  revert rows. induction l as [|d l IH]; intros rows E; simpl in E.
  - injection E as <-. reflexivity.
  - destruct (Listing.deploymentRow d); [|discriminate].
    destruct (Listing.rowsOf l) as [rows'|]; [|discriminate].
    injection E as <-. simpl. f_equal. apply IH. reflexivity.
Qed.

Lemma latestRows_short deployments rows :
  Listing.latestRows deployments = Some rows -> (length rows <= 5)%nat.
Proof.
  unfold Listing.latestRows.
  destruct (getProp deployments (lit "result")) as [[| | | | | l |]|]; try discriminate.
  intro E. rewrite (rowsOf_length _ _ E). apply firstn_le_length.
Qed.

Lemma entryOf_describes project rows :
  (length rows <= 5)%nat -> Listing.describes project (Listing.entryOf project rows).
Proof.
  intro L. unfold Listing.describes, Listing.entryOf.
  cbn -[jsEq]. ground_keys. cbn -[jsEq].
  repeat split. exists rows. split; [reflexivity | exact L].
Qed.

Lemma withDeployments_entry remote position project :
  nullish project = false ->
  exists entry,
    fst (Listing.withDeployments remote position project) = Ret entry
    /\ Listing.describes project entry
    /\ snd (Listing.withDeployments remote position project)
       = [Listing.DeploymentsList (getOpt project (lit "name"))]
    /\ ((forall deployments, Listing.deploymentsList remote position <> Ret deployments) ->
        entry = Listing.entryOf project []).
Proof.
  intro N. unfold Listing.withDeployments.
  assert (G : getProp project (lit "name") = Ret (getOpt project (lit "name")))
    by (destruct project; try discriminate N; reflexivity).
  rewrite G. cbn [fst snd].
  destruct (Listing.deploymentsList remote position) as [d|t].
  - destruct (Listing.latestRows d) as [rows|] eqn:R.
    + eexists. split; [reflexivity|]. split.
      * apply entryOf_describes. apply (latestRows_short _ _ R).
      * split; [reflexivity|]. intro H. exfalso. apply (H d). reflexivity.
    + eexists. split; [reflexivity|]. split.
      * apply entryOf_describes. simpl. lia.
      * split; reflexivity.
  - eexists. split; [reflexivity|]. split.
    + apply entryOf_describes. simpl. lia.
    + split; reflexivity.
Qed.

Lemma allWithDeployments_entries remote projects : forall position,
  forallb (fun p => negb (nullish p)) projects = true ->
  exists entries,
    fst (Listing.allWithDeployments remote position projects) = Ret entries
    /\ Forall2 Listing.describes projects entries
    /\ snd (Listing.allWithDeployments remote position projects)
       = map (fun p => Listing.DeploymentsList (getOpt p (lit "name"))) projects.
Proof.
  induction projects as [|p projects IH]; intros position H.
  - exists []. repeat split. constructor.
  - simpl in H. apply andb_true_iff in H. destruct H as [Hp H].
    apply negb_true_iff in Hp.
    destruct (withDeployments_entry remote position p Hp) as [e [E [D [Tr _]]]].
    destruct (IH (S position) H) as [es [Es [Ds Trs]]].
    exists (e :: es). cbn [Listing.allWithDeployments fst snd].
    rewrite E, Es, Tr, Trs. repeat split. constructor; assumption.
Qed.

(** X29: when the projects can be listed and none of them is
    [undefined] or [null], [listPages] succeeds whatever the listing of
    the deployments of each project does: it asks for the deployments of
    every project, in the order of the list, and returns one entry per
    project, in that order, with the id, the name and the creation time
    of the project and at most five deployments. *)
Theorem listPages_one_entry_per_project (remote : Listing.Remote)
    (reply : JSValue) (projects : list JSValue) :
  Listing.projectsList remote = Ret reply ->
  getProp reply (lit "result") = Ret (JArr projects) ->
  forallb (fun p => negb (nullish p)) projects = true ->
  exists entries,
    Listing.listPages remote
    = (Listing.Listed entries,
       Listing.ProjectsList
       :: map (fun p => Listing.DeploymentsList (getOpt p (lit "name"))) projects)
    /\ Forall2 Listing.describes projects entries.
Proof.
  intros P R N.
  destruct (allWithDeployments_entries remote projects 0 N) as [entries [E [D Tr]]].
  exists entries. split; [|exact D].
  unfold Listing.listPages. rewrite P, R. cbv zeta. rewrite E, Tr. reflexivity.
Qed.

Lemma listPages_one_entry_per_project_witness :
  exists entries,
    Listing.listPages Listing.exampleRemote
    = (Listing.Listed entries,
       Listing.ProjectsList
       :: map (fun p => Listing.DeploymentsList (getOpt p (lit "name")))
            [JObj [(lit "id", JStr (lit "p1")); (lit "name", JStr (lit "one"))];
             JObj [(lit "id", JStr (lit "p2")); (lit "name", JStr (lit "two"))]])
    /\ Forall2 Listing.describes
         [JObj [(lit "id", JStr (lit "p1")); (lit "name", JStr (lit "one"))];
          JObj [(lit "id", JStr (lit "p2")); (lit "name", JStr (lit "two"))]]
         entries.
Proof.
  apply (listPages_one_entry_per_project Listing.exampleRemote
           (JObj [(lit "result",
                   JArr [JObj [(lit "id", JStr (lit "p1")); (lit "name", JStr (lit "one"))];
                         JObj [(lit "id", JStr (lit "p2")); (lit "name", JStr (lit "two"))]])])
           [JObj [(lit "id", JStr (lit "p1")); (lit "name", JStr (lit "one"))];
            JObj [(lit "id", JStr (lit "p2")); (lit "name", JStr (lit "two"))]]);
    reflexivity.
Defined.

(** ** The client of the deployment stream *)

Section ClientOrder.

Variable parse : jsstring -> Outcome JSValue.
Variable isAborted : StreamClient.Moment -> bool.

Lemma statuses_inOrder calls :
  forallb StreamClient.isOnStatus calls = true -> StreamClient.inOrder calls.
Proof.
  intro H. exists calls, []. rewrite app_nil_r. repeat split; [exact H | left; reflexivity].
Qed.

Lemma inOrder_after statuses calls :
  forallb StreamClient.isOnStatus statuses = true ->
  StreamClient.inOrder calls -> StreamClient.inOrder (statuses ++ calls).
Proof.
  intros H [st [term [-> [S T]]]]. exists (statuses ++ st), term.
  rewrite app_assoc, forallb_app, H, S. repeat split. exact T.
Qed.

Lemma handle_shape data :
  match StreamClient.handle parse data with
  | StreamClient.Continue calls => forallb StreamClient.isOnStatus calls = true
  | StreamClient.Return calls => exists c, calls = [c] /\ StreamClient.isOnStatus c = false
  end.
Proof.
  unfold StreamClient.handle.
  destruct (parse data) as [event|t]; [|reflexivity].
  destruct (getProp event (lit "type")) as [[| | | | type | |]|t]; try reflexivity.
  destruct (jsEq type (lit "status")); [reflexivity|].
  destruct (jsEq type (lit "complete")); [eexists; split; reflexivity|].
  destruct (jsEq type (lit "error")); [eexists; split; reflexivity | reflexivity].
Qed.

Lemma processLines_shape lines :
  match StreamClient.processLines parse lines with
  | StreamClient.Continue calls => forallb StreamClient.isOnStatus calls = true
  | StreamClient.Return calls => StreamClient.inOrder calls
  end.
Proof.
  induction lines as [|line rest IH]; [reflexivity|].
  cbn [StreamClient.processLines].
  destruct (startsWith (lit "data: ") line); [|exact IH].
  destruct (jsEq (skipn 6 line) (lit "[DONE]")).
  { apply statuses_inOrder. reflexivity. }
  pose proof (handle_shape (skipn 6 line)) as H.
  destruct (StreamClient.handle parse (skipn 6 line)) as [calls|calls].
  - destruct (StreamClient.processLines parse rest) as [more|more].
    + rewrite forallb_app, H, IH. reflexivity.
    + apply inOrder_after; assumption.
  - destruct H as [c [-> N]]. exists [], [c]. repeat split. right. eauto.
Qed.

Lemma readStream_shape reads : forall position,
  match snd (StreamClient.readStream parse isAborted position reads) with
  | None => StreamClient.inOrder (fst (StreamClient.readStream parse isAborted position reads))
  | Some _ =>
      forallb StreamClient.isOnStatus
        (fst (StreamClient.readStream parse isAborted position reads)) = true
  end.
Proof.
  induction reads as [|[text|t] rest IH]; intro position;
    cbn [StreamClient.readStream].
  - apply statuses_inOrder. reflexivity.
  - destruct (isAborted (StreamClient.AtRead position)).
    { apply statuses_inOrder. reflexivity. }
    pose proof (processLines_shape (StreamClient.splitLines text)) as P.
    destruct (StreamClient.processLines parse (StreamClient.splitLines text))
      as [calls|calls]; cbn [fst snd]; [|exact P].
    specialize (IH (S position)).
    destruct (snd (StreamClient.readStream parse isAborted (S position) rest)).
    + rewrite forallb_app, P, IH. reflexivity.
    + apply inOrder_after; assumption.
  - reflexivity.
Qed.

Lemma caught_inOrder statuses t :
  forallb StreamClient.isOnStatus statuses = true ->
  StreamClient.inOrder (statuses ++ StreamClient.caught isAborted t).
Proof.
  intro H. exists statuses, (StreamClient.caught isAborted t).
  split; [reflexivity|]. split; [exact H|].
  unfold StreamClient.caught. destruct (isAborted StreamClient.AtCatch);
    [left; reflexivity | right; eexists; split; reflexivity].
Qed.

(** X30: whatever the server sends and however it is cut into chunks,
    whatever [fetch], the reader and [JSON.parse] do and whenever the
    caller aborts, the client calls [onStatus] any number of times and
    then [onComplete] or [onError] at most once, and no callback after
    that. *)
Theorem client_calls_back_in_order (fetched : StreamClient.Fetched) :
  StreamClient.inOrder (StreamClient.streamDeployment parse isAborted fetched).
Proof.
  unfold StreamClient.streamDeployment.
  destruct fetched as [t | [] status statusText [reads|]];
    try (apply (caught_inOrder [] _); reflexivity).
  pose proof (readStream_shape reads 0) as R.
  destruct (snd (StreamClient.readStream parse isAborted 0 reads)) as [t|].
  - apply caught_inOrder. exact R.
  - rewrite app_nil_r. exact R.
Qed.

End ClientOrder.
